(** * Voice-conversation pipeline: a shallow embedding and its properties

    The development follows the Python sources of the call pipeline:
    - [conversation_manager.py]: the conversation oracle wrappers
      ([generate_first_response], [generate_response]), the normaliser
      [clean_extracted_data] and the mode switching at the end of
      [manage_conversation];
    - [shared_state.py]: the per-call [SharedState];
    - [speech_processing.py]: [WebRTCVADProcessor], [SpeechClientBridge] and
      [text_to_speech];
    - [websocket_handler.py]: [process_transcription], [process_spelling_mode],
      [on_transcription_response], [tts_worker] and the receive loop.

    Python [str] values are modelled as [string] (8-bit characters; text
    outside ASCII is carried as opaque bytes), dictionaries as [gmap],
    [queue.Queue] as a list in FIFO order, [time.time()] readings as rationals
    handed in by the caller, and the external services (the chat model, the
    recogniser's frame classifier, the synthesiser) as parameters. *)

From Stdlib Require Import ZArith NArith QArith Ascii String List Bool Lia.
From Stdlib.Strings Require Import Byte.
From stdpp Require Import base strings gmap list fin_maps.

Open Scope string_scope.

(** ** Python string operations *)

Module PyStr.

(** [str.isspace] on the ASCII range: TAB..CR, FS..US and SPACE. *)
Definition is_space (c : ascii) : bool :=
  let n := nat_of_ascii c in
  ((9 <=? n)%nat && (n <=? 13)%nat) || ((28 <=? n)%nat && (n <=? 32)%nat).

Definition is_digit (c : ascii) : bool :=
  let n := nat_of_ascii c in (48 <=? n)%nat && (n <=? 57)%nat.

Definition lower_char (c : ascii) : ascii :=
  let n := nat_of_ascii c in
  if (65 <=? n)%nat && (n <=? 90)%nat then ascii_of_nat (n + 32) else c.

(** [s.lower()] *)
Fixpoint lower (s : string) : string :=
  match s with
  | EmptyString => EmptyString
  | String c t => String (lower_char c) (lower t)
  end.

(** [s.startswith(p)] *)
Definition startswith (p s : string) : bool := String.prefix p s.

(** [sub in s] *)
Fixpoint contains (sub s : string) : bool :=
  String.prefix sub s ||
  match s with
  | EmptyString => false
  | String _ t => contains sub t
  end.

(** [any(p in s for p in phrases)] *)
Definition contains_any (phrases : list string) (s : string) : bool :=
  existsb (fun p => contains p s) phrases.

(** Scan of [s.replace(old, new)] for a non-empty [old]: occurrences are
    taken left to right without overlap; [skip] counts the characters of
    the occurrence just replaced that are still to be consumed. *)
Fixpoint replace_from (old new : string) (skip : nat) (s : string) : string :=
  match s with
  | EmptyString => EmptyString
  | String c t =>
      match skip with
      | S k => replace_from old new k t
      | O =>
          if String.prefix old s
          then new ++ replace_from old new (String.length old - 1) t
          else String c (replace_from old new 0 t)
      end
  end.

Fixpoint interleave (new s : string) : string :=
  match s with
  | EmptyString => new
  | String c t => new ++ String c (interleave new t)
  end.

(** [s.replace(old, new)] *)
Definition replace (old new s : string) : string :=
  match old with
  | EmptyString => interleave new s
  | _ => replace_from old new 0 s
  end.

(** Scan of [s.split(sep)] for a non-empty [sep]; [cur] is the part being
    collected. *)
Fixpoint split_from (sep : string) (skip : nat) (cur s : string) : list string :=
  match s with
  | EmptyString => [cur]
  | String c t =>
      match skip with
      | S k => split_from sep k cur t
      | O =>
          if String.prefix sep s
          then cur :: split_from sep (String.length sep - 1) EmptyString t
          else split_from sep 0 (cur ++ String c EmptyString) t
      end
  end.

(** [s.split(sep)], [sep] non-empty (an empty separator raises). *)
Definition split (sep s : string) : list string := split_from sep 0 EmptyString s.

(** [sep.join(parts)] *)
Definition join (sep : string) (parts : list string) : string :=
  String.concat sep parts.

Fixpoint lstrip (s : string) : string :=
  match s with
  | EmptyString => EmptyString
  | String c t => if is_space c then lstrip t else s
  end.

Fixpoint rstrip (s : string) : string :=
  match s with
  | EmptyString => EmptyString
  | String c t =>
      match rstrip t with
      | EmptyString => if is_space c then EmptyString else String c EmptyString
      | t' => String c t'
      end
  end.

(** [s.strip()] *)
Definition strip (s : string) : string := rstrip (lstrip s).

(** The character [c] does not occur in [s]. *)
Fixpoint free_of (c : ascii) (s : string) : bool :=
  match s with
  | EmptyString => true
  | String d t => negb (Ascii.eqb c d) && free_of c t
  end.

(** [''.join(ch for ch in s if ch.isdigit())] *)
Fixpoint digits_only (s : string) : string :=
  match s with
  | EmptyString => EmptyString
  | String c t => if is_digit c then String c (digits_only t) else digits_only t
  end.

(** [s.split()]: maximal runs of non-whitespace characters. *)
Fixpoint words_from (cur s : string) : list string :=
  match s with
  | EmptyString => match cur with EmptyString => [] | _ => [cur] end
  | String c t =>
      if is_space c
      then match cur with
           | EmptyString => words_from EmptyString t
           | _ => cur :: words_from EmptyString t
           end
      else words_from (cur ++ String c EmptyString) t
  end.

Definition words (s : string) : list string := words_from EmptyString s.

End PyStr.

(** ** Shared call state ([shared_state.py])

    A value parsed from the oracle's JSON block: a Python [str], or any other
    value, of which only [str(v)] and [bool(v)] are observed. *)

Inductive PyVal : Type :=
| PyStr (s : string)
| PyOther (repr : string) (truthy : bool).

(** [f"{v}"] *)
Definition py_format (v : PyVal) : string :=
  match v with
  | PyStr s => s
  | PyOther repr _ => repr
  end.

(** [bool(v)] *)
Definition py_truthy (v : PyVal) : bool :=
  match v with
  | PyStr s => negb (String.eqb s EmptyString)
  | PyOther _ t => t
  end.

(** The fields of [SharedState] that the call pipeline reads and writes.
    [pending_timer] holds the index of a timer in the call's timer table;
    attributes read with [getattr(self, name, default)] carry that default
    from the start. *)

Record SharedState : Type := mkState {
  full_transcript : list string;
  conversation_step : nat;
  stream_sid : option string;
  call_ended : bool;
  buffered_transcription : string;
  pending_timer : option nat;
  spelling_mode : bool;
  assistance_mode : bool;
  spelling_type : option string;
  interrupt_ai : bool;
  ai_is_speaking : bool;
  clear_command_sent : bool;
  user_is_speaking : bool;
  user_silence_detected : bool;
  last_spelling_processed_time : option Q;
  preformatted_prompt : option string;
  extracted_lead_data : option (gmap string PyVal)
}.

Definition set_stream_sid (sid : option string) (st : SharedState) : SharedState :=
  mkState
    (st.(full_transcript)) (st.(conversation_step)) (sid) (st.(call_ended))
    (st.(buffered_transcription)) (st.(pending_timer)) (st.(spelling_mode))
    (st.(assistance_mode)) (st.(spelling_type)) (st.(interrupt_ai))
    (st.(ai_is_speaking)) (st.(clear_command_sent)) (st.(user_is_speaking))
    (st.(user_silence_detected)) (st.(last_spelling_processed_time))
    (st.(preformatted_prompt)) (st.(extracted_lead_data)).

Definition set_call_ended (ended : bool) (st : SharedState) : SharedState :=
  mkState
    (st.(full_transcript)) (st.(conversation_step)) (st.(stream_sid)) (ended)
    (st.(buffered_transcription)) (st.(pending_timer)) (st.(spelling_mode))
    (st.(assistance_mode)) (st.(spelling_type)) (st.(interrupt_ai))
    (st.(ai_is_speaking)) (st.(clear_command_sent)) (st.(user_is_speaking))
    (st.(user_silence_detected)) (st.(last_spelling_processed_time))
    (st.(preformatted_prompt)) (st.(extracted_lead_data)).

Definition set_buffered_transcription (transcription : string) (st : SharedState) : SharedState :=
  mkState
    (st.(full_transcript)) (st.(conversation_step)) (st.(stream_sid))
    (st.(call_ended)) (transcription) (st.(pending_timer)) (st.(spelling_mode))
    (st.(assistance_mode)) (st.(spelling_type)) (st.(interrupt_ai))
    (st.(ai_is_speaking)) (st.(clear_command_sent)) (st.(user_is_speaking))
    (st.(user_silence_detected)) (st.(last_spelling_processed_time))
    (st.(preformatted_prompt)) (st.(extracted_lead_data)).

Definition store_pending_timer (timer : option nat) (st : SharedState) : SharedState :=
  mkState
    (st.(full_transcript)) (st.(conversation_step)) (st.(stream_sid))
    (st.(call_ended)) (st.(buffered_transcription)) (timer) (st.(spelling_mode))
    (st.(assistance_mode)) (st.(spelling_type)) (st.(interrupt_ai))
    (st.(ai_is_speaking)) (st.(clear_command_sent)) (st.(user_is_speaking))
    (st.(user_silence_detected)) (st.(last_spelling_processed_time))
    (st.(preformatted_prompt)) (st.(extracted_lead_data)).

Definition set_spelling_mode (is_spelling : bool) (st : SharedState) : SharedState :=
  mkState
    (st.(full_transcript)) (st.(conversation_step)) (st.(stream_sid))
    (st.(call_ended)) (st.(buffered_transcription)) (st.(pending_timer)) (is_spelling)
    (st.(assistance_mode)) (st.(spelling_type)) (st.(interrupt_ai))
    (st.(ai_is_speaking)) (st.(clear_command_sent)) (st.(user_is_speaking))
    (st.(user_silence_detected)) (st.(last_spelling_processed_time))
    (st.(preformatted_prompt)) (st.(extracted_lead_data)).

Definition set_assistance_mode (is_assistance : bool) (st : SharedState) : SharedState :=
  mkState
    (st.(full_transcript)) (st.(conversation_step)) (st.(stream_sid))
    (st.(call_ended)) (st.(buffered_transcription)) (st.(pending_timer))
    (st.(spelling_mode)) (is_assistance) (st.(spelling_type)) (st.(interrupt_ai))
    (st.(ai_is_speaking)) (st.(clear_command_sent)) (st.(user_is_speaking))
    (st.(user_silence_detected)) (st.(last_spelling_processed_time))
    (st.(preformatted_prompt)) (st.(extracted_lead_data)).

Definition set_spelling_type (spelling_type' : option string) (st : SharedState) : SharedState :=
  mkState
    (st.(full_transcript)) (st.(conversation_step)) (st.(stream_sid))
    (st.(call_ended)) (st.(buffered_transcription)) (st.(pending_timer))
    (st.(spelling_mode)) (st.(assistance_mode)) (spelling_type') (st.(interrupt_ai))
    (st.(ai_is_speaking)) (st.(clear_command_sent)) (st.(user_is_speaking))
    (st.(user_silence_detected)) (st.(last_spelling_processed_time))
    (st.(preformatted_prompt)) (st.(extracted_lead_data)).

Definition set_interrupt_ai (interrupt : bool) (st : SharedState) : SharedState :=
  mkState
    (st.(full_transcript)) (st.(conversation_step)) (st.(stream_sid))
    (st.(call_ended)) (st.(buffered_transcription)) (st.(pending_timer))
    (st.(spelling_mode)) (st.(assistance_mode)) (st.(spelling_type)) (interrupt)
    (st.(ai_is_speaking)) (st.(clear_command_sent)) (st.(user_is_speaking))
    (st.(user_silence_detected)) (st.(last_spelling_processed_time))
    (st.(preformatted_prompt)) (st.(extracted_lead_data)).

Definition set_ai_speaking (speaking : bool) (st : SharedState) : SharedState :=
  mkState
    (st.(full_transcript)) (st.(conversation_step)) (st.(stream_sid))
    (st.(call_ended)) (st.(buffered_transcription)) (st.(pending_timer))
    (st.(spelling_mode)) (st.(assistance_mode)) (st.(spelling_type))
    (st.(interrupt_ai)) (speaking) (st.(clear_command_sent)) (st.(user_is_speaking))
    (st.(user_silence_detected)) (st.(last_spelling_processed_time))
    (st.(preformatted_prompt)) (st.(extracted_lead_data)).

Definition set_clear_command_sent (sent : bool) (st : SharedState) : SharedState :=
  mkState
    (st.(full_transcript)) (st.(conversation_step)) (st.(stream_sid))
    (st.(call_ended)) (st.(buffered_transcription)) (st.(pending_timer))
    (st.(spelling_mode)) (st.(assistance_mode)) (st.(spelling_type))
    (st.(interrupt_ai)) (st.(ai_is_speaking)) (sent) (st.(user_is_speaking))
    (st.(user_silence_detected)) (st.(last_spelling_processed_time))
    (st.(preformatted_prompt)) (st.(extracted_lead_data)).

Definition set_user_is_speaking (is_speaking : bool) (st : SharedState) : SharedState :=
  mkState
    (st.(full_transcript)) (st.(conversation_step)) (st.(stream_sid))
    (st.(call_ended)) (st.(buffered_transcription)) (st.(pending_timer))
    (st.(spelling_mode)) (st.(assistance_mode)) (st.(spelling_type))
    (st.(interrupt_ai)) (st.(ai_is_speaking)) (st.(clear_command_sent)) (is_speaking)
    (st.(user_silence_detected)) (st.(last_spelling_processed_time))
    (st.(preformatted_prompt)) (st.(extracted_lead_data)).

Definition set_user_silence_detected (silence_detected : bool) (st : SharedState) : SharedState :=
  mkState
    (st.(full_transcript)) (st.(conversation_step)) (st.(stream_sid))
    (st.(call_ended)) (st.(buffered_transcription)) (st.(pending_timer))
    (st.(spelling_mode)) (st.(assistance_mode)) (st.(spelling_type))
    (st.(interrupt_ai)) (st.(ai_is_speaking)) (st.(clear_command_sent))
    (st.(user_is_speaking)) (silence_detected) (st.(last_spelling_processed_time))
    (st.(preformatted_prompt)) (st.(extracted_lead_data)).

Definition set_last_spelling_processed_time (timestamp : option Q) (st : SharedState) : SharedState :=
  mkState
    (st.(full_transcript)) (st.(conversation_step)) (st.(stream_sid))
    (st.(call_ended)) (st.(buffered_transcription)) (st.(pending_timer))
    (st.(spelling_mode)) (st.(assistance_mode)) (st.(spelling_type))
    (st.(interrupt_ai)) (st.(ai_is_speaking)) (st.(clear_command_sent))
    (st.(user_is_speaking)) (st.(user_silence_detected)) (timestamp)
    (st.(preformatted_prompt)) (st.(extracted_lead_data)).

Definition set_preformatted_prompt (prompt : option string) (st : SharedState) : SharedState :=
  mkState
    (st.(full_transcript)) (st.(conversation_step)) (st.(stream_sid))
    (st.(call_ended)) (st.(buffered_transcription)) (st.(pending_timer))
    (st.(spelling_mode)) (st.(assistance_mode)) (st.(spelling_type))
    (st.(interrupt_ai)) (st.(ai_is_speaking)) (st.(clear_command_sent))
    (st.(user_is_speaking)) (st.(user_silence_detected))
    (st.(last_spelling_processed_time)) (prompt) (st.(extracted_lead_data)).

Definition set_extracted_lead_data (data : option (gmap string PyVal)) (st : SharedState) : SharedState :=
  mkState
    (st.(full_transcript)) (st.(conversation_step)) (st.(stream_sid))
    (st.(call_ended)) (st.(buffered_transcription)) (st.(pending_timer))
    (st.(spelling_mode)) (st.(assistance_mode)) (st.(spelling_type))
    (st.(interrupt_ai)) (st.(ai_is_speaking)) (st.(clear_command_sent))
    (st.(user_is_speaking)) (st.(user_silence_detected))
    (st.(last_spelling_processed_time)) (st.(preformatted_prompt)) (data).

Definition update_transcript (message : string) (st : SharedState) : SharedState :=
  mkState
    (st.(full_transcript) ++ [message]) (st.(conversation_step)) (st.(stream_sid))
    (st.(call_ended)) (st.(buffered_transcription)) (st.(pending_timer))
    (st.(spelling_mode)) (st.(assistance_mode)) (st.(spelling_type))
    (st.(interrupt_ai)) (st.(ai_is_speaking)) (st.(clear_command_sent))
    (st.(user_is_speaking)) (st.(user_silence_detected))
    (st.(last_spelling_processed_time)) (st.(preformatted_prompt))
    (st.(extracted_lead_data)).

Definition increment_step (st : SharedState) : SharedState :=
  mkState
    (st.(full_transcript)) (S st.(conversation_step)) (st.(stream_sid))
    (st.(call_ended)) (st.(buffered_transcription)) (st.(pending_timer))
    (st.(spelling_mode)) (st.(assistance_mode)) (st.(spelling_type))
    (st.(interrupt_ai)) (st.(ai_is_speaking)) (st.(clear_command_sent))
    (st.(user_is_speaking)) (st.(user_silence_detected))
    (st.(last_spelling_processed_time)) (st.(preformatted_prompt))
    (st.(extracted_lead_data)).

Definition initial_state : SharedState :=
  mkState [] 0 None false EmptyString None false false None false false false
          false false None None None.

(** At most one of the two mode flags is set. *)
Definition exclusive (st : SharedState) : Prop :=
  st.(spelling_mode) && st.(assistance_mode) = false.

(** ** The conversation oracle and the mode switch ([conversation_manager.py]) *)

Module ConversationManager.
Import PyStr.

(** *** [clean_extracted_data] *)

Definition clean_email (value : string) : string :=
  let v := replace " dot " "." (replace " at " "@" value) in
  let v := replace " DOT " "." (replace " AT " "@" v) in
  let v := replace "dot " "." (replace "at " "@" v) in
  let v := replace " dot" "." (replace " at" "@" v) in
  let v :=
    if negb (contains "@" v) && contains "at" v
    then match split "at" v with
         | [p0; p1] => p0 ++ "@" ++ p1
         | _ => v
         end
    else v in
  let v := if contains "dot" v then join "." (split "dot" v) else v in
  replace " " "" v.

(** The body of the loop over [data.items()], for one item. *)
Definition clean_field (key : string) (value : PyVal) : PyVal :=
  match value with
  | PyStr s =>
      if String.eqb key "first_name" || String.eqb key "last_name"
      then PyStr (replace " " "" (replace "-" "" s))
      else if String.eqb key "email" then PyStr (clean_email s)
      else value
  | PyOther _ _ => value
  end.

(** [not cleaned_data.get('name')] *)
Definition name_missing (cleaned : gmap string PyVal) : bool :=
  match cleaned !! "name" with
  | Some v => negb (py_truthy v)
  | None => true
  end.

Definition clean_extracted_data (data : gmap string PyVal) : gmap string PyVal :=
  if decide (data = ∅) then data
  else
    let cleaned_data := map_imap (fun key value => Some (clean_field key value)) data in
    match cleaned_data !! "first_name", cleaned_data !! "last_name" with
    | Some f, Some l =>
        <["name" := PyStr (strip (py_format f ++ " " ++ py_format l))]> cleaned_data
    | Some f, None =>
        if name_missing cleaned_data then <["name" := f]> cleaned_data else cleaned_data
    | None, Some l =>
        if name_missing cleaned_data then <["name" := l]> cleaned_data else cleaned_data
    | None, None => cleaned_data
    end.

(** *** The chat model and the two response generators *)

(** What [chat.send_message] can raise: the four classes that
    [generate_response] names, and anything else. [ResourceExhausted]
    carries [str(e)]. *)
Inductive ApiError : Type :=
| ResourceExhausted (msg : string)
| ServiceUnavailable
| ServerError
| DeadlineExceeded
| OtherError.

Inductive Outcome : Type :=
| Reply (text : string)
| Raise (e : ApiError).

Inductive PyExc : Type :=
| ApiExc (e : ApiError)
| NameError (name : string).

Inductive Result : Type :=
| Returned (text : string)
| Propagated (x : PyExc).

(** One run of a generator: what the caller gets, how many times
    [send_message] was called, and the [time.sleep] arguments in order. *)
Record Run : Type := mkRun {
  result : Result;
  calls : nat;
  sleeps : list Q
}.

(** Names bound at module level in [conversation_manager.py]: the imports
    ([import google.generativeai as genai] binds [genai] only) and the
    module's own definitions. *)
Definition module_globals : list string :=
  [ "genai"; "GeminiManager"; "os"; "json"; "tokenization"; "random";
    "get_call_logger"; "time"; "DEFAULT_PROMPT_PATH"; "MODEL_NAME"; "tokenizer";
    "count_tokens"; "load_prompt_template"; "DEFAULT_PROMPT";
    "RETURNING_LEAD_PROMPT"; "initialize_components"; "generate_first_response";
    "generate_response"; "clean_extracted_data"; "manage_conversation" ].

Definition name_bound (globals : list string) (name : string) : bool :=
  existsb (String.eqb name) globals.

Definition max_retries : nat := 3.
Definition base_delay : Q := 1%Q.

Definition quota_apology : string :=
  "I'm sorry, but I'm having trouble processing your request right now. Let me take your information and have someone call you back shortly.".
Definition exhausted_apology : string :=
  "I'm having trouble understanding you right now. Could you please repeat that?".
Definition unavailable_apology : string :=
  "I apologize, but our service is temporarily unavailable. Let me take your information and have someone call you back as soon as possible.".
Definition unexpected_apology : string :=
  "I apologize for the inconvenience, but I'm experiencing a technical issue. Let me collect your contact information so we can follow up with you directly.".
Definition final_apology : string :=
  "I apologize, but I'm having technical difficulties at the moment. Please leave your name and number, and someone from our team will call you back promptly.".

Definition apologies : list string :=
  [quota_apology; exhausted_apology; unavailable_apology; unexpected_apology;
   final_apology].

Section Chat.

(** [chat n msg]: the outcome of the [n]-th [send_message] of the call,
    sent with message [msg]. [rnd attempt]: the value of
    [random.random()] drawn in that attempt. *)
Variable chat : nat -> string -> Outcome.
Variable rnd : nat -> Q.

Definition jittered (attempt : nat) : Q :=
  (base_delay * inject_Z (2 ^ Z.of_nat attempt) + rnd attempt * (1 # 2))%Q.

(** The [for attempt in range(max_retries)] loop of [generate_response],
    over the attempts still to run. The first [except] clause names
    [google.api_core.exceptions.ResourceExhausted]; evaluating it needs
    the name [google]. *)
Fixpoint retry_loop (globals : list string) (user_input : string)
         (attempts : list nat) (n : nat) (slept : list Q) : Run :=
  match attempts with
  | [] => mkRun (Returned final_apology) n slept
  | attempt :: rest =>
      let last := Nat.eqb attempt (max_retries - 1) in
      match chat n user_input with
      | Reply text => mkRun (Returned text) (S n) slept
      | Raise e =>
          if negb (name_bound globals "google")
          then mkRun (Propagated (NameError "google")) (S n) slept
          else
            match e with
            | ResourceExhausted msg =>
                let error_msg := lower msg in
                if contains "quota" error_msg then
                  if last then mkRun (Returned quota_apology) (S n) slept
                  else retry_loop globals user_input rest (S n) slept
                else if contains "rate" error_msg then
                  retry_loop globals user_input rest (S n) (slept ++ [jittered attempt])%list
                else
                  let slept' :=
                    (slept ++ [(base_delay * Qpower (3 # 2) (Z.of_nat attempt))%Q])%list in
                  if last then mkRun (Returned exhausted_apology) (S n) slept'
                  else retry_loop globals user_input rest (S n) slept'
            | ServiceUnavailable | ServerError | DeadlineExceeded =>
                let slept' := (slept ++ [jittered attempt])%list in
                if last then mkRun (Returned unavailable_apology) (S n) slept'
                else retry_loop globals user_input rest (S n) slept'
            | OtherError =>
                let slept' := (slept ++ [base_delay])%list in
                if last then mkRun (Returned unexpected_apology) (S n) slept'
                else retry_loop globals user_input rest (S n) slept'
            end
      end
  end.

(** [generate_response(chat, user_input)], in a module whose globals are
    [globals], with [n] earlier calls on the chat. *)
Definition generate_response_in (globals : list string)
           (user_input : string) (n : nat) : Run :=
  retry_loop globals user_input (seq 0 max_retries) n [].

Definition generate_response (user_input : string) (n : nat) : Run :=
  generate_response_in module_globals user_input n.

Definition nl : string := String (ascii_of_nat 10) EmptyString.

(** [generate_first_response]: [formatted] is the prompt built from
    scratch on the slow path (the result of [prompt.format(...)]), used
    when the state holds no pre-formatted prompt. The call to
    [send_message] sits in no [try]. *)
Definition generate_first_response (formatted : string) (user_input : string)
           (st : SharedState) (n : nat) : Run :=
  let base :=
    match st.(preformatted_prompt) with
    | Some p => if String.eqb p EmptyString then formatted else p
    | None => formatted
    end in
  let formatted_prompt := base ++ nl ++ nl ++ "User: " ++ user_input ++ nl ++ "AI:" in
  match chat n formatted_prompt with
  | Reply text => mkRun (Returned text) (S n) []
  | Raise e => mkRun (Propagated (ApiExc e)) (S n) []
  end.

(** *** [manage_conversation] *)

(** The phrase table of the assistance switch, as written: the tenth
    entry is two adjacent literals, which Python concatenates. *)
Definition assistance_phrases : list string :=
  [ "is there anything specific you'd like me to include";
    "is there anything else";
    "is there anything specific";
    "can you tell me a little more";
    "can you tell me more";
    "could you share more";
    "could you give me more information about what's happening";
    "could you give me more information about";
    "could you provide more details";
    "could you provide more informationgive me more information about what's happening";
    "give me more information about";
    "more information about what's happening";
    "tell me more about what's happening";
    "could you tell me more about what's happening";
    "can you give me more details about what's happening";
    "can you tell me more about what's happening";
    "anything specific you'd like me to mention";
    "would you like me to include any other details";
    "anything else you'd like me to mention";
    "any other details you want me to pass along";
    "anything else I should tell them";
    "any specific requirements you'd like me to note";
    "what else would you like me to add";
    "any additional information you want included";
    "any particular details that are important";
    "to include in my message to";
    "regarding your request about";
    "regarding your inquiry";
    "regarding your request";
    "what message would you like me to pass along";
    "message you'd like me to deliver";
    "regarding your inquiry about";
    "regarding your question about spectrometers";
    "specifics of your request";
    "details of your inquiry";
    "what specific information are you looking for";
    "what information are you looking for";
    "what details are you looking for";
    "what exactly are you interested in";
    "what are you specifically looking for";
    "what would you like to know about";
    "how can I help with your request";
    "more details about your needs";
    "what are your requirements" ].

Definition phone_phrases : list string :=
  [ "phone number"; "best phone number"; "reach you at"; "call you at";
    "phone"; "number to reach"; "number to contact" ].

(** The [if]/[elif] chain that turns spelling mode on or off. *)
Definition switch_spelling (response_lower : string) (st : SharedState) : SharedState :=
  if contains "can i get your full name" response_lower
     || contains "what's your name" response_lower
     || contains "first name" response_lower
     || contains "last name" response_lower
  then
    set_assistance_mode false
      (set_spelling_type (Some "name_collection") (set_spelling_mode true st))
  else if (contains "email" response_lower || contains "@" response_lower)
          && (contains "spell" response_lower || contains "spelling" response_lower
              || contains "could you spell" response_lower
              || contains "spell that" response_lower)
  then set_spelling_type (Some "email") (set_spelling_mode true st)
  else if contains_any phone_phrases response_lower
  then set_spelling_type (Some "phone") (set_spelling_mode true st)
  else if contains "thank you" response_lower
          && contains "got it" response_lower
          && negb (contains "spell" response_lower || contains "spelling" response_lower)
  then set_spelling_type None (set_spelling_mode false st)
  else st.

(** The assistance switch that follows it. *)
Definition switch_assistance (response_lower : string) (st : SharedState) : SharedState :=
  if contains_any assistance_phrases response_lower
  then
    let st := if st.(spelling_mode)
              then set_spelling_type None (set_spelling_mode false st)
              else st in
    set_assistance_mode true st
  else st.

Definition switch_modes (response_for_user : string) (st : SharedState) : SharedState :=
  let response_lower := lower response_for_user in
  switch_assistance response_lower (switch_spelling response_lower st).

(** [json.loads] on the text of the data block: [None] when it raises or
    the value is no mapping. *)
Variable json_loads : string -> option (gmap string PyVal).

Definition open_tag : string := "<data_extract>".
Definition close_tag : string := "</data_extract>".

(** Element [i] of a list of parts, empty when absent. *)
Definition part (i : nat) (parts : list string) : string :=
  nth i parts EmptyString.

(** The handling of the embedded data block: the text for the caller and
    the state with the cleaned data stored. *)
Definition extract_data (response : string) (st : SharedState) : string * SharedState :=
  if contains open_tag response then
    let response_for_user := strip (part 0 (split open_tag response)) in
    let json_str :=
      if contains close_tag response
      then strip (part 0 (split close_tag (part 1 (split open_tag response))))
      else strip (part 1 (split open_tag response)) in
    match json_loads json_str with
    | Some extracted_data =>
        (response_for_user,
         set_extracted_lead_data (Some (clean_extracted_data extracted_data)) st)
    | None => (response_for_user, st)
    end
  else (response, st).

(** [manage_conversation(chat, user_input, shared_state, lead_info)]:
    the result handed to the caller, the state, and the number of chat
    calls made so far. An exception raised by a generator leaves through
    [manage_conversation] with the state as it was. *)
Definition manage_conversation (formatted : string) (user_input : string)
           (st : SharedState) (n : nat) : Result * SharedState * nat :=
  let run :=
    if Nat.eqb st.(conversation_step) 0
    then generate_first_response formatted user_input st n
    else generate_response user_input n in
  match run.(result) with
  | Propagated x => (Propagated x, st, run.(calls))
  | Returned response =>
      let '(response_for_user, st) := extract_data response st in
      (Returned response_for_user, switch_modes response_for_user st, run.(calls))
  end.

End Chat.

End ConversationManager.

(** ** The frame classifier ([WebRTCVADProcessor], speech_processing.py) *)

Module Vad.
Local Open Scope list_scope.

(** [sample_rate * frame_duration_ms / 1000] samples of two bytes each, for
    the 8 kHz, 30 ms processor the bridge creates. *)
Definition sample_rate : N := 8000.
Definition frame_duration_ms : N := 30.
Definition frame_size : N := sample_rate * frame_duration_ms / 1000.
Definition frame_bytes : nat := N.to_nat (frame_size * 2).

(** [audio_buffer] holds the linear PCM left over from earlier calls;
    [voice_frame_count] is created with value 0 by the first frame. *)
Record VadState : Type := mkVad {
  audio_buffer : list byte;
  voice_frame_count : nat
}.

Definition initial : VadState := mkVad [] 0.

(** The debounce as the specification words it, on the classifier's
    verdicts alone: the number of positive verdicts in a row at the end of
    a sequence, and that number when [count] positive frames in a row came
    before the sequence. *)
Fixpoint leading_positives (vs : list bool) : nat :=
  match vs with
  | true :: rest => S (leading_positives rest)
  | _ => 0
  end.

Definition trailing_positives (vs : list bool) : nat := leading_positives (rev vs).

Definition consecutive_positives (count : nat) (vs : list bool) : nat :=
  if forallb (fun v => v) vs then count + length vs else trailing_positives vs.

Section Classifier.

(** [audioop.ulaw2lin(data, 2)] and [webrtcvad.Vad.is_speech(frame,
    sample_rate)]; the latter answers [None] when it raises. *)
Variable ulaw2lin : list byte -> list byte.
Variable is_speech : list byte -> option bool.

(** The counter update inside the loop. *)
Definition debounce (count : nat) (is_voice : bool) : nat :=
  if is_voice then S count else 0.

(** The [while len(self.audio_buffer) >= self.frame_bytes] loop, run for
    at most [fuel] frames. The answer is [None] when the classifier
    raised; the buffer has lost the offending frame by then. *)
Fixpoint frames_loop (fuel : nat) (buf : list byte) (count : nat)
         (voice_detected : bool) : VadState * option bool :=
  match fuel with
  | O => (mkVad buf count, Some voice_detected)
  | S fuel' =>
      if (frame_bytes <=? length buf)%nat then
        let frame := take frame_bytes buf in
        let buf' := drop frame_bytes buf in
        match is_speech frame with
        | None => (mkVad buf' count, None)
        | Some is_voice =>
            let count' := debounce count is_voice in
            frames_loop fuel' buf' count' (3 <=? count')%nat
        end
      else (mkVad buf count, Some voice_detected)
  end.

(** [process_audio(mulaw_data)]: the [except] branch answers [False]. *)
Definition process_audio (st : VadState) (mulaw_data : list byte) : VadState * bool :=
  let buf := st.(audio_buffer) ++ ulaw2lin mulaw_data in
  match frames_loop (length buf) buf st.(voice_frame_count) false with
  | (st', Some voice_detected) => (st', voice_detected)
  | (st', None) => (st', false)
  end.

(** Feeding a sequence of payloads: the answer and the state after each
    call. *)
Fixpoint feed (st : VadState) (payloads : list (list byte)) : list (bool * VadState) :=
  match payloads with
  | [] => []
  | p :: rest =>
      let '(st', r) := process_audio st p in
      (r, st') :: feed st' rest
  end.

(** The classifier's verdicts on the complete frames of [buf], in order,
    up to the first frame on which it raises. *)
Fixpoint verdicts (fuel : nat) (buf : list byte) : list bool :=
  match fuel with
  | O => []
  | S fuel' =>
      if (frame_bytes <=? length buf)%nat then
        match is_speech (take frame_bytes buf) with
        | Some v => v :: verdicts fuel' (drop frame_bytes buf)
        | None => []
        end
      else []
  end.

(** The verdicts of each call of a feed, in order: what [process_audio]
    had classified when it returned. *)
Fixpoint feed_verdicts (st : VadState) (payloads : list (list byte)) : list (list bool) :=
  match payloads with
  | [] => []
  | p :: rest =>
      let buf := st.(audio_buffer) ++ ulaw2lin p in
      verdicts (length buf) buf :: feed_verdicts (process_audio st p).1 rest
  end.

End Classifier.

End Vad.

(** ** The call pipeline ([speech_processing.py], [websocket_handler.py])

    One call is a [World]: the shared state, the recognition bridge, every
    [threading.Timer] created so far, the messages sent on the websocket
    (oldest first), the number of chat calls made and the utterances for
    which a synthesis thread was started. The websocket accepts every
    message; a send that raises is outside the model. *)

Module Pipeline.
Import PyStr ConversationManager.
Local Open Scope list_scope.

(** The two timer callbacks of the call. *)
Inductive Callback : Type :=
| OnSilenceTimeout
| ProcessSpellingTranscription.

Record Timer : Type := mkTimer {
  interval : Q;
  callback : Callback;
  cancelled : bool;
  fired : bool
}.

(** A started timer that was neither cancelled nor run. *)
Definition live (t : Timer) : bool := negb t.(cancelled) && negb t.(fired).

Definition cancel (t : Timer) : Timer :=
  mkTimer t.(interval) t.(callback) true t.(fired).

Definition mark_fired (t : Timer) : Timer :=
  mkTimer t.(interval) t.(callback) t.(cancelled) true.

(** The JSON messages written to the websocket. A media payload is kept
    as the bytes before base64. *)
Inductive WsMsg : Type :=
| ClearMsg (streamSid : option string)
| MediaMsg (streamSid : option string) (payload : list byte)
| TranscriptMsg (streamSid : option string) (lead ai : string)
| CallCompleted.

Definition is_clear (m : WsMsg) : bool :=
  match m with ClearMsg _ => true | _ => false end.

Definition is_media (m : WsMsg) : bool :=
  match m with MediaMsg _ _ => true | _ => false end.

(** How many clear messages a log holds. *)
Definition count_clears (log : list WsMsg) : nat := length (filter is_clear log).

(** The attributes of [SpeechClientBridge]; both queues are lists in FIFO
    order, and [None] is the end marker [terminate] puts on the queue. *)
Record Bridge : Type := mkBridge {
  queue : list (option (list byte));
  ended : bool;
  is_processing_audio : bool;
  chunk_start_time : option Q;
  voice_activity_detected : bool;
  should_restart : bool;
  restart_in_progress : bool;
  audio_buffer : list (option (list byte));
  last_vad_interrupt_time : Q;
  webrtc_vad : Vad.VadState;
  last_user_vad_state : bool;
  user_silence_timer : option nat
}.

Definition with_queue (v : list (option (list byte))) (r : Bridge) : Bridge :=
  mkBridge
      v (r.(ended)) (r.(is_processing_audio)) (r.(chunk_start_time))
      (r.(voice_activity_detected)) (r.(should_restart)) (r.(restart_in_progress))
      (r.(audio_buffer)) (r.(last_vad_interrupt_time)) (r.(webrtc_vad))
      (r.(last_user_vad_state)) (r.(user_silence_timer)).

Definition with_ended (v : bool) (r : Bridge) : Bridge :=
  mkBridge
      (r.(queue)) v (r.(is_processing_audio)) (r.(chunk_start_time))
      (r.(voice_activity_detected)) (r.(should_restart)) (r.(restart_in_progress))
      (r.(audio_buffer)) (r.(last_vad_interrupt_time)) (r.(webrtc_vad))
      (r.(last_user_vad_state)) (r.(user_silence_timer)).

Definition with_is_processing_audio (v : bool) (r : Bridge) : Bridge :=
  mkBridge
      (r.(queue)) (r.(ended)) v (r.(chunk_start_time)) (r.(voice_activity_detected))
      (r.(should_restart)) (r.(restart_in_progress)) (r.(audio_buffer))
      (r.(last_vad_interrupt_time)) (r.(webrtc_vad)) (r.(last_user_vad_state))
      (r.(user_silence_timer)).

Definition with_chunk_start_time (v : option Q) (r : Bridge) : Bridge :=
  mkBridge
      (r.(queue)) (r.(ended)) (r.(is_processing_audio)) v
      (r.(voice_activity_detected)) (r.(should_restart)) (r.(restart_in_progress))
      (r.(audio_buffer)) (r.(last_vad_interrupt_time)) (r.(webrtc_vad))
      (r.(last_user_vad_state)) (r.(user_silence_timer)).

Definition with_voice_activity_detected (v : bool) (r : Bridge) : Bridge :=
  mkBridge
      (r.(queue)) (r.(ended)) (r.(is_processing_audio)) (r.(chunk_start_time)) v
      (r.(should_restart)) (r.(restart_in_progress)) (r.(audio_buffer))
      (r.(last_vad_interrupt_time)) (r.(webrtc_vad)) (r.(last_user_vad_state))
      (r.(user_silence_timer)).

Definition with_should_restart (v : bool) (r : Bridge) : Bridge :=
  mkBridge
      (r.(queue)) (r.(ended)) (r.(is_processing_audio)) (r.(chunk_start_time))
      (r.(voice_activity_detected)) v (r.(restart_in_progress)) (r.(audio_buffer))
      (r.(last_vad_interrupt_time)) (r.(webrtc_vad)) (r.(last_user_vad_state))
      (r.(user_silence_timer)).

Definition with_restart_in_progress (v : bool) (r : Bridge) : Bridge :=
  mkBridge
      (r.(queue)) (r.(ended)) (r.(is_processing_audio)) (r.(chunk_start_time))
      (r.(voice_activity_detected)) (r.(should_restart)) v (r.(audio_buffer))
      (r.(last_vad_interrupt_time)) (r.(webrtc_vad)) (r.(last_user_vad_state))
      (r.(user_silence_timer)).

Definition with_audio_buffer (v : list (option (list byte))) (r : Bridge) : Bridge :=
  mkBridge
      (r.(queue)) (r.(ended)) (r.(is_processing_audio)) (r.(chunk_start_time))
      (r.(voice_activity_detected)) (r.(should_restart)) (r.(restart_in_progress)) v
      (r.(last_vad_interrupt_time)) (r.(webrtc_vad)) (r.(last_user_vad_state))
      (r.(user_silence_timer)).

Definition with_last_vad_interrupt_time (v : Q) (r : Bridge) : Bridge :=
  mkBridge
      (r.(queue)) (r.(ended)) (r.(is_processing_audio)) (r.(chunk_start_time))
      (r.(voice_activity_detected)) (r.(should_restart)) (r.(restart_in_progress))
      (r.(audio_buffer)) v (r.(webrtc_vad)) (r.(last_user_vad_state))
      (r.(user_silence_timer)).

Definition with_webrtc_vad (v : Vad.VadState) (r : Bridge) : Bridge :=
  mkBridge
      (r.(queue)) (r.(ended)) (r.(is_processing_audio)) (r.(chunk_start_time))
      (r.(voice_activity_detected)) (r.(should_restart)) (r.(restart_in_progress))
      (r.(audio_buffer)) (r.(last_vad_interrupt_time)) v (r.(last_user_vad_state))
      (r.(user_silence_timer)).

Definition with_last_user_vad_state (v : bool) (r : Bridge) : Bridge :=
  mkBridge
      (r.(queue)) (r.(ended)) (r.(is_processing_audio)) (r.(chunk_start_time))
      (r.(voice_activity_detected)) (r.(should_restart)) (r.(restart_in_progress))
      (r.(audio_buffer)) (r.(last_vad_interrupt_time)) (r.(webrtc_vad)) v
      (r.(user_silence_timer)).

Definition with_user_silence_timer (v : option nat) (r : Bridge) : Bridge :=
  mkBridge
      (r.(queue)) (r.(ended)) (r.(is_processing_audio)) (r.(chunk_start_time))
      (r.(voice_activity_detected)) (r.(should_restart)) (r.(restart_in_progress))
      (r.(audio_buffer)) (r.(last_vad_interrupt_time)) (r.(webrtc_vad))
      (r.(last_user_vad_state)) v.

Definition vad_interrupt_cooldown : Q := 2%Q.

Definition initial_bridge : Bridge :=
  mkBridge [] false false None false false false [] 0%Q Vad.initial false None.

Record World : Type := mkWorld {
  shared : SharedState;
  bridge : Bridge;
  timers : list Timer;
  ws_sent : list WsMsg;
  chat_calls : nat;
  tts_started : list string
}.

Definition with_shared (v : SharedState) (r : World) : World :=
  mkWorld
      v (r.(bridge)) (r.(timers)) (r.(ws_sent)) (r.(chat_calls)) (r.(tts_started)).

Definition with_bridge (v : Bridge) (r : World) : World :=
  mkWorld
      (r.(shared)) v (r.(timers)) (r.(ws_sent)) (r.(chat_calls)) (r.(tts_started)).

Definition with_timers (v : list Timer) (r : World) : World :=
  mkWorld
      (r.(shared)) (r.(bridge)) v (r.(ws_sent)) (r.(chat_calls)) (r.(tts_started)).

Definition with_ws_sent (v : list WsMsg) (r : World) : World :=
  mkWorld
      (r.(shared)) (r.(bridge)) (r.(timers)) v (r.(chat_calls)) (r.(tts_started)).

Definition with_chat_calls (v : nat) (r : World) : World :=
  mkWorld
      (r.(shared)) (r.(bridge)) (r.(timers)) (r.(ws_sent)) v (r.(tts_started)).

Definition with_tts_started (v : list string) (r : World) : World :=
  mkWorld
      (r.(shared)) (r.(bridge)) (r.(timers)) (r.(ws_sent)) (r.(chat_calls)) v.

Definition initial_world : World :=
  mkWorld initial_state initial_bridge [] [] 0 [].

Definition on_shared (f : SharedState -> SharedState) (w : World) : World :=
  with_shared (f w.(shared)) w.

Definition on_bridge (f : Bridge -> Bridge) (w : World) : World :=
  with_bridge (f w.(bridge)) w.

(** [ws.send(json.dumps(msg))] *)
Definition send (m : WsMsg) (w : World) : World :=
  with_ws_sent (w.(ws_sent) ++ [m]) w.

(** [threading.Timer(interval, callback)] followed by [start()]: the new
    timer's index in the table. *)
Definition new_timer (i : Q) (c : Callback) (w : World) : nat * World :=
  (length w.(timers), with_timers (w.(timers) ++ [mkTimer i c false false]) w).

Definition cancel_timer (id : nat) (w : World) : World :=
  with_timers (alter cancel id w.(timers)) w.

(** [SharedState.set_pending_timer] and [SharedState.cancel_pending_timer] *)
Definition set_pending_timer (id : nat) (w : World) : World :=
  let w := match w.(shared).(pending_timer) with
           | Some old => cancel_timer old w
           | None => w
           end in
  on_shared (store_pending_timer (Some id)) w.

Definition cancel_pending_timer (w : World) : World :=
  match w.(shared).(pending_timer) with
  | Some old => on_shared (store_pending_timer None) (cancel_timer old w)
  | None => w
  end.

(** Python truth of an optional string: [None] and [''] are false. *)
Definition truthy_str (s : option string) : bool :=
  match s with
  | Some s => negb (String.eqb s EmptyString)
  | None => false
  end.

(** Python truth of an optional number: [None] and [0.0] are false. *)
Definition truthy_time (t : option Q) : bool :=
  match t with
  | Some t => negb (Qeq_bool t 0)
  | None => false
  end.

(** [a < b] on time readings. *)
Definition Qlt_bool (a b : Q) : bool := negb (Qle_bool b a).

Section Audio.

(** The audio primitives: [audioop.ulaw2lin], the classifier, and the
    outcome of the energy test [rms > MINIMUM_AUDIO_LEVEL] on a
    non-empty payload. *)
Variable ulaw2lin : list byte -> list byte.
Variable is_speech : list byte -> option bool.
Variable rms_above : list byte -> bool.

(** **** [SpeechClientBridge.process_universal_vad]

    [now] is the reading of [time.time()] in the interrupt branch. An
    empty payload has no samples: the mean raises and the [except]
    clause ends the call with nothing changed. *)
Definition process_universal_vad (now : Q) (buffer : list byte) (w : World) : World :=
  match buffer with
  | [] => w
  | _ =>
      let '(w, voice_detected) :=
        if rms_above buffer then
          let '(vad, r) :=
            Vad.process_audio ulaw2lin is_speech w.(bridge).(webrtc_vad) buffer in
          (on_bridge (with_webrtc_vad vad) w, r)
        else (w, false) in
      if w.(shared).(ai_is_speaking) then
        if voice_detected && negb w.(shared).(interrupt_ai) then
          if Qlt_bool vad_interrupt_cooldown (now - w.(bridge).(last_vad_interrupt_time))
          then
            let w := on_shared (set_interrupt_ai true) w in
            let w := on_bridge (with_last_vad_interrupt_time now) w in
            if truthy_str w.(shared).(stream_sid)
            then on_shared (set_clear_command_sent true)
                   (send (ClearMsg w.(shared).(stream_sid)) w)
            else w
          else w
        else w
      else
        let w :=
          if negb (Bool.eqb voice_detected w.(bridge).(last_user_vad_state)) then
            if voice_detected then
              let w := on_shared (set_user_is_speaking true) w in
              let w := on_shared (set_user_silence_detected false) w in
              match w.(bridge).(user_silence_timer) with
              | Some t => on_bridge (with_user_silence_timer None) (cancel_timer t w)
              | None => w
              end
            else
              let w := on_shared (set_user_is_speaking false) w in
              let '(t, w) := new_timer (12 # 10) OnSilenceTimeout w in
              on_bridge (with_user_silence_timer (Some t)) w
          else w in
        on_bridge (with_last_user_vad_state voice_detected) w
  end.

(** **** [SpeechClientBridge.add_request] *)
Definition add_request (now : Q) (buffer : list byte) (w : World) : World :=
  let w :=
    if negb w.(bridge).(is_processing_audio)
    then on_bridge (with_chunk_start_time (Some now))
           (on_bridge (with_is_processing_audio true) w)
    else w in
  let w := process_universal_vad now buffer w in
  let w :=
    if w.(bridge).(restart_in_progress)
    then on_bridge (fun b => with_audio_buffer (b.(audio_buffer) ++ [Some buffer]) b) w
    else w in
  on_bridge (fun b => with_queue (b.(queue) ++ [Some buffer]) b) w.

End Audio.

(** **** [prepare_restart], [start_new_stream], [terminate] *)

Definition prepare_restart (w : World) : World :=
  if negb w.(bridge).(ended)
  then on_bridge (with_restart_in_progress true)
         (on_bridge (with_should_restart true) w)
  else w.

(** What [start_new_stream] does to the flags once
    [client.streaming_recognize] has returned ([opened]) or raised. *)
Definition start_new_stream (opened : bool) (w : World) : World :=
  if opened
  then on_bridge (with_restart_in_progress false)
         (on_bridge (with_should_restart false) w)
  else on_bridge (with_restart_in_progress false) w.

Definition terminate (w : World) : World :=
  let w := on_bridge (with_ended true) w in
  let w := on_bridge (fun b => with_queue (b.(queue) ++ [None]) b) w in
  let w := on_shared (set_call_ended true) w in
  match w.(bridge).(user_silence_timer) with
  | Some t => on_bridge (with_user_silence_timer None) (cancel_timer t w)
  | None => w
  end.

(** **** [SpeechClientBridge.generator]

    One resumption of the generator: it yields the joined chunks, or ends,
    or finds its queue empty when [get] times out and goes round the
    [while] loop again ([Idle]). *)
Inductive Pull : Type :=
| Yield (data : list byte)
| Stop
| Idle.

(** The inner [while True] loop: everything on the main queue is appended
    to [data]; a [None] ends the generator. *)
Fixpoint drain (q : list (option (list byte))) (data : list (list byte))
  : option (list (list byte)) * list (option (list byte)) :=
  match q with
  | [] => (Some data, [])
  | None :: q' => (None, q')
  | Some chunk :: q' => drain q' (data ++ [chunk])
  end.

Definition generator_next (use_buffer : bool) (b : Bridge) : Pull * Bridge :=
  if b.(ended) then (Stop, b)
  else
    let queue_to_use := if use_buffer then b.(audio_buffer) else b.(queue) in
    match queue_to_use with
    | [] =>
        if use_buffer && negb b.(restart_in_progress) then (Stop, b) else (Idle, b)
    | first :: rest =>
        let b := if use_buffer then with_audio_buffer rest b else with_queue rest b in
        match first with
        | None => (Stop, b)
        | Some chunk =>
            match drain b.(queue) [chunk] with
            | (None, q') => (Stop, with_queue q' b)
            | (Some data, q') => (Yield (concat data), with_queue q' b)
            end
        end
    end.

(** What a recognition session receives from [n] resumptions of its
    request generator, in order. *)
Fixpoint received (n : nat) (use_buffer : bool) (b : Bridge)
  : list (list byte) * Bridge :=
  match n with
  | O => ([], b)
  | S n' =>
      match generator_next use_buffer b with
      | (Yield data, b') =>
          let '(more, b'') := received n' use_buffer b' in (data :: more, b'')
      | (Stop, b') => ([], b')
      | (Idle, b') => received n' use_buffer b'
      end
  end.

(** *** The output dispatcher ([text_to_speech], [tts_worker])

    The synthesis loop runs in its own thread. What the other threads of
    the call do between two reads of the interrupt flag is an
    [Interference]; the dispatcher is given one per read, in order, and
    reads the flag without interference once they are used up. *)

Definition Interference : Type := World -> World.

Definition interfere (env : list Interference) (w : World)
  : World * list Interference :=
  match env with
  | [] => (w, [])
  | f :: rest => (f w, rest)
  end.

(** [shared_state and shared_state.should_interrupt_ai()] *)
Definition check_interrupt (has_state : bool) (env : list Interference) (w : World)
  : bool * World * list Interference :=
  if has_state
  then let '(w, env) := interfere env w in (w.(shared).(interrupt_ai), w, env)
  else (false, w, env).

Inductive TtsEnd : Type :=
| Finished
| Interrupted
| EarlyExit
| Errored.

Definition GOOGLE : string := "google".
Definition ELEVENLABS : string := "elevenlabs".
Definition CARTESIA : string := "cartesia".

Section Synthesis.

(** The synthesis services, [None] when they raise: Google returns the
    whole audio, the other two a stream of chunks (a Cartesia chunk is
    [None] when its base64 text does not decode). [to_mulaw] is
    [audioop.ratecv] to 8 kHz followed by [audioop.lin2ulaw]. *)
Variable google_synthesize : string -> option (list byte).
Variable elevenlabs_stream : string -> option (list (list byte)).
Variable cartesia_sse : string -> option (list (option (list byte))).
Variable to_mulaw : list byte -> list byte.

(** [if shared_state: shared_state.set_ai_speaking(v)] *)
Definition set_speaking (has_state : bool) (v : bool) (w : World) : World :=
  if has_state then on_shared (set_ai_speaking v) w else w.

(** The first block of [text_to_speech]. *)
Definition tts_prologue (w : World) : World :=
  on_shared (set_ai_speaking true) (on_shared (set_interrupt_ai false) w).

Definition ssml_escape (text : string) : string :=
  replace ">" "&gt;" (replace "<" "&lt;" (replace "&" "&amp;" text)).

Definition chunk_size : nat := 320.

(** [audio_content[i:i + chunk_size]] for [i] in
    [range(0, len(audio_content), chunk_size)]. *)
Definition google_chunks (audio_content : list byte) : list (list byte) :=
  map (fun k => take chunk_size (drop (k * chunk_size) audio_content))
      (seq 0 ((length audio_content + chunk_size - 1) / chunk_size)).

(** The chunk loop of the Google branch; [true] when every chunk went
    out. *)
Fixpoint google_loop (has_state : bool) (stream_sid : option string)
         (chunks : list (list byte)) (env : list Interference) (w : World)
  : World * list Interference * bool :=
  match chunks with
  | [] => (w, env, true)
  | chunk :: rest =>
      let '(stop, w, env) := check_interrupt has_state env w in
      if stop
      then (on_shared (set_ai_speaking false) (send (ClearMsg stream_sid) w), env, false)
      else google_loop has_state stream_sid rest env (send (MediaMsg stream_sid chunk) w)
  end.

Definition target_chunk_size : nat := 160.

(** The [while len(chunk_buffer) >= target_chunk_size] loop of the two
    streaming branches: [None] when interrupted, else the bytes left. *)
Fixpoint flush_buffer (fuel : nat) (convert : list byte -> list byte)
         (on_interrupt : World -> World) (has_state : bool)
         (stream_sid : option string) (chunk_buffer : list byte)
         (env : list Interference) (w : World)
  : World * list Interference * option (list byte) :=
  match fuel with
  | O => (w, env, Some chunk_buffer)
  | S fuel' =>
      if (target_chunk_size <=? length chunk_buffer)%nat then
        let '(stop, w, env) := check_interrupt has_state env w in
        if stop then (on_interrupt w, env, None)
        else
          let chunk_to_send := take target_chunk_size chunk_buffer in
          flush_buffer fuel' convert on_interrupt has_state stream_sid
            (drop target_chunk_size chunk_buffer) env
            (send (MediaMsg stream_sid (convert chunk_to_send)) w)
      else (w, env, Some chunk_buffer)
  end.

(** The [for chunk in stream] loop of the two streaming branches. *)
Fixpoint stream_loop (convert : list byte -> list byte)
         (on_interrupt : World -> World) (has_state : bool)
         (stream_sid : option string) (stream : list (option (list byte)))
         (chunk_buffer : list byte) (env : list Interference) (w : World)
  : World * list Interference * option (list byte) :=
  match stream with
  | [] => (w, env, Some chunk_buffer)
  | chunk :: rest =>
      let '(stop, w, env) := check_interrupt has_state env w in
      if stop then (on_interrupt w, env, None)
      else
        match chunk with
        | None =>
            stream_loop convert on_interrupt has_state stream_sid rest
              chunk_buffer env w
        | Some data =>
            let chunk_buffer := chunk_buffer ++ data in
            match flush_buffer (length chunk_buffer) convert on_interrupt has_state
                    stream_sid chunk_buffer env w with
            | (w, env, None) => (w, env, None)
            | (w, env, Some leftover) =>
                stream_loop convert on_interrupt has_state stream_sid rest leftover env w
            end
        end
  end.

(** [if chunk_buffer and shared_state and not
    shared_state.should_interrupt_ai()]: send what is left. *)
Definition send_remaining (convert : list byte -> list byte) (has_state : bool)
           (stream_sid : option string) (chunk_buffer : list byte)
           (env : list Interference) (w : World) : World * list Interference :=
  match chunk_buffer with
  | [] => (w, env)
  | _ =>
      if has_state then
        let '(stop, w, env) := check_interrupt has_state env w in
        if stop then (w, env)
        else (send (MediaMsg stream_sid (convert chunk_buffer)) w, env)
      else (w, env)
  end.

(** [text_to_speech] from its early-exit test on. *)
Definition tts_after_prologue (text : string) (stream_sid : option string)
           (tts_provider : string) (has_state : bool)
           (env : list Interference) (w : World)
  : World * list Interference * TtsEnd :=
  let '(stop, w, env) := check_interrupt has_state env w in
  if stop then (on_shared (set_ai_speaking false) w, env, EarlyExit)
  else if String.eqb tts_provider GOOGLE then
    let w := set_speaking has_state true w in
    match google_synthesize (ssml_escape text) with
    | None => (set_speaking has_state false w, env, Errored)
    | Some audio_content =>
        match google_loop has_state stream_sid (google_chunks audio_content) env w with
        | (w, env, true) => (set_speaking has_state false w, env, Finished)
        | (w, env, false) => (w, env, Interrupted)
        end
    end
  else if String.eqb tts_provider ELEVENLABS then
    match elevenlabs_stream text with
    | None => (set_speaking has_state false w, env, Errored)
    | Some audio_stream =>
        match stream_loop to_mulaw (fun w => w) has_state stream_sid
                (map Some audio_stream) [] env w with
        | (w, env, None) => (w, env, Interrupted)
        | (w, env, Some leftover) =>
            let '(w, env) := send_remaining to_mulaw has_state stream_sid leftover env w in
            (w, env, Finished)
        end
    end
  else if String.eqb tts_provider CARTESIA then
    let w := set_speaking has_state true w in
    match cartesia_sse text with
    | None => (set_speaking has_state false w, env, Errored)
    | Some response =>
        match stream_loop (fun chunk => chunk) (on_shared (set_ai_speaking false))
                has_state stream_sid response [] env w with
        | (w, env, None) => (w, env, Interrupted)
        | (w, env, Some leftover) =>
            let '(w, env) :=
              send_remaining (fun chunk => chunk) has_state stream_sid leftover env w in
            (set_speaking has_state false w, env, Finished)
        end
    end
  else (w, env, Finished).

(** [text_to_speech(..., text, ws, stream_sid, tts_provider, ...,
    shared_state)]; [has_state] tells whether a shared state was
    passed. *)
Definition text_to_speech (text : string) (stream_sid : option string)
           (tts_provider : string) (has_state : bool)
           (env : list Interference) (w : World)
  : World * list Interference * TtsEnd :=
  tts_after_prologue text stream_sid tts_provider has_state env
    (if has_state then tts_prologue w else w).

Definition GRACE_PERIOD_SECONDS : Q := 2 # 10.

(** The polling loop of [tts_worker]: one clock reading per test of the
    [while] condition; the readings reach past the grace period. *)
Fixpoint grace_loop (start_grace_time : Q) (readings : list Q)
         (env : list Interference) (w : World) : World * list Interference :=
  match readings with
  | [] => (w, env)
  | t :: rest =>
      if Qlt_bool (t - start_grace_time) GRACE_PERIOD_SECONDS then
        let '(w, env) := interfere env w in
        if w.(shared).(interrupt_ai) then (w, env)
        else grace_loop start_grace_time rest env w
      else (w, env)
  end.

(** The state in which the grace loop of [tts_worker] starts: the one
    [text_to_speech] returns. *)
Definition at_grace_start (text : string) (tts_provider : string)
           (env : list Interference) (w : World) : World * TtsEnd :=
  let '(w, _, e) :=
    text_to_speech text w.(shared).(stream_sid) tts_provider true env w in
  (w, e).

(** [tts_worker]: synthesis, the grace loop, and the [finally] clause. *)
Definition tts_worker (text : string) (tts_provider : string)
           (start_grace_time : Q) (readings : list Q)
           (env : list Interference) (w : World) : World * list Interference :=
  let '(w, env, _) :=
    text_to_speech text w.(shared).(stream_sid) tts_provider true env w in
  let '(w, env) := grace_loop start_grace_time readings env w in
  (on_shared (set_ai_speaking false) w, env).

End Synthesis.

(** *** The turn and mode machine ([websocket_handler.py]) *)

(** [msg.split(sep, 1)[1]]: the text after the first [sep], [None] when
    [sep] does not occur (the index raises). *)
Fixpoint after_first (sep s : string) : option string :=
  if String.prefix sep s
  then Some (String.substring (String.length sep)
               (String.length s - String.length sep) s)
  else match s with
       | EmptyString => None
       | String _ t => after_first sep t
       end.

(** [send_transcript_to_websocket(ws, stream_sid, transcript)] on the full
    transcript; nothing is sent when the body raises. *)
Definition send_transcript_to_websocket (w : World) : World :=
  let message := w.(shared).(full_transcript) in
  let lead_messages := filter (fun m => startswith "Lead:" m) message in
  let ai_messages := filter (fun m => startswith "AI:" m) message in
  let last_lead_message :=
    match last lead_messages with
    | Some m => after_first "Lead: " m
    | None => Some EmptyString
    end in
  let last_ai_message :=
    match last ai_messages with
    | Some m => after_first "AI: " m
    | None => Some EmptyString
    end in
  match last_lead_message, last_ai_message with
  | Some l, Some a => send (TranscriptMsg w.(shared).(stream_sid) l a) w
  | _, _ => w
  end.

(** The lead's utterances in a transcript. *)
Definition lead_texts (log : list string) : list string :=
  omap (after_first "Lead: ") (filter (fun m => startswith "Lead:" m) log).

Definition email_completion_indicators : list string :=
  [ "dot com"; "dot us"; "dot org"; "dot net"; "dot io"; "dot edu"; "dot gov";
    "dot ca"; "dot co"; "dot uk"; "dot au"; "dot de"; "dot in";
    ".com"; ".us"; ".org"; ".net"; ".io"; ".edu"; ".gov"; ".ca"; ".co";
    ".uk"; ".au"; ".de"; ".in"; "gmail"; "yahoo"; "hotmail"; "outlook";
    "aol"; "icloud"; "protonmail" ]%string.

Definition completion_phrases : list string :=
  [ "no that's it"; "that's it"; "that's all"; "no thanks";
    "nothing else"; "no that's all"; "that's fine";
    "no thank you"; "i'm good"; "that should do it"; "thanks"; "thank you" ]%string.

Definition about_to_spell_phrases : list string :=
  [ "that would be"; "that's"; "it's"; "spelled"; "spelt" ]%string.

Section Handler.

(** The chat model with the draws of its back-off jitter, the JSON
    parser, the prompt formatted from scratch, and the two nested
    classifiers [is_strict_confirmation] and [is_strict_rejection]. *)
Variable chat : nat -> string -> Outcome.
Variable rnd : nat -> Q.
Variable json_loads : string -> option (gmap string PyVal).
Variable formatted : string.
Variable is_strict_confirmation : string -> bool.
Variable is_strict_rejection : string -> bool.

(** [process_transcription(text)]: the dispatch of one user utterance.
    The flag is [false] when [manage_conversation] raised, which ends
    the function after the lead's entry was recorded. The synthesis
    thread it starts is entered in [tts_started]. *)
Definition process_transcription (text : string) (w : World) : World * bool :=
  let w :=
    if w.(shared).(ai_is_speaking)
    then on_shared (set_interrupt_ai true) w
    else on_shared (set_clear_command_sent false) (on_shared (set_interrupt_ai false) w) in
  let w := on_shared (update_transcript ("Lead: " ++ text)%string) w in
  let w := send_transcript_to_websocket w in
  match manage_conversation chat rnd json_loads formatted text w.(shared) w.(chat_calls) with
  | (Propagated _, _, n) => (with_chat_calls n w, false)
  | (Returned response_text, st, n) =>
      let w := with_chat_calls n (with_shared st w) in
      let w := on_shared (update_transcript ("AI: " ++ response_text)%string) w in
      let w := send_transcript_to_websocket w in
      let w := on_shared (set_interrupt_ai false) w in
      let w := on_shared (set_clear_command_sent false) w in
      let w := on_shared (set_ai_speaking true) w in
      let w := with_tts_started (w.(tts_started) ++ [response_text]) w in
      (on_shared increment_step w, true)
  end.

(** The utterances dispatched so far, read off the transcript. *)
Definition dispatched (w : World) : list string :=
  lead_texts w.(shared).(full_transcript).

(** The four immediate cases of [process_spelling_mode] end alike:
    clear the buffer, dispatch, stamp the time. [done] is the clock
    reading taken after the dispatch. *)
Definition dispatch_spelling (done : Q) (final_text : string) (w : World)
  : World * bool :=
  let w := on_shared (set_buffered_transcription EmptyString) w in
  match process_transcription final_text w with
  | (w, true) => (on_shared (set_last_spelling_processed_time (Some done)) w, true)
  | (w, false) => (w, false)
  end.

Definition spelling_timeout (spelling_type : option string)
           (updated_buffer : string) (is_rejection : bool) : Q :=
  if decide (spelling_type = Some "email"%string) then 65 # 10
  else if decide (spelling_type = Some "phone"%string) then
    let digit_count := String.length (digits_only updated_buffer) in
    if (10 <=? digit_count)%nat then 8 # 10
    else if is_rejection then 1
    else 15 # 10
  else if decide (spelling_type = Some "name"%string) then
    if contains_any about_to_spell_phrases (lower updated_buffer)
    then 15 # 10 else 8 # 10
  else 1.

(** [process_spelling_mode(updated_buffer, is_confirmation,
    is_rejection)]; [now] is [current_time]. *)
Definition process_spelling_mode (now done : Q) (updated_buffer : string)
           (is_confirmation is_rejection : bool) (w : World) : World * bool :=
  let spelling_type := w.(shared).(spelling_type) in
  let last_time := w.(shared).(last_spelling_processed_time) in
  if truthy_time last_time
     && Qlt_bool (now - default 0%Q last_time) 1
  then (w, true)
  else if decide (spelling_type = Some "name_collection"%string)
  then dispatch_spelling done updated_buffer w
  else if is_confirmation
  then dispatch_spelling done updated_buffer
         (on_shared (set_spelling_type None) (on_shared (set_spelling_mode false) w))
  else if is_rejection
  then dispatch_spelling done updated_buffer w
  else
    let words := PyStr.words (lower updated_buffer) in
    let last_chunk :=
      join " " (if (5 <=? length words)%nat then drop (length words - 5) words
                else words) in
    if bool_decide (spelling_type = Some "email"%string)
       && contains_any email_completion_indicators last_chunk
    then dispatch_spelling done updated_buffer w
    else
      let w := cancel_pending_timer w in
      let timeout := spelling_timeout spelling_type updated_buffer is_rejection in
      let '(timer, w) := new_timer timeout ProcessSpellingTranscription w in
      (set_pending_timer timer w, true).

(** [on_transcription_response(response)] for a response whose first
    alternative reads [transcription]. *)
Definition on_transcription_response (now done : Q) (transcription : string)
           (is_final : bool) (w : World) : World * bool :=
  if negb is_final || String.eqb (strip transcription) EmptyString then (w, true)
  else
    let previous_spelling_mode := w.(shared).(spelling_mode) in
    let is_confirmation := is_strict_confirmation transcription in
    let is_rejection := is_strict_rejection transcription in
    let '(updated_buffer, w) :=
      if w.(shared).(spelling_mode) || w.(shared).(assistance_mode) then
        let current_buffer := w.(shared).(buffered_transcription) in
        let updated_buffer :=
          if String.eqb current_buffer EmptyString then transcription
          else (current_buffer ++ " " ++ transcription)%string in
        (updated_buffer, on_shared (set_buffered_transcription updated_buffer) w)
      else (transcription, w) in
    if w.(shared).(spelling_mode) then
      process_spelling_mode now done updated_buffer is_confirmation is_rejection w
    else if w.(shared).(assistance_mode) then
      let lowered := lower updated_buffer in
      let is_complete :=
        contains_any completion_phrases lowered
        || String.eqb (strip lowered) "no"
        || String.eqb (strip lowered) "thanks"
        || String.eqb (strip lowered) "thank you" in
      let is_complete :=
        if String.eqb (strip lowered) "yeah"
           && Nat.eqb (length (PyStr.words updated_buffer)) 1
        then true else is_complete in
      if is_complete then
        let w := cancel_pending_timer w in
        let w := on_shared (set_assistance_mode false) w in
        let w := on_shared (set_buffered_transcription EmptyString) w in
        process_transcription updated_buffer w
      else (w, true)
    else
      let w := if previous_spelling_mode
               then on_shared (set_spelling_mode false) w else w in
      process_transcription transcription w.

(** A timer's interval has elapsed: its callback runs unless the timer
    was cancelled. *)
Definition fire_timer (done : Q) (id : nat) (w : World) : World * bool :=
  match w.(timers) !! id with
  | Some t =>
      if live t then
        let w := with_timers (alter mark_fired id w.(timers)) w in
        let final_text := w.(shared).(buffered_transcription) in
        let has_text :=
          negb (String.eqb final_text EmptyString)
          && negb (String.eqb (strip final_text) EmptyString) in
        match t.(callback) with
        | OnSilenceTimeout =>
            if has_text
            then process_transcription final_text
                   (on_shared (set_buffered_transcription EmptyString) w)
            else (w, true)
        | ProcessSpellingTranscription =>
            if has_text then dispatch_spelling done final_text w
            else (on_shared (set_buffered_transcription EmptyString) w, true)
        end
      else (w, true)
  | None => (w, true)
  end.

(** The end of [websocket_endpoint]: a stop event calls
    [bridge.terminate()] and leaves the loop, and the code after the loop
    calls it again; a transport error only reaches the second call. *)
Definition on_stop (w : World) : World := terminate (terminate w).
Definition on_close (w : World) : World := terminate w.

End Handler.

End Pipeline.

(** ** A sample call

    Stand-ins for the external services, used to run the pipeline on
    concrete inputs: a decoder that turns the mu-law silence byte into a zero
    sample and any other byte into a loud one, a classifier that hears voice
    in every frame that is not all zero, and an energy test that passes on
    every payload that is not all silence. *)

Module Scenario.
Import PyStr ConversationManager Pipeline.
Local Open Scope list_scope.

Definition is_silence (b : byte) : bool := Byte.eqb b xff.

Definition ulaw2lin (data : list byte) : list byte :=
  flat_map (fun b => if is_silence b then [x00; x00] else [x00; x20]) data.

Definition is_speech (frame : list byte) : option bool :=
  Some (existsb (fun b => negb (Byte.eqb b x00)) frame).

Definition rms_above (payload : list byte) : bool :=
  existsb (fun b => negb (is_silence b)) payload.

(** 90 ms of speech and 90 ms of silence, as mu-law payloads. *)
Definition voiced : list byte := repeat x55 720.
Definition silent : list byte := repeat xff 720.

Definition google_synthesize (ssml : string) : option (list byte) :=
  Some (repeat x55 640).
Definition elevenlabs_stream (text : string) : option (list (list byte)) :=
  Some [repeat x55 320; repeat x55 320].
Definition cartesia_sse (text : string) : option (list (option (list byte))) :=
  Some [Some (repeat x55 160); Some (repeat x55 160)].
Definition to_mulaw (pcm : list byte) : list byte := take 80 pcm.

Definition no_jitter (attempt : nat) : Q := 0%Q.
Definition no_data (json_str : string) : option (gmap string PyVal) := None.
Definition never (text : string) : bool := false.
Definition prompt : string := "You are a friendly call service agent for Default Inc.".

(** A call whose stream has started. *)
Definition started : World :=
  on_shared (set_stream_sid (Some "MZ0001"%string)) initial_world.

(** The oracle of a call that moves from an open question to the phone
    number. *)
Definition chat_phone (n : nat) (message : string) : Outcome :=
  match n with
  | 0 => Reply "Sure, I can take a message. Is there anything else you would like me to add?"
  | _ => Reply "What is the best phone number to reach you?"
  end.

(** The oracle of a call that asks for the spelling of the e-mail. *)
Definition chat_email (n : nat) (message : string) : Outcome :=
  Reply "Could you spell your email address for me?".

(** An oracle that only acknowledges. *)
Definition chat_okay (n : nat) (message : string) : Outcome := Reply "Okay.".

(** An oracle whose service is down. *)
Definition chat_down (n : nat) (message : string) : Outcome := Raise ServiceUnavailable.

Definition hear (chat : nat -> string -> Outcome) (now done : Q)
           (transcription : string) (w : World) : World :=
  fst (on_transcription_response chat no_jitter no_data prompt never never
         now done transcription true w).

Definition media (now : Q) (payload : list byte) (w : World) : World :=
  add_request ulaw2lin is_speech rms_above now payload w.

Definition speak (tts_provider : string) (text : string)
           (env : list Interference) (w : World) : World :=
  fst (tts_worker google_synthesize elevenlabs_stream cartesia_sse to_mulaw
         text tts_provider 0%Q [0%Q; 1%Q] env w).

Definition timer_fires (chat : nat -> string -> Outcome) (done : Q) (id : nat)
           (w : World) : World :=
  fst (fire_timer chat no_jitter no_data prompt done id w).

(** Extracted data with a first name only. *)
Definition first_name_only : gmap string PyVal :=
  <["first_name" := PyStr "Mary"]> (<["last_name" := PyStr ""]> ∅).

Definition full_record : gmap string PyVal :=
  <["first_name" := PyStr "Mary-Ann"]>
    (<["last_name" := PyStr "O Neil"]>
       (<["email" := PyStr "mary at gmail dot com"]> ∅)).

(** The caller asks an open question, the AI answers and falls silent, the
    caller speaks and pauses, the silence timer dispatches what was
    buffered, and the AI asks for the phone number. *)
Definition assistance_then_phone : World :=
  let w := hear chat_phone 10 11 "I have a question about a listing" started in
  let w := speak ELEVENLABS "Sure" [] w in
  let w := media 20 voiced w in
  let w := hear chat_phone 21 21 "I want to know the price" w in
  let w := media 22 silent w in
  timer_fires chat_phone 24 0 w.


(** While the Google dispatcher is between its first and its second chunk
    the caller speaks: three payloads of speech reach [add_request]. *)
Definition barge_in : Interference :=
  fun w => media (10 + (18 # 100)) voiced (media (10 + (9 # 100)) voiced (media 10 voiced w)).

Definition interrupted_google_utterance : World :=
  speak GOOGLE "Hello, how can I help you today?"
    [(fun w => w); (fun w => w); barge_in] started.

(** Three frames arrive while a restart is in progress. *)
Definition frames_during_restart : World :=
  media 3 [x03] (media 2 [x02] (media 1 [x01] (prepare_restart started))).

(** Spelling of an e-mail address has begun, the caller has spoken and
    paused, and the call is hung up. *)
Definition spelling_then_pause : World :=
  let w := hear chat_email 10 11 "you can reach me by email" started in
  let w := speak ELEVENLABS "Could you spell your email address for me?" [] w in
  let w := media 20 voiced w in
  let w := hear chat_email 21 21 "j o h n" w in
  media 22 silent w.

Definition hung_up : World := on_stop spelling_then_pause.

(** The same final text twice within 300 ms, outside any mode. *)
Definition repeated_direct : World :=
  hear chat_okay (10 + (3 # 10)) 11 "hello there"
    (hear chat_okay 10 (10 + (1 # 10)) "hello there" started).

(** An oracle that keeps asking for more. *)
Definition chat_more (n : nat) (message : string) : Outcome :=
  Reply "Okay. Is there anything else you would like me to add?".

(** Assistance mode: the caller declines, and the recognizer emits the same
    final text again 300 ms later. *)
Definition assistance_mode_on : World :=
  hear chat_more 10 11 "I have a question about a listing" started.

Definition declined_once : World :=
  hear chat_more 20 (20 + (1 # 10)) "that's all" assistance_mode_on.

Definition declined_twice : World :=
  hear chat_more (20 + (3 # 10)) (20 + (4 # 10)) "that's all" declined_once.

(** Name collection: a second, different text 300 ms after a dispatch. *)
Definition chat_name (n : nat) (message : string) : Outcome :=
  Reply "Can I get your full name please?".

Definition name_mode : World :=
  hear chat_name 10 (10 + (1 # 10)) "hello there" started.

Definition name_then_more : World :=
  hear chat_name (12 + (3 # 10)) 13 "smith"
    (hear chat_name 12 (12 + (1 # 10)) "john" name_mode).

(** Name collection: [john] is dispatched and stamped; [smith] comes
    300 ms later and is only buffered; the caller pauses and the silence
    timer dispatches it; the recognizer emits [smith] again 200 ms after
    that. *)
Definition name_buffered : World :=
  let w := speak ELEVENLABS "Can I get your full name please?" [] name_mode in
  let w := hear chat_name 12 (12 + (1 # 10)) "john" w in
  let w := speak ELEVENLABS "Can I get your full name please?" [] w in
  hear chat_name (12 + (4 # 10)) (12 + (5 # 10)) "smith" w.

Definition name_after_silence : World :=
  timer_fires chat_name (13 + (8 # 10)) 0
    (media (12 + (6 # 10)) silent (media (12 + (45 # 100)) voiced name_buffered)).

Definition name_repeated : World :=
  hear chat_name 14 (14 + (1 # 10)) "smith" name_after_silence.

End Scenario.

(** ** The registry of call states ([StateManager], shared_state.py) *)

Module StateManager.

(** [get_state(call_id)]: the state of the call, created on first use, and
    the registry afterwards. [SharedState()] loads the spaCy pipeline
    through [SpacyManager.get_nlp()], which raises when the model cannot be
    loaded; [constructed] is [false] in that case, and the exception leaves
    [get_state] before the registry is written. *)
Definition get_state (constructed : bool) (call_id : string)
           (states : gmap string SharedState)
  : option SharedState * gmap string SharedState :=
  match states !! call_id with
  | Some st => (Some st, states)
  | None =>
      if constructed
      then (Some initial_state, <[call_id := initial_state]> states)
      else (None, states)
  end.

(** [remove_state(call_id)] *)
Definition remove_state (call_id : string) (states : gmap string SharedState)
  : gmap string SharedState :=
  match states !! call_id with
  | Some _ => delete call_id states
  | None => states
  end.

End StateManager.

(** ** Vocabulary of the properties *)

Module Observe.
Import Pipeline.
Local Open Scope list_scope.

(** The text before the first occurrence of [sep]. *)
Fixpoint before (sep s : string) : string :=
  if String.prefix sep s then EmptyString
  else match s with
       | EmptyString => EmptyString
       | String c t => String c (before sep t)
       end.

(** The media messages that carry the pieces of a stream, each piece
    converted for the transport. *)
Definition carried (stream_sid : option string) (convert : list byte -> list byte)
           (pieces : list (list byte)) : list WsMsg :=
  map (fun piece => MediaMsg stream_sid (convert piece)) pieces.

(** Frames handed to [add_request] one after the other, each with the clock
    reading of its arrival. *)
Definition feed_frames (ulaw2lin : list byte -> list byte)
           (is_speech : list byte -> option bool) (rms_above : list byte -> bool)
           (frames : list (Q * list byte)) (w : World) : World :=
  fold_left (fun w frame => add_request ulaw2lin is_speech rms_above frame.1 frame.2 w)
            frames w.

(** The last five words of the buffer, as [process_spelling_mode] joins
    them to look for the end of an e-mail address. *)
Definition last_chunk (updated_buffer : string) : string :=
  let words := PyStr.words (PyStr.lower updated_buffer) in
  PyStr.join " " (if (5 <=? length words)%nat then drop (length words - 5) words
                  else words).

(** No spelling dispatch in the second before [now]. *)
Definition outside_window (now : Q) (w : World) : Prop :=
  forall t, w.(shared).(last_spelling_processed_time) = Some t -> (1 <= now - t)%Q.

(** The timer table once the pending delayed dispatch, if any, is
    cancelled. *)
Definition pending_cancelled (w : World) : list Timer :=
  match w.(shared).(pending_timer) with
  | Some old => alter cancel old w.(timers)
  | None => w.(timers)
  end.

(** Entry [i] of a timer table is live and runs callback [c]. *)
Definition live_at (c : Callback) (table : list Timer) (i : nat) : Prop :=
  exists t, table !! i = Some t /\ t.(callback) = c /\ live t = true.

(** Timer [i] of the call is live and runs callback [c]. *)
Definition live_timer (c : Callback) (w : World) (i : nat) : Prop :=
  live_at c w.(timers) i.

(** A timer table is in order with the two handles of a call and the last
    verdict of the turn-taking monitor: a live delayed-dispatch timer is the
    one the shared state holds, and a live silence timer is the one the
    bridge holds, started after the caller was last heard to stop. *)
Definition ordered (table : list Timer) (pending silence : option nat)
           (heard : bool) : Prop :=
  (forall i, live_at ProcessSpellingTranscription table i -> pending = Some i)
  /\ (forall i, live_at OnSilenceTimeout table i -> silence = Some i /\ heard = false).

Definition timers_in_order (w : World) : Prop :=
  ordered w.(timers) w.(shared).(pending_timer) w.(bridge).(user_silence_timer)
          w.(bridge).(last_user_vad_state).

(** Two states of a call with the same timers and handles. *)
Definition same_timers (w w' : World) : Prop :=
  w'.(timers) = w.(timers)
  /\ w'.(shared).(pending_timer) = w.(shared).(pending_timer)
  /\ w'.(bridge).(user_silence_timer) = w.(bridge).(user_silence_timer)
  /\ w'.(bridge).(last_user_vad_state) = w.(bridge).(last_user_vad_state).

(** What happens to a call, one entry per run of a handler: a start, a
    media or a stop message read by the receive loop of
    [websocket_endpoint], the end of that loop, a response of the
    recognition session handed to [on_transcription_response], a timer whose
    interval has elapsed, the restart timer of the bridge and the new
    session it opens, and a run of the synthesis thread. A start message
    comes with what the loop reads for it: whether the call is inbound, and
    the greeting formatted for the lead. *)
Inductive Event : Type :=
| StartReceived (streamSid : string) (is_inbound : bool) (greeting tts_provider : string)
| MediaReceived (now : Q) (payload : list byte)
| StopReceived
| LoopLeft
| Transcribed (now done : Q) (transcription : string) (is_final : bool)
| TimerElapsed (done : Q) (id : nat)
| RestartDue
| SessionOpened (opened : bool)
| Spoken (text tts_provider : string) (start_grace_time : Q) (readings : list Q).

Section Call.

Variable ulaw2lin : list byte -> list byte.
Variable is_speech : list byte -> option bool.
Variable rms_above : list byte -> bool.
Variable chat : nat -> string -> ConversationManager.Outcome.
Variable rnd : nat -> Q.
Variable json_loads : string -> option (gmap string PyVal).
Variable formatted : string.
Variable is_strict_confirmation : string -> bool.
Variable is_strict_rejection : string -> bool.
Variable google_synthesize : string -> option (list byte).
Variable elevenlabs_stream : string -> option (list (list byte)).
Variable cartesia_sse : string -> option (list (option (list byte))).
Variable to_mulaw : list byte -> list byte.

(** The handler an event runs, from its first to its last statement. *)
Definition step (e : Event) (w : World) : World :=
  match e with
  | StartReceived streamSid is_inbound greeting tts_provider =>
      let w := on_shared (set_stream_sid (Some streamSid)) w in
      if is_inbound then
        let w := on_shared (set_ai_speaking true) w in
        (text_to_speech google_synthesize elevenlabs_stream cartesia_sse to_mulaw
           greeting w.(shared).(stream_sid) tts_provider true [] w).1.1
      else w
  | MediaReceived now payload => add_request ulaw2lin is_speech rms_above now payload w
  | StopReceived => on_stop w
  | LoopLeft => on_close w
  | Transcribed now done transcription is_final =>
      (on_transcription_response chat rnd json_loads formatted
         is_strict_confirmation is_strict_rejection now done transcription is_final w).1
  | TimerElapsed done id => (fire_timer chat rnd json_loads formatted done id w).1
  | RestartDue => prepare_restart w
  | SessionOpened opened => start_new_stream opened w
  | Spoken text tts_provider start_grace_time readings =>
      (tts_worker google_synthesize elevenlabs_stream cartesia_sse to_mulaw
         text tts_provider start_grace_time readings [] w).1
  end.

(** The call after a sequence of events. *)
Definition run (events : list Event) (w : World) : World :=
  fold_left (fun w e => step e w) events w.

End Call.

End Observe.

(** * Properties *)

(** ** The string operations on sample inputs *)

Example replace_ex : PyStr.replace " at " "@" "joe at x dot com" = "joe@x dot com".
Proof. reflexivity. Qed.
Example split_ex : PyStr.split "dot" "adotbdot" = ["a"; "b"; ""].
Proof. reflexivity. Qed.
Example strip_ex : PyStr.strip "  a b  " = "a b".
Proof. reflexivity. Qed.
Example words_ex : PyStr.words " j o  hn " = ["j"; "o"; "hn"].
Proof. reflexivity. Qed.
Example lower_ex : PyStr.lower "Can I Get" = "can i get".
Proof. reflexivity. Qed.

(** ** Facts about the string operations *)

Section StringFacts.
Import PyStr.

Lemma prefix_single (c d : ascii) (t : string) :
  String.prefix (String c EmptyString) (String d t) = bool_decide (c = d).
Proof.
  simpl. destruct (ascii_dec c d) as [->|Hne].
  - destruct t; rewrite bool_decide_eq_true_2; reflexivity.
  - rewrite bool_decide_eq_false_2; [reflexivity | assumption].
Qed.

Lemma free_of_remove (c : ascii) (s : string) :
  free_of c (replace (String c EmptyString) EmptyString s) = true.
Proof.
  unfold replace. induction s as [|d t IH]; [reflexivity|].
  cbn [replace_from]. rewrite prefix_single. case_bool_decide as Hcd.
  - exact IH.
  - cbn [free_of]. rewrite IH, andb_true_r.
    apply negb_true_iff, Ascii.eqb_neq. exact Hcd.
Qed.

Lemma free_of_remove_other (c d : ascii) (s : string) :
  free_of c s = true ->
  free_of c (replace (String d EmptyString) EmptyString s) = true.
Proof.
  unfold replace. induction s as [|e t IH]; [reflexivity|].
  cbn [free_of]. intros [He Ht]%andb_true_iff.
  cbn [replace_from]. rewrite prefix_single. case_bool_decide.
  - apply IH, Ht.
  - cbn [free_of]. rewrite He. apply IH, Ht.
Qed.
End StringFacts.

Section CleanExtractedData.
Import PyStr ConversationManager.

Lemma cleaned_lookup (data : gmap string PyVal) (k : string) :
  map_imap (fun key value => Some (clean_field key value)) data !! k
  = clean_field k <$> data !! k.
Proof. rewrite map_lookup_imap. destruct (data !! k); reflexivity. Qed.

(** A key other than [name] is looked up in the cleaned items. *)
Lemma clean_extracted_data_lookup (data : gmap string PyVal) (k : string) :
  k <> "name" ->
  clean_extracted_data data !! k = clean_field k <$> data !! k.
Proof.
  intros Hk. unfold clean_extracted_data.
  destruct (decide (data = ∅)) as [->|_].
  { rewrite lookup_empty. reflexivity. }
  set (cleaned := map_imap _ data).
  assert (Hc : cleaned !! k = clean_field k <$> data !! k) by apply cleaned_lookup.
  destruct (cleaned !! "first_name"), (cleaned !! "last_name");
    try destruct (name_missing cleaned);
    rewrite ?lookup_insert_ne by congruence; exact Hc.
Qed.

Lemma clean_field_name_free (k : string) (v : PyVal) (s : string) :
  k = "first_name" \/ k = "last_name" ->
  clean_field k v = PyStr s ->
  free_of "-" s = true /\ free_of " " s = true.
Proof.
  intros Hk. destruct v as [s0|r t]; [|discriminate].
  assert (Hs : clean_field k (PyStr s0) = PyStr (replace " " "" (replace "-" "" s0)))
    by (destruct Hk as [-> | ->]; reflexivity).
  rewrite Hs. intros [= <-]. split.
  - apply free_of_remove_other, free_of_remove.
  - apply free_of_remove.
Qed.

Lemma clean_field_email_free (v : PyVal) (s : string) :
  clean_field "email" v = PyStr s -> free_of " " s = true.
Proof.
  destruct v as [s0|r t]; [|discriminate].
  change (clean_field "email" (PyStr s0)) with (PyStr (clean_email s0)).
  intros [= <-]. unfold clean_email. apply free_of_remove.
Qed.

(** C10, as amended. For every extracted-data mapping, a string returned
    under [first_name] or [last_name] holds no dash and no space, a string
    returned under [email] holds no space, and when both [first_name] and
    [last_name] are present the returned [name] is the cleaned first name,
    one space and the cleaned last name, with the whitespace at both ends
    of that text stripped. *)
Theorem clean_extracted_data_normalized (data : gmap string PyVal) :
  (forall k s, k = "first_name" \/ k = "last_name" ->
               clean_extracted_data data !! k = Some (PyStr s) ->
               free_of "-" s = true /\ free_of " " s = true)
  /\ (forall s, clean_extracted_data data !! "email" = Some (PyStr s) ->
                free_of " " s = true)
  /\ (forall f l, clean_extracted_data data !! "first_name" = Some f ->
                  clean_extracted_data data !! "last_name" = Some l ->
                  clean_extracted_data data !! "name"
                  = Some (PyStr (strip (py_format f ++ " " ++ py_format l)))).
Proof.
  split; [|split].
  - intros k s Hk. rewrite clean_extracted_data_lookup by (destruct Hk as [-> | ->]; discriminate).
    destruct (data !! k) as [v|]; [|discriminate].
    intros [= Hv]. eapply clean_field_name_free; eauto.
  - intros s. rewrite clean_extracted_data_lookup by discriminate.
    destruct (data !! "email") as [v|]; [|discriminate].
    intros [= Hv]. eapply clean_field_email_free; eauto.
  - intros f l.
    rewrite !clean_extracted_data_lookup by discriminate.
    rewrite <- !cleaned_lookup. intros Hf Hl.
    unfold clean_extracted_data.
    destruct (decide (data = ∅)) as [->|_].
    { rewrite map_lookup_imap, lookup_empty in Hf. discriminate. }
    rewrite Hf, Hl. apply lookup_insert_eq.
Qed.
End CleanExtractedData.

Section Debounce.
Import Vad.
Local Open Scope list_scope.
Variable ulaw2lin : list byte -> list byte.
Variable is_speech : list byte -> option bool.

Lemma frame_bytes_eq : frame_bytes = 480.
Proof. reflexivity. Qed.

Arguments frame_bytes : simpl never.

(** The loop leaves the counter at the fold of [debounce] over the
    verdicts, and answers by the counter after the last frame. *)
Lemma frames_loop_fold (fuel : nat) :
  forall buf count vd st' r,
    frames_loop is_speech fuel buf count vd = (st', Some r) ->
    voice_frame_count st' = fold_left debounce (verdicts is_speech fuel buf) count
    /\ r = match verdicts is_speech fuel buf with
           | [] => vd
           | _ => (3 <=? voice_frame_count st')%nat
           end.
Proof.
  induction fuel as [|fuel IH]; intros buf count vd st' r; cbn [frames_loop verdicts].
  - intros [= <- <-]. split; reflexivity.
  - destruct (frame_bytes <=? length buf)%nat.
    + destruct (is_speech (take frame_bytes buf)) as [v|]; [|discriminate].
      intros H. destruct (IH _ _ _ _ _ H) as [Hc Hr]. cbn [fold_left]. split; [exact Hc|].
      rewrite Hr. destruct (verdicts is_speech fuel (drop frame_bytes buf)) eqn:Hv.
      * cbn [fold_left] in Hc. rewrite Hc. reflexivity.
      * reflexivity.
    + intros [= <- <-]. split; reflexivity.
Qed.

(** With as much fuel as there are bytes the loop stops on its own
    condition: less than one frame is left. *)
Lemma frames_loop_exhausts (fuel : nat) :
  forall buf count vd st' r,
    length buf <= fuel ->
    frames_loop is_speech fuel buf count vd = (st', Some r) ->
    length (audio_buffer st') < frame_bytes.
Proof.
  induction fuel as [|fuel IH]; intros buf count vd st' r Hlen; cbn [frames_loop].
  - intros [= <- <-]. cbn. rewrite frame_bytes_eq. lia.
  - destruct (frame_bytes <=? length buf)%nat eqn:Hle.
    + destruct (is_speech (take frame_bytes buf)) as [v|]; [|discriminate].
      apply IH. apply Nat.leb_le in Hle. rewrite length_drop, frame_bytes_eq in *. lia.
    + intros [= <- <-]. cbn. apply Nat.leb_gt in Hle. exact Hle.
Qed.

Lemma verdicts_nonempty (fuel : nat) (buf : list byte) :
  verdicts is_speech fuel buf <> [] -> frame_bytes <= length buf.
Proof.
  destruct fuel; cbn [verdicts]; [congruence|].
  destruct (frame_bytes <=? length buf)%nat eqn:Hle; [|congruence].
  intros _. apply Nat.leb_le, Hle.
Qed.

Lemma process_audio_true (st st' : VadState) (payload : list byte) :
  process_audio ulaw2lin is_speech st payload = (st', true) ->
  3 <= voice_frame_count st'
  /\ frame_bytes <= length (audio_buffer st ++ ulaw2lin payload)
  /\ length (audio_buffer st') < frame_bytes.
Proof.
  unfold process_audio.
  destruct (frames_loop _ _ _ _ _) as [st1 [r|]] eqn:Hloop; [|intros [= _ ?]; discriminate].
  intros [= -> ->].
  destruct (frames_loop_fold _ _ _ _ _ _ Hloop) as [_ Hr].
  pose proof (frames_loop_exhausts _ _ _ _ _ _ (Nat.le_refl _) Hloop) as Hex.
  destruct (verdicts is_speech _ _) eqn:Hv; [discriminate|].
  split; [apply Nat.leb_le; symmetry; exact Hr|].
  split; [|exact Hex].
  eapply verdicts_nonempty. rewrite Hv. discriminate.
Qed.

(** *** The counter against the verdicts *)

Lemma trailing_positives_snoc (vs : list bool) (v : bool) :
  trailing_positives (vs ++ [v]) = if v then S (trailing_positives vs) else 0.
Proof. unfold trailing_positives. rewrite rev_unit. destruct v; reflexivity. Qed.

Lemma consecutive_positives_snoc (count : nat) (vs : list bool) (v : bool) :
  consecutive_positives count (vs ++ [v]) = debounce (consecutive_positives count vs) v.
Proof.
  unfold consecutive_positives, debounce.
  rewrite forallb_app, trailing_positives_snoc, length_app. cbn [forallb length].
  destruct v; destruct (forallb _ vs); cbn; try reflexivity. lia.
Qed.

(** The counter the loop keeps is the number of positive verdicts in a
    row. *)
Lemma debounce_counts (vs : list bool) (count : nat) :
  fold_left debounce vs count = consecutive_positives count vs.
Proof.
  induction vs as [|v vs IH] using rev_ind.
  - unfold consecutive_positives. cbn. lia.
  - rewrite fold_left_app, consecutive_positives_snoc, <- IH. reflexivity.
Qed.

Lemma consecutive_positives_app (count : nat) (a b : list bool) :
  consecutive_positives count (a ++ b)
  = consecutive_positives (consecutive_positives count a) b.
Proof. rewrite <- !debounce_counts. apply fold_left_app. Qed.

Lemma consecutive_positives_reset (count : nat) (before after : list bool) :
  consecutive_positives count (before ++ false :: after) = consecutive_positives 0 after.
Proof. rewrite <- !debounce_counts, fold_left_app. reflexivity. Qed.

Lemma leading_positives_bound (vs : list bool) : leading_positives vs <= length vs.
Proof.
  induction vs as [|v vs IH]; [reflexivity|]. destruct v; cbn; lia.
Qed.

Lemma leading_positives_all (vs : list bool) :
  forallb (fun v => v) vs = true -> leading_positives vs = length vs.
Proof.
  induction vs as [|v vs IH]; [reflexivity|]. cbn [forallb].
  intros [-> H]%andb_true_iff. cbn. rewrite (IH H). reflexivity.
Qed.

Lemma all_positive_rev (vs : list bool) :
  forallb (fun v => v) (rev vs) = forallb (fun v => v) vs.
Proof.
  induction vs as [|v vs IH]; [reflexivity|]. cbn [rev forallb].
  rewrite forallb_app, IH. cbn. rewrite andb_true_r. apply andb_comm.
Qed.

Lemma consecutive_positives_fresh (vs : list bool) :
  consecutive_positives 0 vs = trailing_positives vs.
Proof.
  unfold consecutive_positives. destruct (forallb _ vs) eqn:Hall; [|reflexivity].
  unfold trailing_positives. rewrite leading_positives_all, length_rev; [reflexivity|].
  rewrite all_positive_rev. exact Hall.
Qed.

Lemma consecutive_positives_bound (vs : list bool) :
  consecutive_positives 0 vs <= length vs.
Proof.
  rewrite consecutive_positives_fresh. unfold trailing_positives.
  rewrite <- (length_rev vs). apply leading_positives_bound.
Qed.

(** Three or more: the last three verdicts are positive. *)
Lemma three_in_a_row (vs : list bool) :
  3 <= consecutive_positives 0 vs <-> exists earlier, vs = earlier ++ [true; true; true].
Proof.
  rewrite consecutive_positives_fresh. unfold trailing_positives. split.
  - intros H. destruct (rev vs) as [|[] [|[] [|[] rest]]] eqn:Hr; cbn in H; try lia.
    exists (rev rest). rewrite <- (rev_involutive vs), Hr. cbn [rev].
    rewrite <- !app_assoc. reflexivity.
  - intros [earlier ->]. rewrite rev_app_distr. cbn. lia.
Qed.

(** *** The loop against the verdicts *)

Lemma frames_loop_count (fuel : nat) :
  forall buf count vd,
    voice_frame_count (frames_loop is_speech fuel buf count vd).1
    = fold_left debounce (verdicts is_speech fuel buf) count.
Proof.
  induction fuel as [|fuel IH]; intros buf count vd; cbn [frames_loop verdicts];
    [reflexivity|].
  destruct (frame_bytes <=? length buf)%nat; [|reflexivity].
  destruct (is_speech (take frame_bytes buf)) as [v|]; [|reflexivity].
  rewrite IH. reflexivity.
Qed.

Lemma frames_loop_answers (fuel : nat) :
  (forall frame, is_speech frame <> None) ->
  forall buf count vd, exists st r, frames_loop is_speech fuel buf count vd = (st, Some r).
Proof.
  intros Htotal. induction fuel as [|fuel IH]; intros buf count vd; cbn [frames_loop];
    [eauto|].
  destruct (frame_bytes <=? length buf)%nat; [|eauto].
  destruct (is_speech (take frame_bytes buf)) as [v|] eqn:Hv; [apply IH|].
  exfalso. exact (Htotal _ Hv).
Qed.

Lemma verdicts_all_frames (fuel : nat) :
  (forall frame, is_speech frame <> None) ->
  forall buf, length buf <= fuel ->
    length (verdicts is_speech fuel buf) = length buf / frame_bytes.
Proof.
  intros Htotal. assert (Hpos : 0 < frame_bytes) by (rewrite frame_bytes_eq; lia).
  induction fuel as [|fuel IH]; intros buf Hlen; cbn [verdicts].
  - destruct buf; [|cbn in Hlen; lia]. cbn. symmetry. apply Nat.div_small. exact Hpos.
  - destruct (frame_bytes <=? length buf)%nat eqn:Hle.
    + apply Nat.leb_le in Hle.
      destruct (is_speech (take frame_bytes buf)) as [v|] eqn:Hv;
        [|exfalso; exact (Htotal _ Hv)].
      cbn [length]. rewrite IH by (rewrite length_drop; lia).
      rewrite length_drop.
      replace (length buf) with (1 * frame_bytes + (length buf - frame_bytes)) at 2 by lia.
      rewrite Nat.div_add_l by lia. lia.
    + apply Nat.leb_gt in Hle. cbn. symmetry. apply Nat.div_small. exact Hle.
Qed.

(** One call: the counter and the answer, read off the verdicts. *)
Lemma process_audio_counts (st : VadState) (payload : list byte) :
  let pcm := audio_buffer st ++ ulaw2lin payload in
  let vs := verdicts is_speech (length pcm) pcm in
  let r := process_audio ulaw2lin is_speech st payload in
  voice_frame_count r.1 = consecutive_positives (voice_frame_count st) vs
  /\ (r.2 = true ->
      vs <> [] /\ 3 <= voice_frame_count r.1
      /\ frame_bytes <= length pcm /\ length (audio_buffer r.1) < frame_bytes)
  /\ ((forall frame, is_speech frame <> None) ->
      length vs = length pcm / frame_bytes
      /\ (r.2 = true <->
          vs <> [] /\ 3 <= consecutive_positives (voice_frame_count st) vs))
  /\ (forall before after, vs = before ++ false :: after ->
        voice_frame_count r.1 = consecutive_positives 0 after
        /\ voice_frame_count r.1 <= length after).
Proof.
  intros pcm vs r.
  assert (Hcount : voice_frame_count r.1
                   = consecutive_positives (voice_frame_count st) vs).
  { subst r vs. unfold process_audio. fold pcm.
    pose proof (frames_loop_count (length pcm) pcm (voice_frame_count st) false) as Hc.
    destruct (frames_loop _ _ _ _ _) as [st1 [a|]]; cbn [fst] in *;
      rewrite Hc; apply debounce_counts. }
  split; [exact Hcount|]. split; [|split].
  - intros Htrue.
    destruct (process_audio_true st r.1 payload) as (H3 & Hf & Hb).
    { subst r. destruct (process_audio _ _ _ _) as [s a]. cbn in Htrue. subst a. reflexivity. }
    repeat split; try assumption.
    intros Hnil. subst r vs. unfold process_audio in Htrue. fold pcm in Htrue.
    destruct (frames_loop is_speech (length pcm) pcm (voice_frame_count st) false)
      as [st1 [a|]] eqn:Hloop; cbn in Htrue; [|discriminate Htrue].
    destruct (frames_loop_fold _ _ _ _ _ _ Hloop) as [_ Ha].
    rewrite Hnil in Ha. congruence.
  - intros Htotal. split; [apply verdicts_all_frames; [exact Htotal | reflexivity]|].
    destruct (frames_loop_answers (length pcm) Htotal pcm (voice_frame_count st) false)
      as (st1 & a & Hloop).
    destruct (frames_loop_fold _ _ _ _ _ _ Hloop) as [Hc Ha].
    assert (Hr : r = (st1, a)).
    { subst r. unfold process_audio. fold pcm. rewrite Hloop. reflexivity. }
    rewrite Hr in Hcount |- *. cbn [fst snd] in *. fold vs in Ha.
    rewrite <- Hcount. split.
    + intros ->. destruct vs; [discriminate Ha|]. split; [discriminate|].
      apply Nat.leb_le. symmetry. exact Ha.
    + intros [Hne H3]. destruct vs; [contradiction|]. rewrite Ha.
      apply Nat.leb_le, H3.
  - intros before after Hvs. rewrite Hcount, Hvs, consecutive_positives_reset.
    split; [reflexivity | apply consecutive_positives_bound].
Qed.

(** Every call of a feed: the counter counts across the calls. *)
Lemma feed_counts (payloads : list (list byte)) :
  forall st k r st_k,
    feed ulaw2lin is_speech st payloads !! k = Some (r, st_k) ->
    voice_frame_count st_k
    = consecutive_positives (voice_frame_count st)
        (concat (take (S k) (feed_verdicts ulaw2lin is_speech st payloads)))
    /\ (r = true -> 3 <= voice_frame_count st_k).
Proof.
  induction payloads as [|p rest IH]; intros st k r st_k; cbn [feed feed_verdicts].
  - intros H. discriminate H.
  - destruct (process_audio_counts st p) as (Hc & Ht & _). cbv zeta in Hc, Ht.
    destruct (process_audio ulaw2lin is_speech st p) as [st' a] eqn:Hp. cbn [fst snd] in *.
    destruct k as [|k].
    + cbn. intros [= <- <-]. rewrite app_nil_r. split; [exact Hc|].
      intros Ha. apply Ht in Ha. tauto.
    + cbn [lookup list_lookup]. intros H. apply IH in H as [H1 H2].
      split; [|exact H2].
      rewrite H1, Hc. cbn [take concat]. rewrite <- consecutive_positives_app. reflexivity.
Qed.

(** C9. The answer of [process_audio] is the debounce of the
    specification, for one call and for every sequence of payloads. The
    counter it leaves is the number of frames classified positive in a row
    up to the last frame classified, counted across calls; a true answer is
    given only when at least one complete frame was classified in the call,
    that counter stands at three or more and less than a frame is left in
    the buffer, and, where the classifier raises on no frame, exactly then;
    from a counter of 0 a true answer means that the last three frames
    classified so far were positive; and a frame classified negative sets
    the counter back to 0, so that it counts the frames after it only. *)
Theorem process_audio_debounce :
  (forall st payload,
      let pcm := audio_buffer st ++ ulaw2lin payload in
      let vs := verdicts is_speech (length pcm) pcm in
      let r := process_audio ulaw2lin is_speech st payload in
      voice_frame_count r.1 = consecutive_positives (voice_frame_count st) vs
      /\ (r.2 = true ->
          vs <> [] /\ 3 <= voice_frame_count r.1
          /\ frame_bytes <= length pcm /\ length (audio_buffer r.1) < frame_bytes)
      /\ ((forall frame, is_speech frame <> None) ->
          length vs = length pcm / frame_bytes
          /\ (r.2 = true <->
              vs <> [] /\ 3 <= consecutive_positives (voice_frame_count st) vs))
      /\ (forall before after, vs = before ++ false :: after ->
            voice_frame_count r.1 = consecutive_positives 0 after
            /\ voice_frame_count r.1 <= length after))
  /\ (forall st payloads k r st_k,
        feed ulaw2lin is_speech st payloads !! k = Some (r, st_k) ->
        let heard := concat (take (S k) (feed_verdicts ulaw2lin is_speech st payloads)) in
        voice_frame_count st_k = consecutive_positives (voice_frame_count st) heard
        /\ (r = true ->
            3 <= voice_frame_count st_k
            /\ (voice_frame_count st = 0 ->
                exists earlier, heard = earlier ++ [true; true; true])))
  /\ (forall st payloads,
        Forall (fun o => o.1 = true -> 3 <= voice_frame_count o.2)
               (feed ulaw2lin is_speech st payloads))
  /\ (forall vs,
        3 <= consecutive_positives 0 vs <-> exists earlier, vs = earlier ++ [true; true; true]).
Proof.
  split; [exact process_audio_counts|]. split; [|split; [|exact three_in_a_row]].
  - intros st payloads k r st_k Hk heard.
    destruct (feed_counts payloads st k r st_k Hk) as [Hc Ht]. fold heard in Hc.
    split; [exact Hc|]. intros Hr. split; [exact (Ht Hr)|].
    intros H0. apply three_in_a_row. rewrite H0 in Hc. rewrite <- Hc. exact (Ht Hr).
  - intros st payloads. revert st.
    induction payloads as [|p rest IH]; intros st; cbn [feed]; [constructor|].
    destruct (process_audio ulaw2lin is_speech st p) as [st' r] eqn:Hp.
    constructor; [|apply IH].
    cbn. intros ->. apply process_audio_true in Hp. tauto.
Qed.

End Debounce.

Section CleanExtractedDataExamples.
Import PyStr ConversationManager Scenario.

(** C10, as stated: with a last name that cleans to the empty text the
    returned [name] is not first name, space, last name. *)
Lemma clean_extracted_data_name_counterexample :
  ~ (forall (data : gmap string PyVal) (f l : string),
        clean_extracted_data data !! "first_name" = Some (PyStr f) ->
        clean_extracted_data data !! "last_name" = Some (PyStr l) ->
        clean_extracted_data data !! "name" = Some (PyStr (f ++ " " ++ l))).
Proof.
  intros H. specialize (H first_name_only "Mary" "").
  vm_compute in H. specialize (H eq_refl eq_refl). discriminate H.
Qed.

Lemma clean_extracted_data_normalized_witness :
  (free_of "-" "MaryAnn" = true /\ free_of " " "MaryAnn" = true)
  /\ free_of " " "mary@gmail.com" = true
  /\ clean_extracted_data full_record !! "name" = Some (PyStr "MaryAnn ONeil").
Proof.
  destruct (clean_extracted_data_normalized full_record) as (Hn & He & Hj).
  split; [|split].
  - apply (Hn "first_name" "MaryAnn"); [left; reflexivity | vm_compute; reflexivity].
  - apply (He "mary@gmail.com"). vm_compute. reflexivity.
  - apply (Hj (PyStr "MaryAnn") (PyStr "ONeil")); vm_compute; reflexivity.
Defined.
End CleanExtractedDataExamples.

Section DebounceExamples.
Import Vad Scenario.
Local Open Scope list_scope.

Lemma process_audio_debounce_witness :
  3 <= voice_frame_count (process_audio ulaw2lin is_speech Vad.initial voiced).1
  /\ exists earlier,
       concat (take 1 (feed_verdicts ulaw2lin is_speech Vad.initial [voiced]))
       = earlier ++ [true; true; true].
Proof.
  split.
  - refine (proj1 (proj2 (proj1 (proj2 (proj1 (process_audio_debounce ulaw2lin is_speech)
                                           Vad.initial voiced)) _))).
    vm_compute. reflexivity.
  - refine (proj2 (proj2 (proj1 (proj2 (process_audio_debounce ulaw2lin is_speech))
                            Vad.initial [voiced] 0 true _ _) _) _).
    + vm_compute. reflexivity.
    + reflexivity.
    + reflexivity.
Defined.

Example two_frames_are_not_enough :
  (process_audio ulaw2lin is_speech Vad.initial (repeat x55 480)).2 = false.
Proof. vm_compute. reflexivity. Qed.

Example silence_resets :
  voice_frame_count
    (process_audio ulaw2lin is_speech
       (process_audio ulaw2lin is_speech Vad.initial voiced).1 (repeat xff 240)).1 = 0.
Proof. vm_compute. reflexivity. Qed.
End DebounceExamples.

(** ** The conversation oracle *)

Section Oracle.
Import PyStr ConversationManager.
Variable chat : nat -> string -> Outcome.
Variable rnd : nat -> Q.

(** In a module where [google] is bound the retry loop always returns a
    text, after at most one call per attempt. *)
Lemma retry_loop_returns (globals : list string) (user_input : string) :
  name_bound globals "google" = true ->
  forall attempts n slept,
  exists text,
    (retry_loop chat rnd globals user_input attempts n slept).(result) = Returned text
    /\ (retry_loop chat rnd globals user_input attempts n slept).(calls)
       <= n + length attempts.
Proof.
  intros Hg attempts. induction attempts as [|attempt rest IH]; intros n slept.
  - exists final_apology. cbn. split; [reflexivity | lia].
  - cbn [retry_loop]. rewrite Hg. cbn [negb length].
    destruct (chat n user_input) as [text|e].
    { exists text. cbn. split; [reflexivity | lia]. }
    assert (Hnext : forall slept', exists text,
               (retry_loop chat rnd globals user_input rest (S n) slept').(result)
               = Returned text
               /\ (retry_loop chat rnd globals user_input rest (S n) slept').(calls)
                  <= n + S (length rest)).
    { intros slept'. destruct (IH (S n) slept') as (text & Hr & Hc).
      exists text. split; [exact Hr | lia]. }
    destruct e as [msg| | | |];
      repeat match goal with
             | |- context [if ?c then _ else _] => destruct c
             end;
      try apply Hnext;
      eexists; cbn; (split; [reflexivity | lia]).
Qed.

Lemma generate_response_in_returns (globals : list string) (user_input : string) (n : nat) :
  name_bound globals "google" = true ->
  exists text,
    (generate_response_in chat rnd globals user_input n).(result) = Returned text
    /\ (generate_response_in chat rnd globals user_input n).(calls) <= n + max_retries.
Proof. intros Hg. apply (retry_loop_returns globals user_input Hg (seq 0 max_retries)). Qed.

(** C6. An error of the chat model on the first turn leaves
    [generate_first_response] as it was raised, after a single call and
    with no fallback text; on a later turn the first error leaves
    [generate_response] as a [NameError], since [google] is not bound in
    the module. Neither generator degrades to an apology. *)
Theorem oracle_error_propagates (formatted user_input : string)
        (st : SharedState) (n : nat) (e : ApiError) :
  (forall message, chat n message = Raise e) ->
  generate_first_response chat formatted user_input st n
  = mkRun (Propagated (ApiExc e)) (S n) []
  /\ generate_response chat rnd user_input n
     = mkRun (Propagated (NameError "google")) (S n) [].
Proof.
  intros Hdown. split.
  - unfold generate_first_response. rewrite Hdown. reflexivity.
  - unfold generate_response, generate_response_in. cbn [seq max_retries retry_loop].
    rewrite Hdown. reflexivity.
Qed.
End Oracle.

Lemma oracle_error_propagates_witness :
  ConversationManager.generate_first_response Scenario.chat_down Scenario.prompt
    "hello" initial_state 0
  = ConversationManager.mkRun
      (ConversationManager.Propagated
         (ConversationManager.ApiExc ConversationManager.ServiceUnavailable)) 1 []
  /\ ConversationManager.generate_response Scenario.chat_down Scenario.no_jitter "hello" 0
     = ConversationManager.mkRun
         (ConversationManager.Propagated (ConversationManager.NameError "google")) 1 [].
Proof.
  apply (oracle_error_propagates Scenario.chat_down Scenario.no_jitter).
  intros message. reflexivity.
Defined.

(** ** The mode switch of [manage_conversation] *)

Section ModeSwitch.
Import PyStr ConversationManager Pipeline Scenario.

(** The name branch clears the assistance flag. *)
Lemma switch_spelling_name (response_lower : string) (st : SharedState) :
  contains "can i get your full name" response_lower
  || contains "what's your name" response_lower
  || contains "first name" response_lower
  || contains "last name" response_lower = true ->
  exclusive (switch_spelling response_lower st).
Proof. intros H. unfold switch_spelling. rewrite H. unfold exclusive. reflexivity. Qed.

(** Entering assistance mode clears the spelling flag. *)
Lemma switch_assistance_enters (response_lower : string) (st : SharedState) :
  contains_any assistance_phrases response_lower = true ->
  exclusive (switch_assistance response_lower st).
Proof.
  intros H. unfold switch_assistance. rewrite H. unfold exclusive.
  destruct (spelling_mode st) eqn:Hs; cbn; [reflexivity | rewrite Hs; reflexivity].
Qed.

(** The e-mail and phone branches set the spelling flag and leave the
    assistance flag as it was. *)
Lemma switch_spelling_phone_keeps_assistance (st : SharedState) :
  let st' := switch_spelling (lower "What is the best phone number to reach you?") st in
  st'.(spelling_mode) = true /\ st'.(assistance_mode) = st.(assistance_mode).
Proof. split; reflexivity. Qed.

Lemma switch_spelling_email_keeps_assistance (st : SharedState) :
  let st' := switch_spelling (lower "Could you spell your email address for me?") st in
  st'.(spelling_mode) = true /\ st'.(assistance_mode) = st.(assistance_mode).
Proof. split; reflexivity. Qed.

(** C1. The call [assistance_then_phone] reaches a state in which
    [spellingMode] and [assistanceMode] are both true: the phone branch of
    [manage_conversation] entered spelling mode without clearing the
    assistance flag set on the turn before. *)
Theorem mode_flags_both_set :
  assistance_then_phone.(shared).(spelling_mode) = true
  /\ assistance_then_phone.(shared).(assistance_mode) = true
  /\ assistance_then_phone.(shared).(spelling_type) = Some "phone".
Proof. vm_compute. repeat split; reflexivity. Qed.
End ModeSwitch.

(** ** The recognition bridge *)

Section BridgeFacts.
Import PyStr ConversationManager Pipeline Scenario.
Local Open Scope list_scope.
Variable ulaw2lin : list byte -> list byte.
Variable is_speech : list byte -> option bool.
Variable rms_above : list byte -> bool.

(** The barge-in monitor touches neither queue nor the restart flag. *)
Lemma process_universal_vad_queues (now : Q) (buffer : list byte) (w : World) :
  let w' := process_universal_vad ulaw2lin is_speech rms_above now buffer w in
  w'.(bridge).(queue) = w.(bridge).(queue)
  /\ w'.(bridge).(audio_buffer) = w.(bridge).(audio_buffer)
  /\ w'.(bridge).(restart_in_progress) = w.(bridge).(restart_in_progress).
Proof.
  unfold process_universal_vad. destruct buffer as [|b0 buffer]; [repeat split|].
  destruct (rms_above (b0 :: buffer)).
  - destruct (Vad.process_audio ulaw2lin is_speech _ _) as [vad r].
    repeat match goal with
           | |- context [if ?c then _ else _] => destruct c
           | |- context [match ?c with Some _ => _ | None => _ end] => destruct c
           end; repeat split.
  - repeat match goal with
           | |- context [if ?c then _ else _] => destruct c
           | |- context [match ?c with Some _ => _ | None => _ end] => destruct c
           end; repeat split.
Qed.

(** While a restart is in progress [add_request] puts the frame on the
    side buffer and on the main queue. *)
Lemma add_request_during_restart (now : Q) (buffer : list byte) (w : World) :
  w.(bridge).(restart_in_progress) = true ->
  let w' := add_request ulaw2lin is_speech rms_above now buffer w in
  w'.(bridge).(audio_buffer) = w.(bridge).(audio_buffer) ++ [Some buffer]
  /\ w'.(bridge).(queue) = w.(bridge).(queue) ++ [Some buffer].
Proof.
  intros Hr. unfold add_request.
  set (w1 := if negb _ then _ else w).
  assert (H1 : w1.(bridge).(queue) = w.(bridge).(queue)
               /\ w1.(bridge).(audio_buffer) = w.(bridge).(audio_buffer)
               /\ w1.(bridge).(restart_in_progress) = true).
  { subst w1. destruct (negb _); repeat split; assumption. }
  destruct H1 as (Hq1 & Ha1 & Hr1).
  destruct (process_universal_vad_queues now buffer w1) as (Hq & Ha & Hr').
  cbv zeta in *.
  set (w2 := process_universal_vad _ _ _ _ _ _) in *.
  rewrite Hr', Hr1. cbn. rewrite Hq, Ha, Hq1, Ha1. split; reflexivity.
Qed.
End BridgeFacts.

Section BridgeRuns.
Import Pipeline Scenario.
Local Open Scope list_scope.

(** C3. Three frames added while a restart is in progress are put on the
    side buffer and also on the main queue; the generator of the new
    session, resumed before the old one has emptied the main queue, hands
    the new session the first frame twice and the other two again after
    it, and ends once the side buffer is empty and the restart is over. *)
Theorem restart_frames_reordered :
  let b := frames_during_restart.(bridge) in
  b.(audio_buffer) = [Some [x01]; Some [x02]; Some [x03]]
  /\ b.(queue) = [Some [x01]; Some [x02]; Some [x03]]
  /\ (received 3 true b).1 = [[x01; x01; x02; x03]; [x02]; [x03]]
  /\ concat (received 3 true b).1 <> [x01; x02; x03]
  /\ (generator_next true
        (received 3 true (start_new_stream true frames_during_restart).(bridge)).2).1
     = Stop.
Proof. vm_compute. repeat split; try reflexivity. discriminate. Qed.

(** The pending timer of the shared state is not among the things
    [terminate] cancels. *)
Lemma terminate_keeps_timer (w : World) (id : nat) :
  w.(bridge).(user_silence_timer) <> Some id ->
  (terminate w).(timers) !! id = w.(timers) !! id.
Proof.
  intros Hne. unfold terminate. cbn.
  destruct (user_silence_timer (bridge w)) as [t|]; cbn; [|reflexivity].
  apply list_lookup_alter_ne. congruence.
Qed.

(** C8. After the stop event of the call [spelling_then_pause] the call is
    marked ended and its silence timer is cancelled, but the pending
    delayed-dispatch timer is still registered and live; when it fires it
    dispatches the buffered text to the oracle. *)
Theorem pending_timer_survives_stop :
  hung_up.(shared).(call_ended) = true
  /\ hung_up.(bridge).(user_silence_timer) = None
  /\ (live <$> hung_up.(timers) !! 1) = Some false
  /\ hung_up.(shared).(pending_timer) = Some 0
  /\ (live <$> hung_up.(timers) !! 0) = Some true
  /\ (callback <$> hung_up.(timers) !! 0) = Some ProcessSpellingTranscription
  /\ dispatched (timer_fires chat_email 28 0 hung_up)
     = dispatched hung_up ++ ["j o h n"%string].
Proof. vm_compute. repeat split; reflexivity. Qed.
End BridgeRuns.

(** ** The output dispatcher *)

Section DispatcherFacts.
Import PyStr ConversationManager Pipeline.
Local Open Scope list_scope.
Variable google_synthesize : string -> option (list byte).
Variable elevenlabs_stream : string -> option (list (list byte)).
Variable cartesia_sse : string -> option (list (option (list byte))).
Variable to_mulaw : list byte -> list byte.

Lemma with_ws_sent_send (m : WsMsg) (log : list WsMsg) (w : World) :
  with_ws_sent (ws_sent (send m w) ++ log) (send m w)
  = with_ws_sent (ws_sent w ++ m :: log) w.
Proof. unfold send, with_ws_sent. cbn. rewrite <- app_assoc. reflexivity. Qed.

(** Left alone and not interrupted, the Google loop sends every chunk. *)
Lemma google_loop_quiet (stream_sid : option string) (chunks : list (list byte)) :
  forall w,
    w.(shared).(interrupt_ai) = false ->
    google_loop true stream_sid chunks [] w
    = (with_ws_sent (w.(ws_sent) ++ map (MediaMsg stream_sid) chunks) w, [], true).
Proof.
  induction chunks as [|chunk rest IH]; intros w Hq.
  - destruct w. cbn. rewrite app_nil_r. reflexivity.
  - cbn [google_loop check_interrupt interfere]. rewrite Hq.
    rewrite IH by exact Hq. cbn [map]. rewrite with_ws_sent_send. reflexivity.
Qed.

(** With the interrupt flag up, the Google loop sends a clear message
    whether or not one was already recorded in [clear_command_sent]. *)
Lemma google_loop_clears_again (stream_sid : option string)
      (chunk : list byte) (rest : list (list byte)) (w : World) :
  w.(shared).(interrupt_ai) = true ->
  (google_loop true stream_sid (chunk :: rest) [] w).1.1.(ws_sent)
  = w.(ws_sent) ++ [ClearMsg stream_sid].
Proof. intros Hi. cbn. rewrite Hi. reflexivity. Qed.

(** C5. With the Google or the Cartesia provider, an utterance that
    completes normally reaches the grace loop of [tts_worker] with
    [aiSpeaking] already false: [text_to_speech] cleared it right after the
    last chunk. *)
Theorem grace_starts_not_speaking (text tts_provider : string)
        (env : list Interference) (w w' : World) :
  tts_provider = GOOGLE \/ tts_provider = CARTESIA ->
  at_grace_start google_synthesize elevenlabs_stream cartesia_sse to_mulaw
    text tts_provider env w = (w', Finished) ->
  w'.(shared).(ai_is_speaking) = false.
Proof.
  intros Hp. unfold at_grace_start, text_to_speech, tts_after_prologue.
  destruct (check_interrupt true env (tts_prologue w)) as [[stop w1] env1].
  destruct stop; [intros Hd; discriminate Hd|].
  destruct Hp as [-> | ->]; cbn [String.eqb GOOGLE CARTESIA ELEVENLABS Ascii.eqb Bool.eqb].
  - destruct (google_synthesize _) as [audio|]; [|intros Hd; discriminate Hd].
    destruct (google_loop _ _ _ _ _) as [[w2 env2] sent_all].
    destruct sent_all; [|intros Hd; discriminate Hd].
    intros [= <-]. reflexivity.
  - destruct (cartesia_sse _) as [response|]; [|intros Hd; discriminate Hd].
    destruct (stream_loop _ _ _ _ _ _ _ _) as [[w2 env2] [leftover|]];
      [|intros Hd; discriminate Hd].
    destruct (send_remaining _ _ _ _ _ _) as [w3 env3].
    intros [= <-]. reflexivity.
Qed.

Section Turn.
Variable chat : nat -> string -> Outcome.
Variable rnd : nat -> Q.
Variable json_loads : string -> option (gmap string PyVal).
Variable formatted : string.

Lemma process_transcription_resets (text : string) (w w' : World) :
  process_transcription chat rnd json_loads formatted text w = (w', true) ->
  w'.(shared).(interrupt_ai) = false /\ w'.(shared).(ai_is_speaking) = true.
Proof.
  unfold process_transcription.
  destruct (manage_conversation _ _ _ _ _ _ _) as [[[response|x] st] n].
  - intros [= <-]. split; reflexivity.
  - intros Hd. discriminate Hd.
Qed.

(** C4. Every call of [text_to_speech] with a shared state first clears
    [interruptRequested] and sets [aiSpeaking], sending nothing, and
    runs the rest of the utterance from that state; so a Google
    utterance that nobody interrupts sends all its chunks whatever the
    flag was at the call. [process_transcription] clears the flag as
    well before it starts the synthesis thread. *)
Theorem tts_fresh_utterance (text : string) (stream_sid : option string)
        (tts_provider : string) (env : list Interference) (w : World) :
  (tts_prologue w).(shared).(interrupt_ai) = false
  /\ (tts_prologue w).(shared).(ai_is_speaking) = true
  /\ (tts_prologue w).(ws_sent) = w.(ws_sent)
  /\ text_to_speech google_synthesize elevenlabs_stream cartesia_sse to_mulaw
       text stream_sid tts_provider true env w
     = tts_after_prologue google_synthesize elevenlabs_stream cartesia_sse to_mulaw
         text stream_sid tts_provider true env (tts_prologue w)
  /\ (forall audio_content,
         google_synthesize (ssml_escape text) = Some audio_content ->
         let r := text_to_speech google_synthesize elevenlabs_stream cartesia_sse
                    to_mulaw text stream_sid GOOGLE true [] w in
         r.2 = Finished
         /\ r.1.1.(ws_sent)
            = w.(ws_sent) ++ map (MediaMsg stream_sid) (google_chunks audio_content))
  /\ (forall user_text w',
         process_transcription chat rnd json_loads formatted user_text w = (w', true) ->
         w'.(shared).(interrupt_ai) = false /\ w'.(shared).(ai_is_speaking) = true).
Proof.
  repeat split; try reflexivity.
  - unfold text_to_speech, tts_after_prologue.
    cbn [check_interrupt interfere String.eqb GOOGLE Ascii.eqb Bool.eqb].
    assert (Hq : (tts_prologue w).(shared).(interrupt_ai) = false) by reflexivity.
    rewrite Hq, H. rewrite google_loop_quiet by reflexivity. reflexivity.
  - unfold text_to_speech, tts_after_prologue.
    cbn [check_interrupt interfere String.eqb GOOGLE Ascii.eqb Bool.eqb].
    assert (Hq : (tts_prologue w).(shared).(interrupt_ai) = false) by reflexivity.
    rewrite Hq, H. rewrite google_loop_quiet by reflexivity. reflexivity.
  - eapply process_transcription_resets; eassumption.
  - eapply process_transcription_resets; eassumption.
Qed.
End Turn.
End DispatcherFacts.

Section DispatcherRuns.
Import PyStr ConversationManager Pipeline Scenario.
Local Open Scope list_scope.

(** A call whose interrupt flag was left up by an earlier turn. *)
Lemma tts_fresh_utterance_witness :
  let stale := on_shared (set_interrupt_ai true) started in
  let r := text_to_speech google_synthesize elevenlabs_stream cartesia_sse to_mulaw
             "Hello" (Some "MZ0001"%string) GOOGLE true [] stale in
  r.2 = Finished
  /\ r.1.1.(ws_sent)
     = stale.(ws_sent)
       ++ map (MediaMsg (Some "MZ0001"%string)) (google_chunks (repeat x55 640)).
Proof.
  intros stale.
  destruct (tts_fresh_utterance google_synthesize elevenlabs_stream cartesia_sse
              to_mulaw chat_okay no_jitter no_data prompt
              "Hello" (Some "MZ0001"%string) GOOGLE [] stale)
    as (_ & _ & _ & _ & H & _).
  apply H. reflexivity.
Defined.

Lemma grace_starts_not_speaking_witness :
  (at_grace_start google_synthesize elevenlabs_stream cartesia_sse to_mulaw
     "Hello" GOOGLE [] started).1.(shared).(ai_is_speaking) = false.
Proof.
  apply (grace_starts_not_speaking google_synthesize elevenlabs_stream cartesia_sse
           to_mulaw "Hello" GOOGLE [] started).
  - left. reflexivity.
  - vm_compute. reflexivity.
Defined.

(** The ElevenLabs branch leaves the flag to [tts_worker]. *)
Example elevenlabs_holds_flag :
  at_grace_start google_synthesize elevenlabs_stream cartesia_sse to_mulaw
    "Hello" ELEVENLABS [] started
  = ((at_grace_start google_synthesize elevenlabs_stream cartesia_sse to_mulaw
        "Hello" ELEVENLABS [] started).1, Finished)
  /\ (at_grace_start google_synthesize elevenlabs_stream cartesia_sse to_mulaw
        "Hello" ELEVENLABS [] started).1.(shared).(ai_is_speaking) = true.
Proof. vm_compute. split; reflexivity. Qed.

(** C2. In the call [interrupted_google_utterance] the caller barges in
    once during one Google utterance: the barge-in monitor sends a clear
    message and records it in [clear_command_sent], and the chunk loop of
    [text_to_speech], which does not read that flag, sends a second one. *)
Theorem clear_sent_twice :
  count_clears interrupted_google_utterance.(ws_sent) = 2
  /\ filter is_media interrupted_google_utterance.(ws_sent)
     = [MediaMsg (Some "MZ0001"%string) (repeat x55 320)]
  /\ interrupted_google_utterance.(shared).(clear_command_sent) = true.
Proof. vm_compute. repeat split; reflexivity. Qed.

(** The three payloads of the barge-in raise one interrupt and one clear
    message: the monitor itself does not repeat it. *)
Example barge_in_clears_once :
  count_clears (barge_in (on_shared (set_ai_speaking true) started)).(ws_sent) = 1.
Proof. vm_compute. reflexivity. Qed.
End DispatcherRuns.

(** ** The turn and mode machine *)

Section TurnFacts.
Import PyStr ConversationManager Pipeline.
Local Open Scope list_scope.
Variable chat : nat -> string -> Outcome.
Variable rnd : nat -> Q.
Variable json_loads : string -> option (gmap string PyVal).
Variable formatted : string.
Variable is_strict_confirmation : string -> bool.
Variable is_strict_rejection : string -> bool.

Lemma substring_full (s : string) : String.substring 0 (String.length s) s = s.
Proof. induction s as [|c s IH]; cbn; [reflexivity | rewrite IH; reflexivity]. Qed.

Lemma after_first_lead (text : string) :
  after_first "Lead: " ("Lead: " ++ text)%string = Some text.
Proof.
  change ("Lead: " ++ text)%string
    with (String "L" (String "e" (String "a" (String "d" (String ":" (String " " text)))))).
  destruct text as [|c text]; [reflexivity|].
  cbn. rewrite substring_full. reflexivity.
Qed.

Lemma lead_texts_lead (log : list string) (text : string) :
  lead_texts (log ++ [("Lead: " ++ text)%string]) = lead_texts log ++ [text].
Proof.
  unfold lead_texts. rewrite filter_app, omap_app. f_equal.
  rewrite filter_cons_True by (destruct text; exact I).
  rewrite filter_nil. cbn [omap list_omap]. rewrite after_first_lead. reflexivity.
Qed.

Lemma lead_texts_ai (log : list string) (text : string) :
  lead_texts (log ++ [("AI: " ++ text)%string]) = lead_texts log.
Proof.
  unfold lead_texts. rewrite filter_app, omap_app.
  rewrite filter_cons_False by (destruct text; exact (fun H => H)).
  rewrite filter_nil. cbn [omap list_omap]. apply app_nil_r.
Qed.

Ltac split_ifs :=
  repeat match goal with
         | |- context [if ?c then _ else _] => destruct c
         end.

(** The mode switch and the data block leave the transcript alone. *)
Lemma switch_modes_transcript (response : string) (st : SharedState) :
  (switch_modes response st).(full_transcript) = st.(full_transcript).
Proof.
  unfold switch_modes, switch_assistance, switch_spelling. split_ifs; reflexivity.
Qed.

Lemma extract_data_transcript (response : string) (st : SharedState) :
  (extract_data json_loads response st).2.(full_transcript) = st.(full_transcript).
Proof.
  unfold extract_data. destruct (contains open_tag response); [|reflexivity].
  destruct (json_loads _); reflexivity.
Qed.

Lemma manage_conversation_transcript (user_input : string) (st : SharedState) (n : nat) :
  (manage_conversation chat rnd json_loads formatted user_input st n).1.2.(full_transcript)
  = st.(full_transcript).
Proof.
  unfold manage_conversation.
  destruct (result _) as [response|x]; [|reflexivity].
  pose proof (extract_data_transcript response st) as He.
  destruct (extract_data json_loads response st) as [response_for_user st1].
  cbn in *. rewrite switch_modes_transcript. exact He.
Qed.

Lemma send_transcript_shared (w : World) :
  (send_transcript_to_websocket w).(shared) = w.(shared).
Proof.
  unfold send_transcript_to_websocket.
  repeat match goal with
         | |- context [match ?c with Some _ => _ | None => _ end] => destruct c
         end; reflexivity.
Qed.

(** A dispatch adds the text, and nothing else, to the utterances handed
    to the oracle. *)
Lemma process_transcription_dispatches (text : string) (w : World) :
  dispatched (process_transcription chat rnd json_loads formatted text w).1
  = dispatched w ++ [text].
Proof.
  unfold process_transcription, dispatched.
  set (w1 := if ai_is_speaking (shared w) then _ else _).
  assert (H1 : w1.(shared).(full_transcript) = w.(shared).(full_transcript))
    by (subst w1; destruct (ai_is_speaking _); reflexivity).
  set (w2 := send_transcript_to_websocket _).
  assert (H2 : w2.(shared).(full_transcript)
               = w.(shared).(full_transcript) ++ [("Lead: " ++ text)%string]).
  { subst w2. rewrite send_transcript_shared. cbn. rewrite H1. reflexivity. }
  pose proof (manage_conversation_transcript text w2.(shared) w2.(chat_calls)) as Hm.
  destruct (manage_conversation _ _ _ _ _ _ _) as [[[response|x] st] n]; cbn in Hm.
  - cbn. rewrite send_transcript_shared. cbn.
    change (lead_texts (full_transcript st ++ [("AI: " ++ response)%string])
            = lead_texts (full_transcript (shared w)) ++ [text]).
    rewrite Hm, H2, lead_texts_ai, lead_texts_lead. reflexivity.
  - cbn.
    change (lead_texts (full_transcript (shared w2))
            = lead_texts (full_transcript (shared w)) ++ [text]).
    rewrite H2, lead_texts_lead. reflexivity.
Qed.

Lemma Qlt_bool_true (a b : Q) : (a < b)%Q -> Qlt_bool a b = true.
Proof.
  intros Hlt. unfold Qlt_bool. apply negb_true_iff.
  destruct (Qle_bool b a) eqn:Hle; [|reflexivity].
  apply Qle_bool_iff in Hle. exfalso. exact (Qlt_not_le _ _ Hlt Hle).
Qed.

Lemma truthy_time_some (t : Q) : ~ (t == 0)%Q -> truthy_time (Some t) = true.
Proof.
  intros Hne. unfold truthy_time. apply negb_true_iff.
  destruct (Qeq_bool t 0) eqn:He; [|reflexivity].
  apply Qeq_bool_iff in He. contradiction.
Qed.

(** The one guard against repeated dispatch: a finalized, non-blank
    transcription that arrives in spelling mode less than one second after
    the time stamp of the last spelling dispatch is not dispatched, whatever
    its text: it is only added to the buffer, and no timer is armed. Outside
    the modes every finalized, non-blank transcription is dispatched at
    once, equal to the previous one or not. In assistance mode the outcome
    depends on neither clock reading. *)
Lemma spelling_window_suppression (now done : Q) (transcription : string) (w : World) :
  strip transcription <> EmptyString ->
  let respond := on_transcription_response chat rnd json_loads formatted
                   is_strict_confirmation is_strict_rejection in
  (w.(shared).(spelling_mode) = true ->
   forall t, w.(shared).(last_spelling_processed_time) = Some t ->
             ~ (t == 0)%Q -> (now - t < 1)%Q ->
             (respond now done transcription true w).2 = true
             /\ dispatched (respond now done transcription true w).1 = dispatched w
             /\ (respond now done transcription true w).1.(timers) = w.(timers)
             /\ (respond now done transcription true w).1.(shared).(buffered_transcription)
                = if String.eqb w.(shared).(buffered_transcription) EmptyString
                  then transcription
                  else (w.(shared).(buffered_transcription) ++ " " ++ transcription)%string)
  /\ (w.(shared).(spelling_mode) = false -> w.(shared).(assistance_mode) = false ->
      dispatched (respond now done transcription true w).1
      = dispatched w ++ [transcription])
  /\ (w.(shared).(spelling_mode) = false -> w.(shared).(assistance_mode) = true ->
      forall now' done',
        respond now' done' transcription true w = respond now done transcription true w).
Proof.
  intros Hblank respond. subst respond.
  apply String.eqb_neq in Hblank.
  unfold on_transcription_response. cbn [negb orb]. rewrite Hblank.
  split; [|split].
  - intros Hs t Ht Hne Hlt. rewrite Hs. cbn [orb].
    cbn [shared on_shared with_shared spelling_mode set_buffered_transcription].
    rewrite Hs. unfold process_spelling_mode.
    cbn [shared on_shared with_shared last_spelling_processed_time
           set_buffered_transcription].
    rewrite Ht. cbn [from_option]. unfold id.
    rewrite (truthy_time_some t Hne), (Qlt_bool_true _ _ Hlt).
    cbn. repeat split; reflexivity.
  - intros Hs Ha. rewrite Hs, Ha. cbn [orb]. rewrite Hs, Ha.
    apply process_transcription_dispatches.
  - intros Hs Ha now' done'. rewrite Hs, Ha. cbn [orb].
    cbn [shared on_shared with_shared spelling_mode assistance_mode
           set_buffered_transcription].
    rewrite Hs, Ha. reflexivity.
Qed.
End TurnFacts.

Section TurnRuns.
Import PyStr ConversationManager Pipeline Scenario.
Local Open Scope list_scope.

(** C7. No handler compares a final text with the text dispatched before
    it, and the one-second test stands on the spelling path only, against a
    time stamp that a dispatch by the silence timer does not write. So the
    same final text is dispatched a second time 200 to 300 ms after its
    first dispatch outside the modes, in assistance mode, and in spelling
    mode after a dispatch by the silence timer; and in spelling mode a
    different text is withheld within a second of a stamped dispatch. *)
Theorem duplicates_dispatched_again :
  (started.(shared).(spelling_mode) = false
   /\ started.(shared).(assistance_mode) = false
   /\ dispatched repeated_direct = ["hello there"; "hello there"]%string)
  /\ (assistance_mode_on.(shared).(assistance_mode) = true
      /\ declined_once.(shared).(assistance_mode) = true
      /\ declined_once.(shared).(spelling_mode) = false
      /\ dispatched declined_once
         = ["I have a question about a listing"; "that's all"]%string
      /\ dispatched declined_twice
         = ["I have a question about a listing"; "that's all"; "that's all"]%string)
  /\ (name_buffered.(shared).(spelling_mode) = true
      /\ name_buffered.(shared).(buffered_transcription) = "smith"%string
      /\ dispatched name_buffered = ["hello there"; "john"]%string
      /\ name_after_silence.(shared).(spelling_mode) = true
      /\ name_after_silence.(shared).(last_spelling_processed_time) = Some (121 # 10)%Q
      /\ dispatched name_after_silence = ["hello there"; "john"; "smith"]%string
      /\ dispatched name_repeated = ["hello there"; "john"; "smith"; "smith"]%string)
  /\ (name_mode.(shared).(spelling_mode) = true
      /\ dispatched name_then_more = ["hello there"; "john"]%string
      /\ name_then_more.(shared).(buffered_transcription) = "smith"%string).
Proof. vm_compute. repeat split; reflexivity. Qed.

Lemma spelling_window_suppression_witness :
  dispatched name_then_more
  = dispatched (hear chat_name 12 (12 + (1 # 10)) "john" name_mode)
  /\ dispatched (hear chat_okay 10 (10 + (1 # 10)) "hello there" started)
     = dispatched started ++ ["hello there"%string].
Proof.
  split.
  - refine (proj1 (proj2 (proj1 (spelling_window_suppression
              chat_name no_jitter no_data prompt never never
              (12 + (3 # 10)) 13 "smith"
              (hear chat_name 12 (12 + (1 # 10)) "john" name_mode) _)
              _ (12 + (1 # 10))%Q _ _ _))).
    + vm_compute. discriminate.
    + vm_compute. reflexivity.
    + vm_compute. reflexivity.
    + intros H. vm_compute in H. discriminate H.
    + vm_compute. reflexivity.
  - refine (proj1 (proj2 (spelling_window_suppression
              chat_okay no_jitter no_data prompt never never
              10 (10 + (1 # 10)) "hello there" started _)) _ _).
    + vm_compute. discriminate.
    + reflexivity.
    + reflexivity.
Defined.
End TurnRuns.


(** * Further properties of the conversation manager *)

Section ModeSwitchMore.
Import PyStr ConversationManager.

(** Case analysis on the phrase tests, leaving the tests of a flag alone. *)
Ltac split_phrases :=
  repeat match goal with
         | |- context [if ?c then _ else _] =>
             lazymatch c with
             | context [spelling_mode] => fail
             | _ => destruct c
             end
         end.

Ltac mode_fields :=
  cbn [spelling_mode assistance_mode spelling_type set_assistance_mode
         set_spelling_type set_spelling_mode].

(** X1. When assistance mode is off before the oracle's reply is examined,
    the mode switch of [manage_conversation] never leaves both mode flags
    set, whatever the reply says. *)
Theorem switch_modes_exclusive_from_no_assistance (response : string) (st : SharedState) :
  st.(assistance_mode) = false ->
  exclusive (switch_modes response st).
Proof.
  intros Ha. unfold exclusive, switch_modes, switch_assistance, switch_spelling.
  split_phrases; mode_fields;
    try (destruct (spelling_mode st) eqn:Hs; mode_fields);
    rewrite ?Ha, ?Hs; reflexivity.
Qed.

Lemma switch_modes_exclusive_from_no_assistance_witness :
  exclusive (switch_modes "What is the best phone number to reach you?" initial_state).
Proof. apply switch_modes_exclusive_from_no_assistance. reflexivity. Defined.

(** X2. A reply that holds one of the assistance phrases always ends in
    assistance mode with spelling mode off, even when the same reply asks
    for a name, an e-mail address or a phone number. *)
Theorem assistance_phrase_wins (response : string) (st : SharedState) :
  contains_any assistance_phrases (lower response) = true ->
  (switch_modes response st).(assistance_mode) = true
  /\ (switch_modes response st).(spelling_mode) = false.
Proof.
  intros Hp. unfold switch_modes, switch_assistance. rewrite Hp.
  destruct (spelling_mode (switch_spelling (lower response) st)) eqn:Hs.
  - split; reflexivity.
  - split; [reflexivity | exact Hs].
Qed.

Lemma assistance_phrase_wins_witness :
  (switch_modes "What is your phone number? Is there anything else?" initial_state).(assistance_mode)
  = true
  /\ (switch_modes "What is your phone number? Is there anything else?" initial_state).(spelling_mode)
     = false.
Proof. apply assistance_phrase_wins. vm_compute. reflexivity. Defined.

(** The mode switch writes the three mode fields only. *)
Lemma switch_modes_fields (response : string) (st : SharedState) :
  let st' := switch_modes response st in
  st'.(full_transcript) = st.(full_transcript)
  /\ st'.(conversation_step) = st.(conversation_step)
  /\ st'.(stream_sid) = st.(stream_sid)
  /\ st'.(call_ended) = st.(call_ended)
  /\ st'.(buffered_transcription) = st.(buffered_transcription)
  /\ st'.(pending_timer) = st.(pending_timer)
  /\ st'.(interrupt_ai) = st.(interrupt_ai)
  /\ st'.(ai_is_speaking) = st.(ai_is_speaking)
  /\ st'.(clear_command_sent) = st.(clear_command_sent)
  /\ st'.(user_is_speaking) = st.(user_is_speaking)
  /\ st'.(user_silence_detected) = st.(user_silence_detected)
  /\ st'.(last_spelling_processed_time) = st.(last_spelling_processed_time)
  /\ st'.(preformatted_prompt) = st.(preformatted_prompt)
  /\ st'.(extracted_lead_data) = st.(extracted_lead_data).
Proof.
  unfold switch_modes, switch_assistance, switch_spelling.
  split_phrases; mode_fields;
    try (destruct (spelling_mode st)); repeat split; reflexivity.
Qed.

End ModeSwitchMore.

Section SubstringFacts.
Import PyStr Observe.

Lemma append_cons (c : ascii) (a b : string) :
  (String c a ++ b)%string = String c (a ++ b)%string.
Proof. reflexivity. Qed.



(** A prefix test that succeeds on a text succeeds on every extension. *)
Lemma prefix_extend (p x r : string) :
  String.prefix p x = true -> String.prefix p (x ++ r)%string = true.
Proof.
  revert x. induction p as [|a p IH]; intros x; [destruct (x ++ r)%string; reflexivity|].
  destruct x as [|b x]; [discriminate|]. rewrite append_cons. cbn [String.prefix].
  destruct (ascii_dec a b); [apply IH | discriminate].
Qed.

Lemma contains_extend (p x r : string) :
  contains p x = true -> contains p (x ++ r)%string = true.
Proof.
  induction x as [|c x IH].
  - cbn [contains]. rewrite orb_false_r. intros H.
    destruct p; [|discriminate]. destruct r; reflexivity.
  - rewrite append_cons. cbn [contains]. intros [H|H]%orb_true_iff.
    + apply (prefix_extend _ _ r) in H. rewrite append_cons in H. rewrite H. reflexivity.
    + rewrite (IH H). apply orb_true_r.
Qed.

Lemma contains_tail (p : string) (c : ascii) (t : string) :
  contains p t = true -> contains p (String c t) = true.
Proof. intros H. cbn [contains]. rewrite H. apply orb_true_r. Qed.

Lemma contains_lstrip (p s : string) :
  contains p (lstrip s) = true -> contains p s = true.
Proof.
  induction s as [|c t IH]; [exact (fun H => H)|].
  cbn [lstrip]. destruct (is_space c); [|exact (fun H => H)].
  intros H. apply contains_tail, IH, H.
Qed.

Lemma rstrip_prefix (s : string) : exists r, s = (rstrip s ++ r)%string.
Proof.
  induction s as [|c t [r IH]]; [exists ""; reflexivity|].
  cbn [rstrip]. destruct (rstrip t) as [|d t'] eqn:Hr.
  - destruct (is_space c).
    + exists (String c t). reflexivity.
    + exists t. reflexivity.
  - exists r. rewrite append_cons. rewrite <- IH. reflexivity.
Qed.

Lemma contains_rstrip (p s : string) :
  contains p (rstrip s) = true -> contains p s = true.
Proof.
  intros H. destruct (rstrip_prefix s) as [r Hr]. rewrite Hr.
  apply contains_extend, H.
Qed.

Lemma contains_strip (p s : string) :
  contains p (strip s) = true -> contains p s = true.
Proof. intros H. apply contains_lstrip, contains_rstrip, H. Qed.




End SubstringFacts.

Section ExtractData.
Import PyStr ConversationManager Observe.
Variable json_loads : string -> option (gmap string PyVal).


End ExtractData.

Section CleanMore.
Import PyStr ConversationManager.

(** A pattern that does not occur is not replaced. *)
Lemma replace_absent (old new s : string) :
  contains old s = false -> replace old new s = s.
Proof.
  intros Hc. destruct old as [|a old].
  { destruct s; discriminate Hc. }
  unfold replace. induction s as [|c t IH]; [reflexivity|].
  cbn [contains] in Hc. apply orb_false_iff in Hc as [Hp Ht].
  cbn [replace_from]. rewrite Hp, (IH Ht). reflexivity.
Qed.

Lemma prefix_free_of (c : ascii) (p : string) :
  forall s, String.prefix p s = true -> free_of c s = true -> free_of c p = true.
Proof.
  induction p as [|a p IH]; intros s; [reflexivity|].
  destruct s as [|b s]; [discriminate|]. cbn [String.prefix free_of].
  destruct (ascii_dec a b) as [->|]; [|discriminate].
  intros Hp [Hb Hs]%andb_true_iff. rewrite Hb. exact (IH s Hp Hs).
Qed.

(** A text free of a character holds no pattern with that character. *)
Lemma contains_free_of (c : ascii) (p s : string) :
  free_of c p = false -> free_of c s = true -> contains p s = false.
Proof.
  intros Hp. induction s as [|b t IH]; intros Hs.
  - cbn [contains]. rewrite orb_false_r.
    destruct (String.prefix p "") eqn:Hq; [|reflexivity].
    rewrite (prefix_free_of c p "" Hq Hs) in Hp. discriminate.
  - cbn [contains].
    destruct (String.prefix p (String b t)) eqn:Hq.
    + rewrite (prefix_free_of c p _ Hq Hs) in Hp. discriminate.
    + cbn [free_of] in Hs. apply andb_true_iff in Hs as [_ Ht]. exact (IH Ht).
Qed.

(** X6. An e-mail address that is already in written form (no space, an
    at-sign, and no letters d-o-t in a row) comes out of the cleaning
    unchanged. *)
Theorem clean_email_written_form (value : string) :
  free_of " " value = true ->
  contains "@" value = true ->
  contains "dot" value = false ->
  clean_email value = value.
Proof.
  intros Hs Hat Hdot. unfold clean_email.
  rewrite !(replace_absent _ _ value) by (apply (contains_free_of " "); [reflexivity | exact Hs]).
  rewrite Hat. cbn [negb andb]. rewrite Hdot.
  apply replace_absent, (contains_free_of " "); [reflexivity | exact Hs].
Qed.

Lemma clean_email_written_form_witness :
  clean_email "kate.smith@gmail.com" = "kate.smith@gmail.com".
Proof. apply clean_email_written_form; reflexivity. Defined.

Lemma clean_field_other (k : string) (v : PyVal) :
  k <> "first_name" -> k <> "last_name" -> k <> "email" -> clean_field k v = v.
Proof.
  intros H1 H2 H3. destruct v as [s|r t]; [|reflexivity]. unfold clean_field.
  apply String.eqb_neq in H1, H2, H3. rewrite H1, H2, H3. reflexivity.
Qed.

Lemma name_missing_cleaned (data : gmap string PyVal) :
  name_missing (map_imap (fun key value => Some (clean_field key value)) data)
  = name_missing data.
Proof.
  unfold name_missing. rewrite cleaned_lookup.
  destruct (data !! "name") as [v|]; [|reflexivity].
  cbn. rewrite clean_field_other by discriminate. reflexivity.
Qed.

(** X5. [clean_extracted_data] loses no key, and a value stored under a key
    other than [first_name], [last_name], [email] and [name] is returned as
    it was given. *)
Theorem clean_extracted_data_keeps_fields (data : gmap string PyVal) (k : string) :
  (is_Some (data !! k) -> is_Some (clean_extracted_data data !! k))
  /\ (k <> "first_name" -> k <> "last_name" -> k <> "email" -> k <> "name" ->
      clean_extracted_data data !! k = data !! k).
Proof.
  split.
  - intros [v Hv]. destruct (decide (k = "name")) as [->|Hk].
    + unfold clean_extracted_data. destruct (decide (data = ∅)) as [->|_].
      { rewrite lookup_empty in Hv. discriminate. }
      set (cleaned := map_imap _ data).
      assert (Hc : is_Some (cleaned !! "name")).
      { subst cleaned. rewrite cleaned_lookup, Hv. eexists. reflexivity. }
      destruct (cleaned !! "first_name"), (cleaned !! "last_name");
        try destruct (name_missing cleaned);
        rewrite ?lookup_insert_eq; eauto.
    + rewrite clean_extracted_data_lookup by exact Hk. rewrite Hv. eexists. reflexivity.
  - intros H1 H2 H3 H4. rewrite clean_extracted_data_lookup by exact H4.
    destruct (data !! k) as [v|]; [|reflexivity].
    cbn. rewrite clean_field_other by assumption. reflexivity.
Qed.

Lemma clean_extracted_data_keeps_fields_witness :
  clean_extracted_data (<["budget" := PyStr "500 - 600k"]> Scenario.full_record) !! "budget"
  = Some (PyStr "500 - 600k").
Proof.
  etrans; [apply (proj2 (clean_extracted_data_keeps_fields _ "budget")); discriminate|].
  reflexivity.
Defined.

(** X7. With a first name and no last name, the returned [name] is the
    cleaned first name unless the data already carry a non-empty [name],
    which is then kept. *)
Theorem clean_extracted_data_single_name (data : gmap string PyVal) (f : PyVal) :
  data !! "first_name" = Some f ->
  data !! "last_name" = None ->
  clean_extracted_data data !! "name"
  = if name_missing data then Some (clean_field "first_name" f) else data !! "name".
Proof.
  intros Hf Hl. unfold clean_extracted_data.
  destruct (decide (data = ∅)) as [->|_].
  { rewrite lookup_empty in Hf. discriminate. }
  rewrite !cleaned_lookup, Hf, Hl. cbn [fmap option_fmap option_map].
  rewrite name_missing_cleaned. destruct (name_missing data).
  - apply lookup_insert_eq.
  - rewrite cleaned_lookup. destruct (data !! "name") as [v|]; [|reflexivity].
    cbn. rewrite clean_field_other by discriminate. reflexivity.
Qed.

Lemma clean_extracted_data_single_name_witness :
  clean_extracted_data (<["first_name" := PyStr "Mary-Ann"]> ∅) !! "name"
  = Some (PyStr "MaryAnn").
Proof.
  etrans; [apply (clean_extracted_data_single_name _ (PyStr "Mary-Ann")); reflexivity|].
  reflexivity.
Defined.

End CleanMore.

(** * Further properties of the frame classifier *)

Section FramesMore.
Import Vad.
Local Open Scope list_scope.
Variable ulaw2lin : list byte -> list byte.
Variable is_speech : list byte -> option bool.

Arguments frame_bytes : simpl never.

Lemma frame_bytes_pos : 0 < frame_bytes.
Proof. rewrite frame_bytes_eq. lia. Qed.

(** What is left in the buffer after the loop: the bytes beyond the last
    complete frame. *)
Lemma frames_loop_leftover (fuel : nat) :
  forall buf count vd st' r,
    length buf <= fuel ->
    frames_loop is_speech fuel buf count vd = (st', Some r) ->
    audio_buffer st' = drop (frame_bytes * (length buf / frame_bytes)) buf.
Proof.
  pose proof frame_bytes_pos as Hpos.
  induction fuel as [|fuel IH]; intros buf count vd st' r Hlen; cbn [frames_loop].
  - intros [= <- <-]. cbn [audio_buffer]. destruct buf; [reflexivity | cbn in Hlen; lia].
  - destruct (frame_bytes <=? length buf)%nat eqn:Hle.
    + apply Nat.leb_le in Hle.
      destruct (is_speech (take frame_bytes buf)) as [v|]; [|discriminate].
      intros H. apply IH in H; [|rewrite length_drop; lia].
      rewrite H, length_drop, drop_drop. f_equal.
      replace (length buf) with (1 * frame_bytes + (length buf - frame_bytes)) at 2 by lia.
      rewrite Nat.div_add_l by lia. lia.
    + apply Nat.leb_gt in Hle. intros [= <- <-]. cbn [audio_buffer].
      rewrite Nat.div_small by exact Hle. rewrite Nat.mul_0_r. reflexivity.
Qed.

(** X8. When the classifier raises on no frame, [process_audio] keeps in
    its buffer exactly the bytes that follow the last complete frame of the
    old buffer extended with the decoded payload: fewer than one frame, and
    nothing of them is lost. *)
Theorem process_audio_leftover (st : VadState) (payload : list byte) :
  (forall frame, is_speech frame <> None) ->
  let pcm := st.(audio_buffer) ++ ulaw2lin payload in
  let st' := (process_audio ulaw2lin is_speech st payload).1 in
  st'.(audio_buffer) = drop (frame_bytes * (length pcm / frame_bytes)) pcm
  /\ length st'.(audio_buffer) = length pcm mod frame_bytes.
Proof.
  intros Htotal pcm st'. subst st'. unfold process_audio. fold pcm.
  assert (Hsome : forall fuel buf count vd,
             exists st1 r, frames_loop is_speech fuel buf count vd = (st1, Some r)).
  { induction fuel as [|fuel IH]; intros buf count vd; cbn [frames_loop]; [eauto|].
    destruct (frame_bytes <=? length buf)%nat; [|eauto].
    destruct (is_speech (take frame_bytes buf)) as [v|] eqn:Hv; [apply IH|].
    exfalso. exact (Htotal _ Hv). }
  destruct (Hsome (length pcm) pcm st.(voice_frame_count) false) as (st1 & r & Hloop).
  rewrite Hloop. cbn [fst].
  pose proof (frames_loop_leftover _ _ _ _ _ _ (Nat.le_refl _) Hloop) as Hleft.
  split; [exact Hleft|].
  rewrite Hleft, length_drop.
  pose proof frame_bytes_pos as Hpos.
  rewrite (Nat.div_mod_eq (length pcm) frame_bytes) at 1. lia.
Qed.

End FramesMore.

Lemma process_audio_leftover_witness :
  length (Vad.audio_buffer
            (Vad.process_audio Scenario.ulaw2lin Scenario.is_speech Vad.initial
               (repeat x55 400)).1)
  = length (Vad.audio_buffer Vad.initial ++ Scenario.ulaw2lin (repeat x55 400))
    mod Vad.frame_bytes.
Proof.
  apply (process_audio_leftover Scenario.ulaw2lin Scenario.is_speech).
  intros frame. discriminate.
Defined.

Section FramesSplit.
Import Vad.
Local Open Scope list_scope.
Variable ulaw2lin : list byte -> list byte.
Variable is_speech : list byte -> option bool.

Arguments frame_bytes : simpl never.

(** The state the loop ends in depends neither on the flag it starts with
    nor on fuel beyond the length of the buffer. *)
Lemma frames_loop_state (fuel : nat) :
  forall fuel' buf count vd vd',
    length buf <= fuel -> length buf <= fuel' ->
    (frames_loop is_speech fuel buf count vd).1
    = (frames_loop is_speech fuel' buf count vd').1.
Proof.
  pose proof frame_bytes_pos as Hpos.
  induction fuel as [|fuel IH]; intros fuel' buf count vd vd' Hf Hf'.
  - destruct buf; [|cbn in Hf; lia]. destruct fuel'; reflexivity.
  - cbn [frames_loop]. destruct (frame_bytes <=? length buf)%nat eqn:Hle.
    + apply Nat.leb_le in Hle. destruct fuel' as [|fuel']; [lia|].
      cbn [frames_loop]. apply Nat.leb_le in Hle as Hle'. rewrite Hle'.
      destruct (is_speech (take frame_bytes buf)) as [v|]; [|reflexivity].
      apply IH; rewrite length_drop; lia.
    + destruct fuel' as [|fuel']; [reflexivity|]. cbn [frames_loop]. rewrite Hle.
      reflexivity.
Qed.

(** Frames completed before more bytes arrive are the frames the loop
    finds first once they have arrived. *)
Lemma frames_loop_resume (fuel : nat) :
  forall a b count vd st1 r F G vd' vd'',
    length a <= fuel ->
    frames_loop is_speech fuel a count vd = (st1, Some r) ->
    length (a ++ b) <= F ->
    length (audio_buffer st1 ++ b) <= G ->
    (frames_loop is_speech F (a ++ b) count vd').1
    = (frames_loop is_speech G (audio_buffer st1 ++ b) (voice_frame_count st1) vd'').1.
Proof.
  pose proof frame_bytes_pos as Hpos.
  induction fuel as [|fuel IH]; intros a b count vd st1 r F G vd' vd'' Ha; cbn [frames_loop].
  - intros [= <- <-] HF HG. cbn [audio_buffer voice_frame_count] in *.
    apply frames_loop_state; assumption.
  - destruct (frame_bytes <=? length a)%nat eqn:Hle.
    + apply Nat.leb_le in Hle.
      destruct (is_speech (take frame_bytes a)) as [v|] eqn:Hv; [|discriminate].
      intros Hloop HF HG. rewrite length_app in HF.
      destruct F as [|F]; [lia|]. cbn [frames_loop].
      assert (Hle' : (frame_bytes <=? length (a ++ b))%nat = true)
        by (apply Nat.leb_le; rewrite length_app; lia).
      rewrite Hle', take_app_le, drop_app_le, Hv by exact Hle.
      eapply IH; [| exact Hloop | | exact HG].
      * rewrite length_drop. lia.
      * rewrite length_app, length_drop. lia.
    + intros [= <- <-] HF HG. cbn [audio_buffer voice_frame_count] in *.
      apply frames_loop_state; assumption.
Qed.

(** X9. Cutting a payload in two makes no difference to the classifier's
    state: when the decoder works byte by byte and the classifier raises on
    no frame, feeding [p1] and then [p2] leaves the same buffer and the same
    counter as feeding [p1 ++ p2] in one call. *)
Theorem process_audio_split (st : VadState) (p1 p2 : list byte) :
  (forall x y, ulaw2lin (x ++ y) = ulaw2lin x ++ ulaw2lin y) ->
  (forall frame, is_speech frame <> None) ->
  (process_audio ulaw2lin is_speech
     (process_audio ulaw2lin is_speech st p1).1 p2).1
  = (process_audio ulaw2lin is_speech st (p1 ++ p2)).1.
Proof.
  intros Hmorph Htotal.
  assert (Hstate : forall s p,
             (process_audio ulaw2lin is_speech s p).1
             = (frames_loop is_speech (length (audio_buffer s ++ ulaw2lin p))
                  (audio_buffer s ++ ulaw2lin p) (voice_frame_count s) false).1).
  { intros s p. unfold process_audio.
    destruct (frames_loop _ _ _ _ _) as [s1 [r|]]; reflexivity. }
  assert (Hsome : forall fuel buf count vd,
             exists st1 r, frames_loop is_speech fuel buf count vd = (st1, Some r)).
  { induction fuel as [|fuel IH]; intros buf count vd; cbn [frames_loop]; [eauto|].
    destruct (frame_bytes <=? length buf)%nat; [|eauto].
    destruct (is_speech (take frame_bytes buf)) as [v|] eqn:Hv; [apply IH|].
    exfalso. exact (Htotal _ Hv). }
  rewrite (Hstate st (p1 ++ p2)), Hmorph, app_assoc.
  rewrite (Hstate _ p2), (Hstate st p1).
  set (a := audio_buffer st ++ ulaw2lin p1).
  destruct (Hsome (length a) a (voice_frame_count st) false) as (st1 & r & Hloop).
  rewrite Hloop. cbn [fst]. symmetry.
  eapply frames_loop_resume; [| exact Hloop | |]; reflexivity.
Qed.

End FramesSplit.

Lemma ulaw2lin_bytewise (x y : list byte) :
  Scenario.ulaw2lin (x ++ y)%list = (Scenario.ulaw2lin x ++ Scenario.ulaw2lin y)%list.
Proof. unfold Scenario.ulaw2lin. apply flat_map_app. Qed.

Lemma process_audio_split_witness :
  (Vad.process_audio Scenario.ulaw2lin Scenario.is_speech
     (Vad.process_audio Scenario.ulaw2lin Scenario.is_speech Vad.initial
        (repeat x55 400)).1 (repeat x55 320)).1
  = (Vad.process_audio Scenario.ulaw2lin Scenario.is_speech Vad.initial
       (repeat x55 400 ++ repeat x55 320)%list).1.
Proof.
  apply process_audio_split.
  - apply ulaw2lin_bytewise.
  - intros frame. discriminate.
Defined.

(** * Further properties of the output dispatcher *)

Section ChunkFacts.
Import Pipeline.
Local Open Scope list_scope.

Lemma chunks_take (n : nat) (l : list byte) (m : nat) :
  concat (map (fun k => take n (drop (k * n) l)) (seq 0 m)) = take (m * n) l.
Proof.
  induction m as [|m IH]; [reflexivity|].
  rewrite seq_S, map_app, concat_app, IH. cbn [map concat Nat.add].
  rewrite app_nil_r, take_take_drop. f_equal. lia.
Qed.

(** X10. Cutting the synthesized audio into chunks loses nothing and
    changes no order: the chunks put together give back the audio, and
    every chunk holds between 1 and 320 bytes. *)
Theorem google_chunks_cover (audio_content : list byte) :
  concat (google_chunks audio_content) = audio_content
  /\ Forall (fun chunk => 0 < length chunk <= chunk_size) (google_chunks audio_content).
Proof.
  unfold google_chunks. set (n := chunk_size). set (len := length audio_content).
  assert (Hn : n = 320) by reflexivity.
  split.
  - rewrite chunks_take. apply take_ge. fold len.
    pose proof (Nat.div_mod_eq (len + n - 1) n) as Hd.
    pose proof (Nat.mod_upper_bound (len + n - 1) n) as Hm. lia.
  - apply List.Forall_forall. intros chunk [k [<- Hk]]%in_map_iff.
    apply in_seq in Hk. rewrite length_take, length_drop. fold len.
    assert (k * n < len).
    { destruct Hk as [_ Hk]. cbn [Nat.add] in Hk.
      pose proof (Nat.div_mod_eq (len + n - 1) n) as Hd.
      pose proof (Nat.mod_upper_bound (len + n - 1) n) as Hm.
      set (q := (len + n - 1) / n) in *.
      assert (Hq : n * (k + 1) <= n * q) by (apply Nat.mul_le_mono_l; lia).
      lia. }
    lia.
Qed.

End ChunkFacts.

Section StreamFacts.
Import PyStr ConversationManager Pipeline.
Local Open Scope list_scope.
Variable google_synthesize : string -> option (list byte).
Variable elevenlabs_stream : string -> option (list (list byte)).
Variable cartesia_sse : string -> option (list (option (list byte))).
Variable to_mulaw : list byte -> list byte.

Lemma google_loop_interrupted (stream_sid : option string) (chunks : list (list byte)) :
  forall env w w' env',
    google_loop true stream_sid chunks env w = (w', env', false) ->
    w'.(shared).(ai_is_speaking) = false.
Proof.
  induction chunks as [|chunk rest IH]; intros env w w' env'; cbn [google_loop].
  - intros Hd. discriminate Hd.
  - destruct (check_interrupt true env w) as [[stop w1] env1].
    destruct stop.
    + intros [= <- _]. reflexivity.
    + apply IH.
Qed.

Lemma flush_buffer_interrupted (convert : list byte -> list byte)
      (stream_sid : option string) (fuel : nat) :
  forall chunk_buffer env w w' env',
    flush_buffer fuel convert (on_shared (set_ai_speaking false)) true stream_sid
      chunk_buffer env w = (w', env', None) ->
    w'.(shared).(ai_is_speaking) = false.
Proof.
  induction fuel as [|fuel IH]; intros chunk_buffer env w w' env'; cbn [flush_buffer].
  - intros Hd. discriminate Hd.
  - destruct (target_chunk_size <=? length chunk_buffer)%nat; [|intros Hd; discriminate Hd].
    destruct (check_interrupt true env w) as [[stop w1] env1].
    destruct stop.
    + intros [= <- _]. reflexivity.
    + apply IH.
Qed.

Lemma stream_loop_interrupted (convert : list byte -> list byte)
      (stream_sid : option string) (stream : list (option (list byte))) :
  forall chunk_buffer env w w' env',
    stream_loop convert (on_shared (set_ai_speaking false)) true stream_sid
      stream chunk_buffer env w = (w', env', None) ->
    w'.(shared).(ai_is_speaking) = false.
Proof.
  induction stream as [|chunk rest IH]; intros chunk_buffer env w w' env'; cbn [stream_loop].
  - intros Hd. discriminate Hd.
  - destruct (check_interrupt true env w) as [[stop w1] env1].
    destruct stop; [intros [= <- _]; reflexivity|].
    destruct chunk as [data|]; [|apply IH].
    destruct (flush_buffer _ _ _ _ _ _ _ _) as [[w2 env2] [leftover|]] eqn:Hf.
    + apply IH.
    + intros [= <- _]. eapply flush_buffer_interrupted, Hf.
Qed.

(** X13. With the Google or the Cartesia provider [text_to_speech] never
    returns with [aiSpeaking] still set: finished, interrupted at any chunk,
    stopped before the first one or failed in synthesis, and whatever the
    other threads did meanwhile, its last write to the flag is false. *)
Theorem tts_never_stuck_speaking (text : string) (stream_sid : option string)
        (tts_provider : string) (env : list Interference) (w : World) :
  tts_provider = GOOGLE \/ tts_provider = CARTESIA ->
  (text_to_speech google_synthesize elevenlabs_stream cartesia_sse to_mulaw
     text stream_sid tts_provider true env w).1.1.(shared).(ai_is_speaking) = false.
Proof.
  intros Hp. unfold text_to_speech, tts_after_prologue.
  destruct (check_interrupt true env (tts_prologue w)) as [[stop w1] env1].
  destruct stop; [reflexivity|].
  destruct Hp as [-> | ->]; cbn [String.eqb GOOGLE CARTESIA ELEVENLABS Ascii.eqb Bool.eqb].
  - destruct (google_synthesize _) as [audio|]; [|reflexivity].
    destruct (google_loop _ _ _ _ _) as [[w2 env2] sent_all] eqn:Hl.
    destruct sent_all; [reflexivity|].
    cbn [fst]. eapply google_loop_interrupted, Hl.
  - destruct (cartesia_sse _) as [response|]; [|reflexivity].
    destruct (stream_loop _ _ _ _ _ _ _ _) as [[w2 env2] [leftover|]] eqn:Hl.
    + destruct (send_remaining _ _ _ _ _ _) as [w3 env3]. reflexivity.
    + cbn [fst]. eapply stream_loop_interrupted, Hl.
Qed.

End StreamFacts.

Lemma tts_never_stuck_speaking_witness :
  (Pipeline.text_to_speech Scenario.google_synthesize Scenario.elevenlabs_stream
     Scenario.cartesia_sse Scenario.to_mulaw "Hello" (Some "MZ0001")
     Pipeline.CARTESIA true [(fun w => w); Scenario.barge_in]
     Scenario.started).1.1.(Pipeline.shared).(ai_is_speaking) = false.
Proof. apply tts_never_stuck_speaking. right. reflexivity. Defined.

Section StreamConservation.
Import PyStr ConversationManager Pipeline Observe.
Local Open Scope list_scope.
Variable convert : list byte -> list byte.
Variable on_interrupt : World -> World.
Variable stream_sid : option string.

Lemma sent_twice (w : World) (a b : list WsMsg) :
  with_ws_sent (ws_sent (with_ws_sent (ws_sent w ++ a) w) ++ b)
    (with_ws_sent (ws_sent w ++ a) w)
  = with_ws_sent (ws_sent w ++ (a ++ b)) w.
Proof. unfold with_ws_sent. cbn. rewrite app_assoc. reflexivity. Qed.

Lemma sent_nothing (w : World) : with_ws_sent (ws_sent w ++ []) w = w.
Proof. destruct w. unfold with_ws_sent. cbn. rewrite app_nil_r. reflexivity. Qed.

(** Left alone, the inner loop sends the buffer in full pieces and keeps
    the rest. *)
Lemma flush_buffer_quiet (fuel : nat) :
  forall chunk_buffer w,
    w.(shared).(interrupt_ai) = false ->
    length chunk_buffer <= fuel ->
    exists pieces leftover,
      flush_buffer fuel convert on_interrupt true stream_sid chunk_buffer [] w
      = (with_ws_sent (ws_sent w ++ carried stream_sid convert pieces) w, [], Some leftover)
      /\ concat pieces ++ leftover = chunk_buffer
      /\ Forall (fun piece => length piece = target_chunk_size) pieces
      /\ length leftover < target_chunk_size.
Proof.
  induction fuel as [|fuel IH]; intros chunk_buffer w Hq Hlen.
  - exists [], chunk_buffer. cbn [flush_buffer carried map]. rewrite sent_nothing.
    repeat split; [constructor|]. unfold target_chunk_size. lia.
  - cbn [flush_buffer]. destruct (target_chunk_size <=? length chunk_buffer)%nat eqn:Hle.
    + apply Nat.leb_le in Hle. cbn [check_interrupt interfere]. rewrite Hq.
      set (piece := take target_chunk_size chunk_buffer).
      destruct (IH (drop target_chunk_size chunk_buffer)
                  (send (MediaMsg stream_sid (convert piece)) w)) as (pieces & leftover & Hf & Hc & Hp & Hl).
      { exact Hq. }
      { rewrite length_drop. unfold target_chunk_size in *. lia. }
      exists (piece :: pieces), leftover. rewrite Hf. repeat split.
      * unfold send. rewrite (sent_twice w [_] (carried stream_sid convert pieces)). reflexivity.
      * cbn [concat]. rewrite <- app_assoc, Hc. apply take_drop.
      * constructor; [|exact Hp]. subst piece. rewrite length_take. lia.
      * exact Hl.
    + apply Nat.leb_gt in Hle. exists [], chunk_buffer. cbn [carried map].
      rewrite sent_nothing. repeat split; [constructor | exact Hle].
Qed.

(** Left alone, the outer loop sends every decoded byte of the stream, in
    order, in full pieces, and keeps less than one piece. *)
Lemma stream_loop_quiet (stream : list (option (list byte))) :
  forall chunk_buffer w,
    w.(shared).(interrupt_ai) = false ->
    length chunk_buffer < target_chunk_size ->
    exists pieces leftover,
      stream_loop convert on_interrupt true stream_sid stream chunk_buffer [] w
      = (with_ws_sent (ws_sent w ++ carried stream_sid convert pieces) w, [], Some leftover)
      /\ concat pieces ++ leftover = chunk_buffer ++ concat (omap id stream)
      /\ Forall (fun piece => length piece = target_chunk_size) pieces
      /\ length leftover < target_chunk_size.
Proof.
  induction stream as [|chunk rest IH]; intros chunk_buffer w Hq Hb.
  - exists [], chunk_buffer. cbn [stream_loop carried map]. rewrite sent_nothing.
    cbn. rewrite app_nil_r. repeat split; [constructor | exact Hb].
  - cbn [stream_loop check_interrupt interfere]. rewrite Hq.
    destruct chunk as [data|].
    + destruct (flush_buffer_quiet (length (chunk_buffer ++ data)) (chunk_buffer ++ data) w Hq
                  (Nat.le_refl _)) as (p1 & l1 & Hf & Hc1 & Hp1 & Hl1).
      rewrite Hf.
      destruct (IH l1 (with_ws_sent (ws_sent w ++ carried stream_sid convert p1) w) Hq Hl1)
        as (p2 & l2 & Hs & Hc2 & Hp2 & Hl2).
      exists (p1 ++ p2), l2. rewrite Hs. repeat split.
      * rewrite sent_twice. unfold carried. rewrite map_app. reflexivity.
      * rewrite concat_app, <- app_assoc, Hc2. cbn [omap list_omap id].
        cbn [concat]. rewrite !app_assoc. f_equal. exact Hc1.
      * apply Forall_app. split; assumption.
      * exact Hl2.
    + destruct (IH chunk_buffer w Hq Hb) as (p & l & Hs & Hc & Hp & Hl).
      exists p, l. rewrite Hs. repeat split; assumption.
Qed.

(** What is left when the stream ends goes out as a last, shorter piece. *)
Lemma send_remaining_quiet (leftover : list byte) (w : World) :
  w.(shared).(interrupt_ai) = false ->
  length leftover < target_chunk_size ->
  exists last_piece,
    send_remaining convert true stream_sid leftover [] w
    = (with_ws_sent (ws_sent w ++ carried stream_sid convert last_piece) w, [])
    /\ concat last_piece = leftover
    /\ Forall (fun piece => 0 < length piece <= target_chunk_size) last_piece.
Proof.
  intros Hq Hl. destruct leftover as [|b leftover].
  - exists []. cbn [send_remaining carried map]. rewrite sent_nothing.
    repeat split. constructor.
  - exists [b :: leftover]. cbn [send_remaining check_interrupt interfere]. rewrite Hq.
    repeat split.
    + cbn [concat]. apply app_nil_r.
    + constructor; [|constructor]. cbn [length] in *. lia.
Qed.

End StreamConservation.

Section StreamedUtterance.
Import PyStr ConversationManager Pipeline Observe.
Local Open Scope list_scope.
Variable google_synthesize : string -> option (list byte).
Variable elevenlabs_stream : string -> option (list (list byte)).
Variable cartesia_sse : string -> option (list (option (list byte))).
Variable to_mulaw : list byte -> list byte.

Lemma omap_id_some (l : list (list byte)) : omap id (map Some l) = l.
Proof. induction l as [|x l IH]; [reflexivity|]. cbn. rewrite IH. reflexivity. Qed.

Lemma pieces_bound (pieces last_piece : list (list byte)) :
  Forall (fun piece => length piece = target_chunk_size) pieces ->
  Forall (fun piece => 0 < length piece <= target_chunk_size) last_piece ->
  Forall (fun piece => 0 < length piece <= target_chunk_size) (pieces ++ last_piece).
Proof.
  intros Hp Hl. apply Forall_app. split; [|exact Hl].
  eapply Forall_impl; [exact Hp|]. cbn. intros piece ->. unfold target_chunk_size. lia.
Qed.

(** X12. A streamed utterance that nobody interrupts sends every byte of
    the provider's stream exactly once and in order, in pieces of at most
    160 bytes: as they come with Cartesia (chunks that do not decode are
    skipped), each piece converted to mu-law with ElevenLabs. *)
Theorem streamed_utterance_complete (text : string) (stream_sid : option string)
        (w : World) :
  (forall response, cartesia_sse text = Some response ->
     exists pieces,
       let r := text_to_speech google_synthesize elevenlabs_stream cartesia_sse
                  to_mulaw text stream_sid CARTESIA true [] w in
       r.2 = Finished
       /\ r.1.1.(ws_sent) = w.(ws_sent) ++ carried stream_sid (fun chunk => chunk) pieces
       /\ concat pieces = concat (omap id response)
       /\ Forall (fun piece => 0 < length piece <= target_chunk_size) pieces)
  /\ (forall audio_stream, elevenlabs_stream text = Some audio_stream ->
       exists pieces,
         let r := text_to_speech google_synthesize elevenlabs_stream cartesia_sse
                    to_mulaw text stream_sid ELEVENLABS true [] w in
         r.2 = Finished
         /\ r.1.1.(ws_sent) = w.(ws_sent) ++ carried stream_sid to_mulaw pieces
         /\ concat pieces = concat audio_stream
         /\ Forall (fun piece => 0 < length piece <= target_chunk_size) pieces).
Proof.
  assert (Hq : (tts_prologue w).(shared).(interrupt_ai) = false) by reflexivity.
  assert (H0 : @length byte [] < target_chunk_size) by (unfold target_chunk_size; cbn; lia).
  split.
  - intros response Hr.
    unfold text_to_speech, tts_after_prologue.
    cbn [check_interrupt interfere String.eqb GOOGLE CARTESIA ELEVENLABS Ascii.eqb Bool.eqb].
    rewrite Hq, Hr.
    set (w0 := set_speaking true true (tts_prologue w)).
    destruct (stream_loop_quiet (fun chunk => chunk) (on_shared (set_ai_speaking false))
                stream_sid response [] w0 Hq H0) as (pieces & leftover & Hs & Hc & Hp & Hl).
    rewrite Hs.
    destruct (send_remaining_quiet (fun chunk => chunk) stream_sid leftover
                (with_ws_sent (ws_sent w0 ++ carried stream_sid (fun chunk => chunk) pieces) w0)
                Hq Hl) as (last_piece & Hr2 & Hc2 & Hb2).
    rewrite Hr2. exists (pieces ++ last_piece). cbn zeta. repeat split.
    + cbn. unfold carried. rewrite map_app, <- app_assoc. reflexivity.
    + rewrite concat_app, Hc2. exact Hc.
    + apply pieces_bound; assumption.
  - intros audio_stream Hr.
    unfold text_to_speech, tts_after_prologue.
    cbn [check_interrupt interfere String.eqb GOOGLE CARTESIA ELEVENLABS Ascii.eqb Bool.eqb].
    rewrite Hq, Hr.
    set (w0 := tts_prologue w).
    destruct (stream_loop_quiet to_mulaw (fun w => w)
                stream_sid (map Some audio_stream) [] w0 Hq H0)
      as (pieces & leftover & Hs & Hc & Hp & Hl).
    rewrite Hs.
    destruct (send_remaining_quiet to_mulaw stream_sid leftover
                (with_ws_sent (ws_sent w0 ++ carried stream_sid to_mulaw pieces) w0)
                Hq Hl) as (last_piece & Hr2 & Hc2 & Hb2).
    rewrite Hr2. exists (pieces ++ last_piece). cbn zeta. repeat split.
    + cbn. unfold carried. rewrite map_app, <- app_assoc. reflexivity.
    + rewrite concat_app, Hc2, Hc, omap_id_some. reflexivity.
    + apply pieces_bound; assumption.
Qed.

End StreamedUtterance.

Lemma streamed_utterance_complete_witness :
  exists pieces,
    let r := Pipeline.text_to_speech Scenario.google_synthesize Scenario.elevenlabs_stream
               Scenario.cartesia_sse Scenario.to_mulaw "Hello" (Some "MZ0001")
               Pipeline.CARTESIA true [] Scenario.started in
    r.2 = Pipeline.Finished
    /\ r.1.1.(Pipeline.ws_sent)
       = (Scenario.started.(Pipeline.ws_sent)
          ++ Observe.carried (Some "MZ0001") (fun chunk => chunk) pieces)%list
    /\ concat pieces = concat (omap id [Some (repeat x55 160); Some (repeat x55 160)])
    /\ Forall (fun piece => 0 < length piece <= Pipeline.target_chunk_size) pieces.
Proof.
  apply (proj1 (streamed_utterance_complete Scenario.google_synthesize
                  Scenario.elevenlabs_stream Scenario.cartesia_sse Scenario.to_mulaw
                  "Hello" (Some "MZ0001") Scenario.started)).
  reflexivity.
Defined.

(** * Further properties of the recognition bridge *)

Section MonitorFacts.
Import PyStr ConversationManager Pipeline Observe.
Local Open Scope list_scope.
Variable ulaw2lin : list byte -> list byte.
Variable is_speech : list byte -> option bool.
Variable rms_above : list byte -> bool.

Ltac split_monitor :=
  repeat match goal with
         | |- context [if ?c then _ else _] => destruct c eqn:?
         | |- context [match ?c with Some _ => _ | None => _ end] => destruct c eqn:?
         end.

(** X14. The barge-in monitor sends at most one message per frame, a
    clear message for the call's stream; when it does, the AI was speaking
    with no interrupt pending, and the monitor has raised the interrupt,
    recorded the clear and stamped the time of the interrupt. *)
Theorem vad_monitor_sends (now : Q) (buffer : list byte) (w : World) :
  let w' := process_universal_vad ulaw2lin is_speech rms_above now buffer w in
  w'.(ws_sent) = w.(ws_sent)
  \/ (w'.(ws_sent) = w.(ws_sent) ++ [ClearMsg w.(shared).(stream_sid)]
      /\ truthy_str w.(shared).(stream_sid) = true
      /\ w.(shared).(ai_is_speaking) = true
      /\ w.(shared).(interrupt_ai) = false
      /\ w'.(shared).(interrupt_ai) = true
      /\ w'.(shared).(clear_command_sent) = true
      /\ w'.(bridge).(last_vad_interrupt_time) = now).
Proof.
  unfold process_universal_vad. destruct buffer as [|b0 buffer]; [left; reflexivity|].
  destruct (rms_above (b0 :: buffer)).
  - destruct (Vad.process_audio ulaw2lin is_speech _ _) as [vad r].
    cbn [shared on_bridge with_bridge bridge last_vad_interrupt_time with_webrtc_vad
           last_user_vad_state user_silence_timer].
    destruct (ai_is_speaking (shared w)) eqn:Hs.
    + destruct (r && negb (interrupt_ai (shared w))) eqn:Hc; [|left; reflexivity].
      apply andb_true_iff in Hc as [_ Hi%negb_true_iff].
      destruct (Qlt_bool _ _); [|left; reflexivity].
      cbn [shared on_shared with_shared on_bridge with_bridge stream_sid set_interrupt_ai].
      destruct (truthy_str (stream_sid (shared w))) eqn:Ht; [|left; reflexivity].
      right. repeat split; assumption.
    + left. split_monitor; reflexivity.
  - destruct (ai_is_speaking (shared w)) eqn:Hs; [left; reflexivity|].
    left. split_monitor; reflexivity.
Qed.

Lemma Qlt_bool_false (a b : Q) : (b <= a)%Q -> Qlt_bool a b = false.
Proof.
  intros Hle. unfold Qlt_bool. apply negb_false_iff, Qle_bool_iff, Hle.
Qed.

(** X15. The monitor holds back when the AI is silent, when an interrupt
    is already pending, and during the two seconds after the last interrupt
    it raised: it then sends nothing and leaves the interrupt request and
    the record of the clear message as they were. *)
Theorem vad_monitor_holds_back (now : Q) (buffer : list byte) (w : World) :
  w.(shared).(ai_is_speaking) = false
  \/ w.(shared).(interrupt_ai) = true
  \/ (now - w.(bridge).(last_vad_interrupt_time) <= vad_interrupt_cooldown)%Q ->
  let w' := process_universal_vad ulaw2lin is_speech rms_above now buffer w in
  w'.(ws_sent) = w.(ws_sent)
  /\ w'.(shared).(interrupt_ai) = w.(shared).(interrupt_ai)
  /\ w'.(shared).(clear_command_sent) = w.(shared).(clear_command_sent).
Proof.
  intros Hhold. unfold process_universal_vad.
  destruct buffer as [|b0 buffer]; [repeat split|].
  destruct (rms_above (b0 :: buffer)).
  - destruct (Vad.process_audio ulaw2lin is_speech _ _) as [vad r].
    cbn [shared on_bridge with_bridge bridge last_vad_interrupt_time with_webrtc_vad
           last_user_vad_state user_silence_timer].
    destruct (ai_is_speaking (shared w)) eqn:Hs.
    + destruct Hhold as [Hd | [Hi | Hc]]; [discriminate | |].
      * rewrite Hi. cbn [negb]. rewrite andb_false_r.
        repeat split; first [exact Hi | reflexivity].
      * rewrite (Qlt_bool_false _ _ Hc). destruct (r && _); repeat split.
    + split_monitor; repeat split.
  - destruct (ai_is_speaking (shared w)) eqn:Hs; [repeat split|].
    split_monitor; repeat split.
Qed.

(** The monitor does not end the bridge. *)
Lemma process_universal_vad_ended (now : Q) (buffer : list byte) (w : World) :
  (process_universal_vad ulaw2lin is_speech rms_above now buffer w).(bridge).(ended)
  = w.(bridge).(ended).
Proof.
  unfold process_universal_vad. destruct buffer as [|b0 buffer]; [reflexivity|].
  destruct (rms_above (b0 :: buffer)).
  - destruct (Vad.process_audio ulaw2lin is_speech _ _) as [vad r].
    split_monitor; reflexivity.
  - split_monitor; reflexivity.
Qed.

Lemma add_request_outside_restart (now : Q) (buffer : list byte) (w : World) :
  w.(bridge).(restart_in_progress) = false ->
  let w' := add_request ulaw2lin is_speech rms_above now buffer w in
  w'.(bridge).(queue) = w.(bridge).(queue) ++ [Some buffer]
  /\ w'.(bridge).(audio_buffer) = w.(bridge).(audio_buffer)
  /\ w'.(bridge).(restart_in_progress) = false
  /\ w'.(bridge).(ended) = w.(bridge).(ended).
Proof.
  intros Hr. unfold add_request.
  set (w1 := if negb _ then _ else w).
  assert (H1 : w1.(bridge).(queue) = w.(bridge).(queue)
               /\ w1.(bridge).(audio_buffer) = w.(bridge).(audio_buffer)
               /\ w1.(bridge).(restart_in_progress) = false
               /\ w1.(bridge).(ended) = w.(bridge).(ended)).
  { subst w1. destruct (negb _); repeat split; assumption. }
  destruct H1 as (Hq1 & Ha1 & Hr1 & He1).
  destruct (process_universal_vad_queues ulaw2lin is_speech rms_above now buffer w1)
    as (Hq & Ha & Hr').
  pose proof (process_universal_vad_ended now buffer w1) as He.
  cbv zeta in *.
  set (w2 := process_universal_vad _ _ _ _ _ _) in *.
  rewrite Hr', Hr1. cbn. rewrite Hq, Ha, Hq1, Ha1, Hr', Hr1, He, He1. repeat split.
Qed.

Lemma feed_frames_queue (frames : list (Q * list byte)) :
  forall w,
    w.(bridge).(restart_in_progress) = false ->
    (feed_frames ulaw2lin is_speech rms_above frames w).(bridge).(queue)
    = w.(bridge).(queue) ++ map (fun frame => Some frame.2) frames
    /\ (feed_frames ulaw2lin is_speech rms_above frames w).(bridge).(ended) = w.(bridge).(ended).
Proof.
  induction frames as [|frame rest IH]; intros w Hr.
  - cbn. rewrite app_nil_r. split; reflexivity.
  - cbn [feed_frames fold_left].
    destruct (add_request_outside_restart frame.1 frame.2 w Hr) as (Hq & _ & Hr' & He).
    destruct (IH _ Hr') as (Hq2 & He2). unfold feed_frames in *.
    rewrite Hq2, He2, Hq, He, <- app_assoc. split; reflexivity.
Qed.

Lemma drain_all (chunks data : list (list byte)) :
  drain (map Some chunks) data = (Some (data ++ chunks), []).
Proof.
  revert data. induction chunks as [|chunk rest IH]; intros data; cbn [map drain].
  - rewrite app_nil_r. reflexivity.
  - rewrite IH, <- app_assoc. reflexivity.
Qed.

(** X16. Outside a restart, the frames handed to [add_request] since the
    main generator last ran reach the recognition session with its next
    resumption, each exactly once and in the order they arrived, and the
    queue is empty afterwards. *)
Theorem frames_reach_session_in_order (frames : list (Q * list byte)) (w : World) :
  w.(bridge).(restart_in_progress) = false ->
  w.(bridge).(ended) = false ->
  w.(bridge).(queue) = [] ->
  frames <> [] ->
  let b := (feed_frames ulaw2lin is_speech rms_above frames w).(bridge) in
  (generator_next false b).1 = Yield (concat (map snd frames))
  /\ (generator_next false b).2.(queue) = [].
Proof.
  intros Hr He Hq Hne b. subst b.
  destruct (feed_frames_queue frames w Hr) as (Hq' & He').
  rewrite Hq in Hq'. cbn [app] in Hq'. rewrite He in He'.
  unfold generator_next. rewrite He', Hq'.
  destruct frames as [|frame rest]; [contradiction|].
  cbn [map]. cbn [queue with_queue].
  change (map (fun frame0 : Q * list byte => Some frame0.2) rest)
    with (map Some (map snd rest)) || rewrite <- (map_map snd Some rest).
  rewrite drain_all. split; reflexivity.
Qed.

(** X17. [terminate] ends the call for the bridge: the end marker is the
    last thing on the queue, the shared state is marked ended, the silence
    timer the bridge held is cancelled and forgotten, and both request
    generators end at their next resumption whatever is still queued. *)
Theorem terminate_ends_streams (w : World) (use_buffer : bool) :
  let w' := terminate w in
  last w'.(bridge).(queue) = Some None
  /\ w'.(shared).(call_ended) = true
  /\ w'.(bridge).(user_silence_timer) = None
  /\ (forall id t, w.(bridge).(user_silence_timer) = Some id ->
                   w'.(timers) !! id = Some t -> live t = false)
  /\ generator_next use_buffer w'.(bridge) = (Stop, w'.(bridge)).
Proof.
  unfold terminate.
  cbn [bridge on_bridge with_bridge on_shared with_shared user_silence_timer with_ended
         with_queue].
  destruct (user_silence_timer (bridge w)) as [id0|] eqn:Ht.
  - cbn. repeat split.
    + apply last_snoc.
    + intros id t [= <-]. rewrite list_lookup_alter_eq.
      destruct (timers w !! id0) as [t0|]; cbn; [|discriminate].
      intros [= <-]. unfold live, cancel. reflexivity.
  - cbn. repeat split.
    + apply last_snoc.
    + exact Ht.
    + intros id t Hd. discriminate Hd.
Qed.

End MonitorFacts.

Lemma vad_monitor_holds_back_witness :
  (Pipeline.process_universal_vad Scenario.ulaw2lin Scenario.is_speech Scenario.rms_above
     10 Scenario.voiced Scenario.started).(Pipeline.ws_sent)
  = Scenario.started.(Pipeline.ws_sent).
Proof.
  apply (vad_monitor_holds_back Scenario.ulaw2lin Scenario.is_speech Scenario.rms_above
           10 Scenario.voiced Scenario.started).
  left. reflexivity.
Defined.

Lemma frames_reach_session_in_order_witness :
  (Pipeline.generator_next false
     (Observe.feed_frames Scenario.ulaw2lin Scenario.is_speech Scenario.rms_above
        [(1%Q, [x01]); (2%Q, [x02])] Scenario.started).(Pipeline.bridge)).1
  = Pipeline.Yield (concat (map snd [(1%Q, [x01]); (2%Q, [x02])])).
Proof.
  apply (frames_reach_session_in_order Scenario.ulaw2lin Scenario.is_speech
           Scenario.rms_above [(1%Q, [x01]); (2%Q, [x02])] Scenario.started);
    [reflexivity | reflexivity | reflexivity | discriminate].
Defined.

Lemma terminate_ends_streams_witness :
  match (Pipeline.terminate Scenario.spelling_then_pause).(Pipeline.timers) !! 1 with
  | Some t => Pipeline.live t = false
  | None => True
  end.
Proof.
  destruct ((Pipeline.terminate Scenario.spelling_then_pause).(Pipeline.timers) !! 1)
    as [t|] eqn:Ht; [|exact I].
  apply (proj1 (proj2 (proj2 (proj2 (terminate_ends_streams Scenario.spelling_then_pause true))))
           1 t); [vm_compute; reflexivity | exact Ht].
Defined.

(** * Further properties of the turn and mode machine *)

Section TurnMore.
Import PyStr ConversationManager Pipeline Observe.
Local Open Scope list_scope.
Variable chat : nat -> string -> Outcome.
Variable rnd : nat -> Q.
Variable json_loads : string -> option (gmap string PyVal).
Variable formatted : string.
Variable is_strict_confirmation : string -> bool.
Variable is_strict_rejection : string -> bool.

(** X3. Whatever the oracle answers or raises, [manage_conversation]
    writes no field of the shared state but the three mode fields and the
    extracted data: transcript, step counter, stream id, buffer, pending
    timer, turn-taking flags, time stamp and prompt are what they were. *)
Theorem manage_conversation_frame (user_input : string) (st : SharedState) (n : nat) :
  let st' := (manage_conversation chat rnd json_loads formatted user_input st n).1.2 in
  st'.(full_transcript) = st.(full_transcript)
  /\ st'.(conversation_step) = st.(conversation_step)
  /\ st'.(stream_sid) = st.(stream_sid)
  /\ st'.(call_ended) = st.(call_ended)
  /\ st'.(buffered_transcription) = st.(buffered_transcription)
  /\ st'.(pending_timer) = st.(pending_timer)
  /\ st'.(interrupt_ai) = st.(interrupt_ai)
  /\ st'.(ai_is_speaking) = st.(ai_is_speaking)
  /\ st'.(clear_command_sent) = st.(clear_command_sent)
  /\ st'.(user_is_speaking) = st.(user_is_speaking)
  /\ st'.(user_silence_detected) = st.(user_silence_detected)
  /\ st'.(last_spelling_processed_time) = st.(last_spelling_processed_time)
  /\ st'.(preformatted_prompt) = st.(preformatted_prompt).
Proof.
  unfold manage_conversation.
  destruct (result _) as [response|x]; [|repeat split].
  unfold extract_data.
  destruct (contains open_tag response).
  - destruct (json_loads _);
      cbn [fst snd];
      match goal with
      | |- context [switch_modes ?r ?s] =>
          destruct (switch_modes_fields r s)
            as (H1 & H2 & H3 & H4 & H5 & H6 & H7 & H8 & H9 & H10 & H11 & H12 & H13 & _)
      end;
      cbv zeta in *;
      rewrite H1, H2, H3, H4, H5, H6, H7, H8, H9, H10, H11, H12, H13;
      repeat split.
  - cbn [fst snd].
    destruct (switch_modes_fields response st)
      as (H1 & H2 & H3 & H4 & H5 & H6 & H7 & H8 & H9 & H10 & H11 & H12 & H13 & _).
    cbv zeta in *.
    rewrite H1, H2, H3, H4, H5, H6, H7, H8, H9, H10, H11, H12, H13.
    repeat split.
Qed.

(** What a dispatch needs of it. *)
Lemma manage_conversation_keeps (user_input : string) (st : SharedState) (n : nat) :
  let st' := (manage_conversation chat rnd json_loads formatted user_input st n).1.2 in
  st'.(full_transcript) = st.(full_transcript)
  /\ st'.(conversation_step) = st.(conversation_step)
  /\ st'.(buffered_transcription) = st.(buffered_transcription)
  /\ st'.(pending_timer) = st.(pending_timer).
Proof.
  unfold manage_conversation.
  destruct (result _) as [response|x]; [|repeat split].
  unfold extract_data.
  destruct (contains open_tag response).
  - destruct (json_loads _);
      cbn [fst snd];
      match goal with
      | |- context [switch_modes ?r ?s] =>
          destruct (switch_modes_fields r s) as (H1 & H2 & _ & _ & H5 & H6 & _)
      end;
      cbv zeta in *; rewrite H1, H2, H5, H6; repeat split.
  - cbn [fst snd].
    destruct (switch_modes_fields response st) as (H1 & H2 & _ & _ & H5 & H6 & _).
    cbv zeta in *. rewrite H1, H2, H5, H6. repeat split.
Qed.

(** The effect of a dispatch on the call. *)
Lemma process_transcription_effect (text : string) (w : World) :
  let r := process_transcription chat rnd json_loads formatted text w in
  r.1.(timers) = w.(timers)
  /\ r.1.(bridge) = w.(bridge)
  /\ r.1.(shared).(pending_timer) = w.(shared).(pending_timer)
  /\ r.1.(shared).(buffered_transcription) = w.(shared).(buffered_transcription)
  /\ (r.2 = true ->
      exists reply,
        r.1.(shared).(full_transcript)
        = w.(shared).(full_transcript)
          ++ [("Lead: " ++ text)%string; ("AI: " ++ reply)%string]
        /\ r.1.(shared).(conversation_step) = S w.(shared).(conversation_step)
        /\ r.1.(tts_started) = w.(tts_started) ++ [reply])
  /\ (r.2 = false ->
      r.1.(shared).(full_transcript)
      = w.(shared).(full_transcript) ++ [("Lead: " ++ text)%string]
      /\ r.1.(shared).(conversation_step) = w.(shared).(conversation_step)
      /\ r.1.(tts_started) = w.(tts_started)).
Proof.
  unfold process_transcription.
  set (w1 := if ai_is_speaking (shared w) then _ else _).
  assert (H1 : w1.(shared).(full_transcript) = w.(shared).(full_transcript)
               /\ w1.(shared).(conversation_step) = w.(shared).(conversation_step)
               /\ w1.(shared).(buffered_transcription) = w.(shared).(buffered_transcription)
               /\ w1.(shared).(pending_timer) = w.(shared).(pending_timer)
               /\ w1.(timers) = w.(timers) /\ w1.(bridge) = w.(bridge)
               /\ w1.(tts_started) = w.(tts_started))
    by (subst w1; destruct (ai_is_speaking _); repeat split).
  destruct H1 as (Ht1 & Hs1 & Hb1 & Hp1 & Hm1 & Hg1 & Hv1).
  set (w2 := send_transcript_to_websocket _).
  assert (H2 : w2.(shared) = update_transcript ("Lead: " ++ text)%string w1.(shared)
               /\ w2.(timers) = w.(timers) /\ w2.(bridge) = w.(bridge)
               /\ w2.(tts_started) = w.(tts_started)).
  { subst w2. rewrite send_transcript_shared. unfold send_transcript_to_websocket.
    repeat match goal with
           | |- context [match ?c with Some _ => _ | None => _ end] => destruct c
           end; repeat split; assumption. }
  destruct H2 as (Hsh2 & Hm2 & Hg2 & Hv2).
  destruct (manage_conversation_keeps text w2.(shared) w2.(chat_calls))
    as (Kt & Ks & Kb & Kp).
  cbv zeta in Kt, Ks, Kb, Kp.
  destruct (manage_conversation _ _ _ _ _ _ _) as [[[reply|x] st] n];
    cbn [fst snd] in Kt, Ks, Kb, Kp.
  - set (w3 := send_transcript_to_websocket _).
    assert (H3 : w3.(shared) = update_transcript ("AI: " ++ reply)%string st
                 /\ w3.(timers) = w.(timers) /\ w3.(bridge) = w.(bridge)
                 /\ w3.(tts_started) = w.(tts_started)).
    { subst w3. rewrite send_transcript_shared. unfold send_transcript_to_websocket.
      repeat match goal with
             | |- context [match ?c with Some _ => _ | None => _ end] => destruct c
             end; repeat split; assumption. }
    destruct H3 as (Hsh3 & Hm3 & Hg3 & Hv3).
    cbn [fst snd timers bridge shared tts_started on_shared with_shared with_tts_started].
    rewrite Hsh3, Hm3, Hg3, Hv3. cbn. rewrite Kt, Ks, Kb, Kp, Hsh2. cbn.
    rewrite Ht1, Hs1, Hb1, Hp1.
    do 4 (split; [reflexivity|]). split.
    + intros _. exists reply. rewrite <- app_assoc. repeat split.
    + intros Hd. discriminate Hd.
  - cbn [fst snd timers bridge shared tts_started with_chat_calls].
    rewrite Hm2, Hg2, Hv2, Hsh2. cbn. rewrite Ht1, Hs1, Hb1, Hp1.
    do 4 (split; [reflexivity|]). split.
    + intros Hd. discriminate Hd.
    + intros _. repeat split.
Qed.

(** X20. A dispatch only appends to the transcript, the caller's words
    before the AI's answer to them: when the oracle answers, the entry of
    the lead and then the entry of the AI are added, the step counter moves
    by one and one synthesis thread is started for that answer; when the
    oracle call raises, the lead's entry alone is added. Timers, bridge,
    buffer and pending timer are not touched. *)
Theorem process_transcription_appends (text : string) (w : World) :
  let r := process_transcription chat rnd json_loads formatted text w in
  r.1.(timers) = w.(timers)
  /\ r.1.(bridge) = w.(bridge)
  /\ r.1.(shared).(pending_timer) = w.(shared).(pending_timer)
  /\ r.1.(shared).(buffered_transcription) = w.(shared).(buffered_transcription)
  /\ (r.2 = true ->
      exists reply,
        r.1.(shared).(full_transcript)
        = w.(shared).(full_transcript)
          ++ [("Lead: " ++ text)%string; ("AI: " ++ reply)%string]
        /\ r.1.(shared).(conversation_step) = S w.(shared).(conversation_step)
        /\ r.1.(tts_started) = w.(tts_started) ++ [reply])
  /\ (r.2 = false ->
      r.1.(shared).(full_transcript)
      = w.(shared).(full_transcript) ++ [("Lead: " ++ text)%string]
      /\ r.1.(shared).(conversation_step) = w.(shared).(conversation_step)
      /\ r.1.(tts_started) = w.(tts_started)).
Proof. exact (process_transcription_effect text w). Qed.


End TurnMore.

Section SpellingMore.
Import PyStr ConversationManager Pipeline Observe.
Local Open Scope list_scope.
Variable chat : nat -> string -> Outcome.
Variable rnd : nat -> Q.
Variable json_loads : string -> option (gmap string PyVal).
Variable formatted : string.
Variable is_strict_confirmation : string -> bool.
Variable is_strict_rejection : string -> bool.

Lemma window_closed (now : Q) (w : World) :
  outside_window now w ->
  truthy_time w.(shared).(last_spelling_processed_time)
  && Qlt_bool (now - default 0%Q w.(shared).(last_spelling_processed_time)) 1 = false.
Proof.
  intros Hout. destruct (last_spelling_processed_time (shared w)) as [t|] eqn:Ht.
  - cbn [from_option]. unfold id. rewrite (Qlt_bool_false _ _ (Hout t Ht)).
    apply andb_false_r.
  - reflexivity.
Qed.

(** What the immediate cases of the spelling handler do with a text. *)
Lemma dispatch_spelling_effect (done : Q) (final_text : string) (w : World) :
  let r := dispatch_spelling chat rnd json_loads formatted done final_text w in
  dispatched r.1 = dispatched w ++ [final_text]
  /\ r.1.(timers) = w.(timers)
  /\ r.1.(shared).(pending_timer) = w.(shared).(pending_timer)
  /\ r.1.(bridge) = w.(bridge)
  /\ r.1.(shared).(buffered_transcription) = EmptyString
  /\ (r.2 = true -> r.1.(shared).(last_spelling_processed_time) = Some done).
Proof.
  unfold dispatch_spelling.
  set (w0 := on_shared (set_buffered_transcription EmptyString) w).
  pose proof (process_transcription_dispatches chat rnd json_loads formatted final_text w0) as Hd.
  destruct (process_transcription_effect chat rnd json_loads formatted final_text w0)
    as (Ht & Hb & Hp & Hbuf & _).
  cbv zeta in *.
  destruct (process_transcription chat rnd json_loads formatted final_text w0) as [w1 ok].
  cbn [fst snd] in *.
  destruct ok; cbn [fst snd];
    do 5 (split; [first [exact Hd | exact Ht | exact Hp | exact Hb | exact Hbuf]|]).
  - intros _. reflexivity.
  - intros Hx. discriminate Hx.
Qed.

(** X21. Outside the one-second window, the spelling handler dispatches
    the whole buffer at once in its four immediate cases: name collection, a
    confirmation, a rejection, and an e-mail whose last five words hold a
    domain token. The buffer is emptied, no timer is armed or cancelled, and
    a dispatch the oracle answered is stamped with the time after it. *)
Theorem spelling_dispatches_at_once (now done : Q) (updated_buffer : string)
        (is_confirmation is_rejection : bool) (w : World) :
  outside_window now w ->
  w.(shared).(spelling_type) = Some "name_collection"%string
  \/ is_confirmation = true
  \/ is_rejection = true
  \/ (w.(shared).(spelling_type) = Some "email"%string
      /\ contains_any email_completion_indicators (last_chunk updated_buffer) = true) ->
  let r := process_spelling_mode chat rnd json_loads formatted now done updated_buffer
             is_confirmation is_rejection w in
  dispatched r.1 = dispatched w ++ [updated_buffer]
  /\ r.1.(timers) = w.(timers)
  /\ r.1.(shared).(pending_timer) = w.(shared).(pending_timer)
  /\ r.1.(shared).(buffered_transcription) = EmptyString
  /\ (r.2 = true -> r.1.(shared).(last_spelling_processed_time) = Some done).
Proof.
  intros Hout Hcase. unfold process_spelling_mode. rewrite (window_closed now w Hout).
  assert (Hgo : forall w0,
             dispatched w0 = dispatched w -> w0.(timers) = w.(timers) ->
             w0.(shared).(pending_timer) = w.(shared).(pending_timer) ->
             let r := dispatch_spelling chat rnd json_loads formatted done updated_buffer w0 in
             dispatched r.1 = dispatched w ++ [updated_buffer]
             /\ r.1.(timers) = w.(timers)
             /\ r.1.(shared).(pending_timer) = w.(shared).(pending_timer)
             /\ r.1.(shared).(buffered_transcription) = EmptyString
             /\ (r.2 = true -> r.1.(shared).(last_spelling_processed_time) = Some done)).
  { intros w0 Hd Ht Hp.
    destruct (dispatch_spelling_effect done updated_buffer w0) as (E1 & E2 & E3 & _ & E5 & E6).
    cbv zeta in *. rewrite E1, E2, E3, Hd, Ht, Hp. repeat split; assumption. }
  destruct (decide (spelling_type (shared w) = Some "name_collection"%string)) as [Hn|Hn].
  { apply Hgo; reflexivity. }
  destruct is_confirmation.
  { apply Hgo; reflexivity. }
  destruct is_rejection.
  { apply Hgo; reflexivity. }
  destruct Hcase as [Hc | [Hc | [Hc | [Hmail Hdom]]]];
    [contradiction | discriminate | discriminate |].
  unfold last_chunk in Hdom. cbv zeta in *.
  rewrite Hdom, (bool_decide_eq_true_2 _ Hmail). cbn [andb].
  apply Hgo; reflexivity.
Qed.

(** X22. In every other case outside the window the spelling handler
    dispatches nothing and arms one new timer: the pending timer, if any, is
    cancelled first, the new timer is appended live with the delay chosen
    for the spelling type, the shared state now holds it, and the buffer is
    kept for the timer to dispatch. *)
Theorem spelling_arms_one_timer (now done : Q) (updated_buffer : string) (w : World) :
  outside_window now w ->
  w.(shared).(spelling_type) <> Some "name_collection"%string ->
  (w.(shared).(spelling_type) = Some "email"%string ->
   contains_any email_completion_indicators (last_chunk updated_buffer) = false) ->
  let r := process_spelling_mode chat rnd json_loads formatted now done updated_buffer
             false false w in
  r.2 = true
  /\ dispatched r.1 = dispatched w
  /\ r.1.(timers)
     = pending_cancelled w
       ++ [mkTimer (spelling_timeout w.(shared).(spelling_type) updated_buffer false)
             ProcessSpellingTranscription false false]
  /\ r.1.(shared).(pending_timer) = Some (length w.(timers))
  /\ r.1.(shared).(buffered_transcription) = w.(shared).(buffered_transcription).
Proof.
  intros Hout Hname Hmail. unfold process_spelling_mode.
  rewrite (window_closed now w Hout).
  destruct (decide (spelling_type (shared w) = Some "name_collection"%string));
    [contradiction|].
  assert (Hnot : bool_decide (spelling_type (shared w) = Some "email"%string)
                 && contains_any email_completion_indicators (last_chunk updated_buffer)
                 = false).
  { case_bool_decide as He; [|reflexivity]. rewrite (Hmail He). reflexivity. }
  unfold last_chunk in Hnot. cbv zeta in *. rewrite Hnot.
  unfold cancel_pending_timer, pending_cancelled, new_timer, set_pending_timer, cancel_timer.
  destruct (pending_timer (shared w)) as [old|] eqn:Hp; cbn.
  - rewrite length_alter. repeat split.
  - rewrite Hp. cbn. repeat split.
Qed.

Lemma Qle_decide (a b : Q) : Qle_bool a b = true -> (a <= b)%Q.
Proof. apply Qle_bool_iff. Qed.

(** X23. Every delay of a spelling timer lies between 0.8 and 6.5
    seconds, and for a phone number ten digits in the buffer are enough to
    get the shortest one. *)
Theorem spelling_timeout_bounds (spelling_type : option string)
        (updated_buffer : string) (is_rejection : bool) :
  ((8 # 10) <= spelling_timeout spelling_type updated_buffer is_rejection <= (65 # 10))%Q
  /\ (spelling_type = Some "phone"%string ->
      10 <= String.length (digits_only updated_buffer) ->
      spelling_timeout spelling_type updated_buffer is_rejection = (8 # 10)%Q).
Proof.
  split.
  - unfold spelling_timeout.
    repeat match goal with
           | |- context [if ?c then _ else _] => destruct c
           end; split; apply Qle_decide; reflexivity.
  - intros -> Hd. unfold spelling_timeout.
    destruct (decide (Some "phone"%string = Some "email"%string)) as [Hx|_];
      [discriminate Hx|].
    destruct (decide (Some "phone"%string = Some "phone"%string)) as [_|Hx];
      [|contradiction].
    apply Nat.leb_le in Hd. rewrite Hd. reflexivity.
Qed.

(** The timer table is not touched by a dispatch. *)
Lemma fire_timer_timers (done : Q) (id : nat) (w : World) (t : Timer) :
  w.(timers) !! id = Some t -> live t = true ->
  (fire_timer chat rnd json_loads formatted done id w).1.(timers)
  = alter mark_fired id w.(timers).
Proof.
  intros Ht Hl. unfold fire_timer. rewrite Ht, Hl.
  set (w1 := with_timers _ w).
  destruct (negb _ && negb _).
  - destruct (callback t).
    + destruct (process_transcription_effect chat rnd json_loads formatted
                  (buffered_transcription (shared w1))
                  (on_shared (set_buffered_transcription EmptyString) w1)) as (E & _).
      exact E.
    + destruct (dispatch_spelling_effect done (buffered_transcription (shared w1)) w1)
        as (_ & E & _).
      exact E.
  - destruct (callback t); reflexivity.
Qed.

(** X19. A delayed dispatch that was cancelled, replaced by a newer one or
    already run does nothing when its interval elapses: the call is left as
    it is and nothing is dispatched. *)
Theorem dead_timer_is_inert (done : Q) (id : nat) (w : World) :
  (w.(shared).(pending_timer) = Some id ->
   fire_timer chat rnd json_loads formatted done id (cancel_pending_timer w)
   = (cancel_pending_timer w, true))
  /\ (forall newer, w.(shared).(pending_timer) = Some id -> newer <> id ->
        fire_timer chat rnd json_loads formatted done id (set_pending_timer newer w)
        = (set_pending_timer newer w, true))
  /\ (forall earlier,
        let w' := (fire_timer chat rnd json_loads formatted earlier id w).1 in
        fire_timer chat rnd json_loads formatted done id w' = (w', true)).
Proof.
  assert (Hdead : forall w0, (forall t, w0.(timers) !! id = Some t -> live t = false) ->
                    fire_timer chat rnd json_loads formatted done id w0 = (w0, true)).
  { intros w0 H0. unfold fire_timer. destruct (timers w0 !! id) as [t|] eqn:Ht; [|reflexivity].
    rewrite (H0 t eq_refl). reflexivity. }
  assert (Hcancel : forall (l : list Timer) t,
             alter cancel id l !! id = Some t -> live t = false).
  { intros l t. rewrite list_lookup_alter_eq. destruct (l !! id); cbn; [|discriminate].
    intros [= <-]. reflexivity. }
  split; [|split].
  - intros Hp. apply Hdead. unfold cancel_pending_timer. rewrite Hp. cbn. apply Hcancel.
  - intros newer Hp Hne. apply Hdead. unfold set_pending_timer. rewrite Hp. cbn.
    apply Hcancel.
  - intros earlier w'. subst w'. apply Hdead. intros t.
    destruct (timers w !! id) as [t0|] eqn:Ht0.
    + destruct (live t0) eqn:Hl0.
      * rewrite (fire_timer_timers earlier id w t0 Ht0 Hl0), list_lookup_alter_eq, Ht0.
        cbn. intros [= <-]. unfold live, mark_fired. cbn. apply andb_false_r.
      * unfold fire_timer. rewrite Ht0, Hl0. cbn. rewrite Ht0. intros [= <-]. exact Hl0.
    + unfold fire_timer. rewrite Ht0. cbn. rewrite Ht0. discriminate.
Qed.

End SpellingMore.

Section AssistanceMore.
Import PyStr ConversationManager Pipeline Observe.
Local Open Scope list_scope.
Variable chat : nat -> string -> Outcome.
Variable rnd : nat -> Q.
Variable json_loads : string -> option (gmap string PyVal).
Variable formatted : string.
Variable is_strict_confirmation : string -> bool.
Variable is_strict_rejection : string -> bool.

Lemma contains_any_member (phrase : string) (phrases : list string) (s : string) :
  In phrase phrases -> contains phrase s = true -> contains_any phrases s = true.
Proof.
  intros Hin Hc. unfold contains_any. apply existsb_exists. exists phrase. split; assumption.
Qed.

Lemma not_phrase (phrase : string) (s : string) :
  In phrase completion_phrases ->
  contains phrase phrase = true ->
  contains_any completion_phrases s = false ->
  String.eqb (strip s) phrase = false.
Proof.
  intros Hin Hself Hnone. apply String.eqb_neq. intros Heq.
  assert (Hc : contains phrase s = true) by (apply contains_strip; rewrite Heq; exact Hself).
  rewrite (contains_any_member phrase _ s Hin Hc) in Hnone. discriminate.
Qed.

(** X24. In assistance mode a finalized text is added to the buffer, after
    a space when the buffer is not empty. If the buffer then holds none of
    the completion phrases and is neither a bare no nor a bare yeah, that is
    all that happens: nothing is dispatched, sent or armed. If it holds a
    completion phrase, the whole buffer is dispatched at once, the buffer is
    emptied and the pending timer, if any, is cancelled. *)
Theorem assistance_buffers_until_complete (now done : Q) (transcription : string)
        (w : World) :
  w.(shared).(spelling_mode) = false ->
  w.(shared).(assistance_mode) = true ->
  strip transcription <> EmptyString ->
  let updated_buffer :=
    if String.eqb w.(shared).(buffered_transcription) EmptyString then transcription
    else (w.(shared).(buffered_transcription) ++ " " ++ transcription)%string in
  let r := on_transcription_response chat rnd json_loads formatted
             is_strict_confirmation is_strict_rejection now done transcription true w in
  (contains_any completion_phrases (lower updated_buffer) = false ->
   strip (lower updated_buffer) <> "no"%string ->
   strip (lower updated_buffer) <> "yeah"%string ->
   r = (on_shared (set_buffered_transcription updated_buffer) w, true))
  /\ (contains_any completion_phrases (lower updated_buffer) = true ->
      dispatched r.1 = dispatched w ++ [updated_buffer]
      /\ r.1.(timers) = pending_cancelled w
      /\ r.1.(shared).(buffered_transcription) = EmptyString).
Proof.
  intros Hs Ha Hblank updated_buffer r. subst r.
  apply String.eqb_neq in Hblank.
  unfold on_transcription_response. cbn [negb orb]. rewrite Hblank, Hs, Ha. cbn [orb].
  fold updated_buffer.
  cbn [shared on_shared with_shared spelling_mode assistance_mode
         set_buffered_transcription].
  rewrite Hs, Ha.
  split.
  - intros Hnone Hno Hyeah.
    apply String.eqb_neq in Hno, Hyeah. rewrite Hnone, Hno, Hyeah.
    rewrite (not_phrase "thanks" (lower updated_buffer)), (not_phrase "thank you" (lower updated_buffer));
      try reflexivity; try exact Hnone; cbn; tauto.
  - intros Hsome. rewrite Hsome. cbn [orb].
    assert (Hif : forall b : bool, (if b then true else true) = true) by (intros []; reflexivity).
    rewrite Hif.
    set (w0 := on_shared (set_buffered_transcription EmptyString) _).
    pose proof (process_transcription_dispatches chat rnd json_loads formatted
                  updated_buffer w0) as Hd.
    destruct (process_transcription_effect chat rnd json_loads formatted updated_buffer w0)
      as (Ht & _ & _ & Hb & _).
    cbv zeta in Ht, Hb. rewrite Hd, Ht, Hb. subst w0.
    unfold cancel_pending_timer, pending_cancelled, dispatched.
    cbn [shared on_shared with_shared pending_timer set_buffered_transcription].
    destruct (pending_timer (shared w)); cbn; repeat split.
Qed.

End AssistanceMore.

(** * The registry of call states *)

Section Registry.
Import StateManager.

(** X25. The registry hands out one state per call. When [get_state]
    returns a state, that state is registered under the call and every later
    [get_state] of the call returns it with the registry unchanged, whether
    or not a new state could be built then; it returns none only for an
    unknown call whose state could not be built, and then registers nothing.
    The states of other calls are never touched, and after [remove_state]
    the call is unknown again. *)
Theorem registry_round_trip (constructed : bool) (call_id : string)
        (states : gmap string SharedState) :
  let r := get_state constructed call_id states in
  (forall st, r.1 = Some st ->
     r.2 !! call_id = Some st
     /\ forall again, get_state again call_id r.2 = (Some st, r.2))
  /\ (r.1 = None -> constructed = false /\ states !! call_id = None /\ r.2 = states)
  /\ (forall other, other <> call_id ->
        r.2 !! other = states !! other
        /\ remove_state call_id states !! other = states !! other)
  /\ remove_state call_id r.2 !! call_id = None.
Proof.
  unfold get_state, remove_state.
  destruct (states !! call_id) as [st0|] eqn:Hl; cbn [fst snd].
  - rewrite Hl. split; [|split; [|split]].
    + intros st [= <-]. split; [reflexivity|]. intros again. reflexivity.
    + discriminate.
    + intros other Hne. split; [reflexivity|]. apply lookup_delete_ne. congruence.
    + apply lookup_delete_eq.
  - destruct constructed; cbn [fst snd].
    + rewrite lookup_insert_eq. split; [|split; [|split]].
      * intros st [= <-]. split; [reflexivity|]. intros again. reflexivity.
      * discriminate.
      * intros other Hne. split; [|reflexivity]. apply lookup_insert_ne. congruence.
      * apply lookup_delete_eq.
    + rewrite Hl. split; [|split; [|split]].
      * discriminate.
      * intros _. repeat split. 
      * intros other Hne. split; reflexivity.
      * exact Hl.
Qed.

End Registry.

(** * What the synthesis thread does to a call *)

Section SpeechActs.
Import PyStr ConversationManager Pipeline Observe.
Local Open Scope list_scope.
Variable google_synthesize : string -> option (list byte).
Variable elevenlabs_stream : string -> option (list (list byte)).
Variable cartesia_sse : string -> option (list (option (list byte))).
Variable to_mulaw : list byte -> list byte.

(** A relation between the states of a call that the thread's own writes
    respect: messages for the stream [sid] and the two turn-taking flags. *)
Variable R : World -> World -> Prop.
Variable sid : option string.
Hypothesis R_refl : forall w, R w w.
Hypothesis R_trans : forall a b c, R a b -> R b c -> R a c.
Hypothesis R_media : forall payload w, R w (send (MediaMsg sid payload) w).
Hypothesis R_clear : forall w, R w (send (ClearMsg sid) w).
Hypothesis R_speaking : forall v w, R w (on_shared (set_ai_speaking v) w).
Hypothesis R_interrupt : forall v w, R w (on_shared (set_interrupt_ai v) w).

Lemma check_interrupt_acts (has_state : bool) (env : list Interference) (w : World) :
  Forall (fun f : Interference => forall w, R w (f w)) env ->
  R w (check_interrupt has_state env w).1.2
  /\ Forall (fun f : Interference => forall w, R w (f w)) (check_interrupt has_state env w).2.
Proof.
  intros Henv. unfold check_interrupt, interfere. destruct has_state; [|split; auto].
  destruct env as [|f rest]; cbn; [split; auto|].
  apply Forall_cons in Henv as [Hf Hrest]. split; auto.
Qed.

Lemma set_speaking_acts (has_state v : bool) (w : World) : R w (set_speaking has_state v w).
Proof. unfold set_speaking. destruct has_state; auto. Qed.

Lemma google_loop_acts (has_state : bool) (chunks : list (list byte)) :
  forall env w,
    Forall (fun f : Interference => forall w, R w (f w)) env ->
    R w (google_loop has_state sid chunks env w).1.1
    /\ Forall (fun f : Interference => forall w, R w (f w))
         (google_loop has_state sid chunks env w).1.2.
Proof.
  induction chunks as [|chunk rest IH]; intros env w Henv; cbn [google_loop].
  - split; auto.
  - destruct (check_interrupt_acts has_state env w Henv) as [Hw Hrest].
    destruct (check_interrupt has_state env w) as [[stop w1] env1]. cbn [fst snd] in Hw, Hrest.
    destruct stop; cbn [fst snd].
    + split; [|exact Hrest]. eauto.
    + destruct (IH env1 (send (MediaMsg sid chunk) w1) Hrest) as [H1 H2].
      split; [|exact H2]. eauto.
Qed.

Lemma flush_buffer_acts (convert : list byte -> list byte) (on_interrupt : World -> World)
      (has_state : bool) (fuel : nat) :
  (forall w, R w (on_interrupt w)) ->
  forall chunk_buffer env w,
    Forall (fun f : Interference => forall w, R w (f w)) env ->
    R w (flush_buffer fuel convert on_interrupt has_state sid chunk_buffer env w).1.1
    /\ Forall (fun f : Interference => forall w, R w (f w))
         (flush_buffer fuel convert on_interrupt has_state sid chunk_buffer env w).1.2.
Proof.
  intros Hint. induction fuel as [|fuel IH]; intros chunk_buffer env w Henv; cbn [flush_buffer].
  - split; auto.
  - destruct (target_chunk_size <=? length chunk_buffer)%nat; [|split; auto].
    destruct (check_interrupt_acts has_state env w Henv) as [Hw Hrest].
    destruct (check_interrupt has_state env w) as [[stop w1] env1]. cbn [fst snd] in Hw, Hrest.
    destruct stop; cbn [fst snd].
    + split; [|exact Hrest]. eauto.
    + match goal with
      | |- context [flush_buffer fuel convert on_interrupt has_state sid ?b env1 ?w2] =>
          destruct (IH b env1 w2 Hrest) as [H1 H2]
      end.
      split; [|exact H2]. eauto.
Qed.

Lemma stream_loop_acts (convert : list byte -> list byte) (on_interrupt : World -> World)
      (has_state : bool) (stream : list (option (list byte))) :
  (forall w, R w (on_interrupt w)) ->
  forall chunk_buffer env w,
    Forall (fun f : Interference => forall w, R w (f w)) env ->
    R w (stream_loop convert on_interrupt has_state sid stream chunk_buffer env w).1.1
    /\ Forall (fun f : Interference => forall w, R w (f w))
         (stream_loop convert on_interrupt has_state sid stream chunk_buffer env w).1.2.
Proof.
  intros Hint. induction stream as [|chunk rest IH]; intros chunk_buffer env w Henv;
    cbn [stream_loop].
  - split; auto.
  - destruct (check_interrupt_acts has_state env w Henv) as [Hw Hrest].
    destruct (check_interrupt has_state env w) as [[stop w1] env1]. cbn [fst snd] in Hw, Hrest.
    destruct stop; cbn [fst snd].
    + split; [|exact Hrest]. eauto.
    + destruct chunk as [data|].
      * destruct (flush_buffer_acts convert on_interrupt has_state
                    (length (chunk_buffer ++ data)) Hint (chunk_buffer ++ data) env1 w1 Hrest)
          as [F1 F2].
        destruct (flush_buffer _ _ _ _ _ _ _ _) as [[w2 env2] [leftover|]];
          cbn [fst snd] in F1, F2.
        -- destruct (IH leftover env2 w2 F2) as [H1 H2]. split; [|exact H2]. eauto.
        -- cbn [fst snd]. split; [|exact F2]. eauto.
      * destruct (IH chunk_buffer env1 w1 Hrest) as [H1 H2]. split; [|exact H2]. eauto.
Qed.

Lemma send_remaining_acts (convert : list byte -> list byte) (has_state : bool)
      (chunk_buffer : list byte) (env : list Interference) (w : World) :
  Forall (fun f : Interference => forall w, R w (f w)) env ->
  R w (send_remaining convert has_state sid chunk_buffer env w).1
  /\ Forall (fun f : Interference => forall w, R w (f w))
       (send_remaining convert has_state sid chunk_buffer env w).2.
Proof.
  intros Henv. unfold send_remaining. destruct chunk_buffer as [|b rest]; [split; auto|].
  destruct has_state; [|split; auto].
  destruct (check_interrupt_acts true env w Henv) as [Hw Hrest].
  destruct (check_interrupt true env w) as [[stop w1] env1]. cbn [fst snd] in Hw, Hrest.
  destruct stop; cbn [fst snd]; split; eauto.
Qed.

Lemma text_to_speech_acts (text tts_provider : string) (has_state : bool)
      (env : list Interference) (w : World) :
  Forall (fun f : Interference => forall w, R w (f w)) env ->
  R w (text_to_speech google_synthesize elevenlabs_stream cartesia_sse to_mulaw
         text sid tts_provider has_state env w).1.1
  /\ Forall (fun f : Interference => forall w, R w (f w))
       (text_to_speech google_synthesize elevenlabs_stream cartesia_sse to_mulaw
          text sid tts_provider has_state env w).1.2.
Proof.
  intros Henv. unfold text_to_speech.
  set (w0 := if has_state then tts_prologue w else w).
  assert (H0 : R w w0).
  { subst w0. destruct has_state; [|auto]. unfold tts_prologue. eauto. }
  unfold tts_after_prologue.
  destruct (check_interrupt_acts has_state env w0 Henv) as [Hw Hrest].
  destruct (check_interrupt has_state env w0) as [[stop w1] env1]. cbn [fst snd] in Hw, Hrest.
  assert (H1 : R w w1) by eauto.
  pose proof set_speaking_acts as Hsp.
  destruct stop; [cbn [fst snd]; split; eauto|].
  destruct (String.eqb tts_provider GOOGLE).
  { destruct (google_synthesize _) as [audio|]; [|cbn [fst snd]; split; eauto].
    destruct (google_loop_acts has_state (google_chunks audio) env1
                (set_speaking has_state true w1) Hrest) as [G1 G2].
    destruct (google_loop _ _ _ _ _) as [[w2 env2] sent_all]. cbn [fst snd] in G1, G2.
    destruct sent_all; cbn [fst snd]; split; eauto 6. }
  destruct (String.eqb tts_provider ELEVENLABS).
  { destruct (elevenlabs_stream _) as [audio_stream|]; [|cbn [fst snd]; split; eauto].
    destruct (stream_loop_acts to_mulaw (fun w => w) has_state (map Some audio_stream)
                R_refl [] env1 w1 Hrest) as [S1 S2].
    destruct (stream_loop _ _ _ _ _ _ _ _) as [[w2 env2] [leftover|]]; cbn [fst snd] in S1, S2.
    - destruct (send_remaining_acts to_mulaw has_state leftover env2 w2 S2) as [T1 T2].
      destruct (send_remaining _ _ _ _ _ _) as [w3 env3]. cbn [fst snd] in *. split; eauto.
    - cbn [fst snd]. split; eauto. }
  destruct (String.eqb tts_provider CARTESIA).
  { destruct (cartesia_sse _) as [response|]; [|cbn [fst snd]; split; eauto 6].
    destruct (stream_loop_acts (fun chunk => chunk) (on_shared (set_ai_speaking false))
                has_state response (R_speaking false) [] env1
                (set_speaking has_state true w1) Hrest) as [S1 S2].
    destruct (stream_loop _ _ _ _ _ _ _ _) as [[w2 env2] [leftover|]]; cbn [fst snd] in S1, S2.
    - destruct (send_remaining_acts (fun chunk => chunk) has_state leftover env2 w2 S2)
        as [T1 T2].
      destruct (send_remaining _ _ _ _ _ _) as [w3 env3]. cbn [fst snd] in *.
      split; eauto 7.
    - cbn [fst snd]. split; eauto 6. }
  cbn [fst snd]. split; eauto.
Qed.

Lemma grace_loop_acts (start_grace_time : Q) (readings : list Q) :
  forall env w,
    Forall (fun f : Interference => forall w, R w (f w)) env ->
    R w (grace_loop start_grace_time readings env w).1.
Proof.
  induction readings as [|t rest IH]; intros env w Henv; cbn [grace_loop]; [auto|].
  destruct (Qlt_bool _ _); [|auto].
  unfold interfere. destruct env as [|f env1].
  - destruct (interrupt_ai (shared w)); [auto | apply IH, Henv].
  - apply Forall_cons in Henv as [Hf Hrest].
    destruct (interrupt_ai (shared (f w))); cbn [fst]; eauto.
Qed.

(** X11. The synthesis thread acts on the call in three ways only: it
    sends media and clear messages for the stream of the call, and it writes
    the two flags [aiSpeaking] and [interruptAI]. Whatever relation between
    states of the call is kept by these writes, and by the steps the other
    threads take meanwhile, holds between the state [tts_worker] starts in
    and the state it ends in, with every provider and however it ends. *)
Theorem tts_worker_acts_through (text tts_provider : string) (start_grace_time : Q)
        (readings : list Q) (env : list Interference) (w : World) :
  w.(shared).(stream_sid) = sid ->
  Forall (fun f : Interference => forall w, R w (f w)) env ->
  R w (tts_worker google_synthesize elevenlabs_stream cartesia_sse to_mulaw
         text tts_provider start_grace_time readings env w).1.
Proof.
  intros Hsid Henv. unfold tts_worker. rewrite Hsid.
  destruct (text_to_speech_acts text tts_provider true env w Henv) as [H1 H2].
  destruct (text_to_speech _ _ _ _ _ _ _ _ _ _) as [[w1 env1] e]. cbn [fst snd] in H1, H2.
  pose proof (grace_loop_acts start_grace_time readings env1 w1 H2) as H3.
  destruct (grace_loop _ _ _ _) as [w2 env2]. cbn [fst snd] in *. eauto.
Qed.

End SpeechActs.

(** The thread leaves the transcript alone while the caller barges in. *)
Lemma tts_worker_acts_through_witness :
  (Pipeline.tts_worker Scenario.google_synthesize Scenario.elevenlabs_stream
     Scenario.cartesia_sse Scenario.to_mulaw "Hello" Pipeline.GOOGLE 0 [0%Q; 1%Q]
     [Pipeline.on_shared (set_interrupt_ai true)] Scenario.started).1
    .(Pipeline.shared).(full_transcript)
  = Scenario.started.(Pipeline.shared).(full_transcript).
Proof.
  apply (tts_worker_acts_through Scenario.google_synthesize Scenario.elevenlabs_stream
           Scenario.cartesia_sse Scenario.to_mulaw
           (fun w w' => w'.(Pipeline.shared).(full_transcript)
                        = w.(Pipeline.shared).(full_transcript))
           (Some "MZ0001"%string)).
  - reflexivity.
  - intros a b c Hab Hbc. exact (eq_trans Hbc Hab).
  - reflexivity.
  - reflexivity.
  - reflexivity.
  - reflexivity.
  - reflexivity.
  - constructor; [reflexivity | constructor].
Defined.

(** * The timers of a call *)

Section TimerTables.
Import Pipeline Observe.
Local Open Scope list_scope.

Lemma live_at_cancel (c : Callback) (k : nat) (table : list Timer) (i : nat) :
  live_at c (alter cancel k table) i -> live_at c table i /\ i <> k.
Proof.
  intros (t & Ht & Hc & Hl). destruct (decide (i = k)) as [->|Hne].
  - rewrite list_lookup_alter_eq in Ht.
    destruct (table !! k) as [t0|]; cbn in Ht; [|discriminate].
    injection Ht as <-. unfold live, cancel in Hl. cbn in Hl. discriminate.
  - rewrite list_lookup_alter_ne in Ht by congruence.
    split; [exists t; auto | exact Hne].
Qed.

Lemma live_at_fired (c : Callback) (k : nat) (table : list Timer) (i : nat) :
  live_at c (alter mark_fired k table) i -> live_at c table i /\ i <> k.
Proof.
  intros (t & Ht & Hc & Hl). destruct (decide (i = k)) as [->|Hne].
  - rewrite list_lookup_alter_eq in Ht.
    destruct (table !! k) as [t0|]; cbn in Ht; [|discriminate].
    injection Ht as <-. unfold live, mark_fired in Hl. cbn in Hl.
    rewrite andb_false_r in Hl. discriminate.
  - rewrite list_lookup_alter_ne in Ht by congruence.
    split; [exists t; auto | exact Hne].
Qed.

Lemma live_at_new (c c' : Callback) (d : Q) (table : list Timer) (i : nat) :
  live_at c (table ++ [mkTimer d c' false false]) i ->
  live_at c table i \/ (i = length table /\ c = c').
Proof.
  intros (t & Ht & Hc & Hl). rewrite lookup_app in Ht.
  destruct (table !! i) as [t0|] eqn:Hi.
  - left. injection Ht as <-. exists t0. auto.
  - right. apply lookup_ge_None in Hi.
    destruct (i - length table) as [|n] eqn:Hn; cbn in Ht; [|discriminate].
    injection Ht as <-. cbn in Hc. split; [lia | congruence].
Qed.

Lemma ordered_fade (table table' : list Timer) (pending silence : option nat) (heard : bool) :
  (forall c i, live_at c table' i -> live_at c table i) ->
  ordered table pending silence heard -> ordered table' pending silence heard.
Proof. intros Hf [Hp Hs]. split; intros i Hi; [apply Hp | apply Hs]; apply Hf, Hi. Qed.

Lemma ordered_fired (k : nat) (table : list Timer) (pending silence : option nat)
      (heard : bool) :
  ordered table pending silence heard ->
  ordered (alter mark_fired k table) pending silence heard.
Proof. apply ordered_fade. intros c i Hi. apply (live_at_fired c k), Hi. Qed.

Lemma ordered_cancel_pending (k : nat) (table : list Timer) (silence : option nat)
      (heard : bool) :
  ordered table (Some k) silence heard ->
  ordered (alter cancel k table) None silence heard.
Proof.
  intros [Hp Hs]. split; intros i Hi; apply live_at_cancel in Hi as [Hi Hne].
  - apply Hp in Hi. congruence.
  - apply Hs, Hi.
Qed.

Lemma ordered_new_pending (d : Q) (table : list Timer) (silence : option nat)
      (heard : bool) :
  ordered table None silence heard ->
  ordered (table ++ [mkTimer d ProcessSpellingTranscription false false])
          (Some (length table)) silence heard.
Proof.
  intros [Hp Hs]. split; intros i Hi; apply live_at_new in Hi as [Hi | [Hi Hc]].
  - apply Hp in Hi. discriminate.
  - congruence.
  - apply Hs, Hi.
  - discriminate.
Qed.

Lemma ordered_cancel_silence (k : nat) (table : list Timer) (pending : option nat)
      (heard heard' : bool) :
  ordered table pending (Some k) heard ->
  ordered (alter cancel k table) pending None heard'.
Proof.
  intros [Hp Hs]. split; intros i Hi; apply live_at_cancel in Hi as [Hi Hne].
  - apply Hp, Hi.
  - apply Hs in Hi as [Hi _]. congruence.
Qed.

Lemma ordered_no_silence (table : list Timer) (pending : option nat) (heard heard' : bool) :
  ordered table pending None heard -> ordered table pending None heard'.
Proof.
  intros [Hp Hs]. split; [exact Hp|]. intros i Hi. apply Hs in Hi as [Hi _]. discriminate.
Qed.

Lemma ordered_new_silence (d : Q) (table : list Timer) (pending silence : option nat) :
  ordered table pending silence true ->
  ordered (table ++ [mkTimer d OnSilenceTimeout false false])
          pending (Some (length table)) false.
Proof.
  intros [Hp Hs]. split; intros i Hi; apply live_at_new in Hi as [Hi | [Hi Hc]].
  - apply Hp, Hi.
  - discriminate.
  - apply Hs in Hi as [_ Hi]. discriminate.
  - split; congruence.
Qed.

Lemma ordered_one (table : list Timer) (pending silence : option nat) (heard : bool)
      (c : Callback) (i j : nat) :
  ordered table pending silence heard -> live_at c table i -> live_at c table j -> i = j.
Proof.
  intros [Hp Hs] Hi Hj. destruct c.
  - apply Hs in Hi as [Hi _]. apply Hs in Hj as [Hj _]. congruence.
  - apply Hp in Hi. apply Hp in Hj. congruence.
Qed.

Lemma same_timers_refl (w : World) : same_timers w w.
Proof. repeat split. Qed.

Lemma same_timers_trans (a b c : World) :
  same_timers a b -> same_timers b c -> same_timers a c.
Proof.
  intros (A1 & A2 & A3 & A4) (B1 & B2 & B3 & B4).
  repeat split; congruence.
Qed.

Lemma same_timers_order (w w' : World) :
  same_timers w w' -> timers_in_order w -> timers_in_order w'.
Proof.
  intros (H1 & H2 & H3 & H4). unfold timers_in_order. rewrite H1, H2, H3, H4. auto.
Qed.

End TimerTables.

Section TimerOrder.
Import PyStr ConversationManager Pipeline Observe.
Local Open Scope list_scope.
Variable ulaw2lin : list byte -> list byte.
Variable is_speech : list byte -> option bool.
Variable rms_above : list byte -> bool.
Variable chat : nat -> string -> Outcome.
Variable rnd : nat -> Q.
Variable json_loads : string -> option (gmap string PyVal).
Variable formatted : string.
Variable is_strict_confirmation : string -> bool.
Variable is_strict_rejection : string -> bool.
Variable google_synthesize : string -> option (list byte).
Variable elevenlabs_stream : string -> option (list (list byte)).
Variable cartesia_sse : string -> option (list (option (list byte))).
Variable to_mulaw : list byte -> list byte.

Lemma process_transcription_same (text : string) (w : World) :
  same_timers w (process_transcription chat rnd json_loads formatted text w).1.
Proof.
  destruct (process_transcription_effect chat rnd json_loads formatted text w)
    as (Ht & Hb & Hp & _).
  cbv zeta in *. unfold same_timers. rewrite Ht, Hb, Hp. repeat split.
Qed.

Lemma dispatch_spelling_same (done : Q) (final_text : string) (w : World) :
  same_timers w (dispatch_spelling chat rnd json_loads formatted done final_text w).1.
Proof.
  destruct (dispatch_spelling_effect chat rnd json_loads formatted done final_text w)
    as (_ & Ht & Hp & Hb & _).
  cbv zeta in *. unfold same_timers. rewrite Ht, Hb, Hp. repeat split.
Qed.

(** Arming the delayed dispatch: cancel, create, register. *)
Lemma arm_in_order (d : Q) (w : World) :
  timers_in_order w ->
  timers_in_order
    (let '(timer, w1) := new_timer d ProcessSpellingTranscription (cancel_pending_timer w) in
     set_pending_timer timer w1).
Proof.
  unfold timers_in_order, cancel_pending_timer, new_timer, set_pending_timer, cancel_timer.
  destruct (pending_timer (shared w)) as [old|] eqn:Hp; cbn.
  - intros H. apply ordered_new_pending, ordered_cancel_pending, H.
  - rewrite Hp. cbn. intros H. apply ordered_new_pending, H.
Qed.

Lemma cancel_pending_in_order (w : World) :
  timers_in_order w -> timers_in_order (cancel_pending_timer w).
Proof.
  unfold timers_in_order, cancel_pending_timer, cancel_timer.
  destruct (pending_timer (shared w)) as [old|] eqn:Hp; cbn.
  - apply ordered_cancel_pending.
  - rewrite Hp. auto.
Qed.

Lemma process_spelling_mode_in_order (now done : Q) (updated_buffer : string)
      (is_confirmation is_rejection : bool) (w : World) :
  timers_in_order w ->
  timers_in_order (process_spelling_mode chat rnd json_loads formatted now done
                     updated_buffer is_confirmation is_rejection w).1.
Proof.
  intros H. unfold process_spelling_mode.
  destruct (_ && _); [exact H|].
  destruct (decide _).
  { eapply same_timers_order; [apply dispatch_spelling_same | exact H]. }
  destruct is_confirmation.
  { eapply same_timers_order; [apply dispatch_spelling_same | exact H]. }
  destruct is_rejection.
  { eapply same_timers_order; [apply dispatch_spelling_same | exact H]. }
  cbv zeta. destruct (_ && _).
  { eapply same_timers_order; [apply dispatch_spelling_same | exact H]. }
  pose proof (arm_in_order (spelling_timeout (spelling_type (shared w)) updated_buffer false)
                w H) as Harm.
  destruct (new_timer _ _ _) as [timer w1]. exact Harm.
Qed.

Lemma on_transcription_response_in_order (now done : Q) (transcription : string)
      (is_final : bool) (w : World) :
  timers_in_order w ->
  timers_in_order (on_transcription_response chat rnd json_loads formatted
                     is_strict_confirmation is_strict_rejection now done
                     transcription is_final w).1.
Proof.
  intros H. unfold on_transcription_response.
  destruct (_ || _); [exact H|].
  set (p := if _ || _ then _ else _).
  assert (Hp : timers_in_order p.2).
  { subst p. destruct (_ || _); exact H. }
  destruct p as [updated_buffer w1]. cbn [snd] in Hp.
  destruct (spelling_mode (shared w1)).
  { apply process_spelling_mode_in_order, Hp. }
  destruct (assistance_mode (shared w1)).
  - cbv zeta. destruct (if _ && _ then true else _); [|exact Hp].
    eapply same_timers_order; [apply process_transcription_same|].
    apply cancel_pending_in_order in Hp. exact Hp.
  - eapply same_timers_order; [apply process_transcription_same|].
    destruct (spelling_mode (shared w)); exact Hp.
Qed.

Lemma fire_timer_in_order (done : Q) (id : nat) (w : World) :
  timers_in_order w ->
  timers_in_order (fire_timer chat rnd json_loads formatted done id w).1.
Proof.
  intros H. unfold fire_timer.
  destruct (timers w !! id) as [t|]; [|exact H].
  destruct (live t); [|exact H]. cbv zeta.
  set (w1 := with_timers _ w).
  assert (H1 : timers_in_order w1).
  { subst w1. unfold timers_in_order. cbn. apply ordered_fired, H. }
  destruct (callback t); destruct (_ && _).
  - eapply same_timers_order; [apply process_transcription_same | exact H1].
  - exact H1.
  - eapply same_timers_order; [apply dispatch_spelling_same | exact H1].
  - exact H1.
Qed.

Lemma terminate_in_order (w : World) : timers_in_order w -> timers_in_order (terminate w).
Proof.
  unfold timers_in_order, terminate, cancel_timer. cbn.
  destruct (user_silence_timer (bridge w)) as [id|] eqn:Hs; cbn.
  - apply ordered_cancel_silence.
  - rewrite Hs. auto.
Qed.

Lemma process_universal_vad_in_order (now : Q) (buffer : list byte) (w : World) :
  timers_in_order w ->
  timers_in_order (process_universal_vad ulaw2lin is_speech rms_above now buffer w).
Proof.
  intros H. unfold process_universal_vad. destruct buffer as [|b0 buffer]; [exact H|].
  set (p := if rms_above _ then _ else _).
  assert (Hp : timers_in_order p.1).
  { subst p. destruct (rms_above _); [|exact H].
    destruct (Vad.process_audio _ _ _ _) as [vad r]. exact H. }
  destruct p as [w1 voice_detected]. cbn [fst] in Hp. clear H.
  destruct (ai_is_speaking (shared w1)).
  { destruct (_ && _); [|exact Hp]. destruct (Qlt_bool _ _); [|exact Hp].
    cbv zeta. destruct (truthy_str _); exact Hp. }
  unfold timers_in_order in *.
  destruct (Bool.eqb voice_detected (last_user_vad_state (bridge w1))) eqn:He; cbn [negb].
  - apply Bool.eqb_prop in He. cbn. rewrite He. exact Hp.
  - destruct voice_detected.
    + cbn. destruct (user_silence_timer (bridge w1)) as [id|] eqn:Hs; cbn.
      * eapply ordered_cancel_silence, Hp.
      * rewrite Hs. eapply ordered_no_silence, Hp.
    + cbn. destruct (last_user_vad_state (bridge w1)); [|discriminate He].
      eapply ordered_new_silence, Hp.
Qed.

Lemma add_request_in_order (now : Q) (buffer : list byte) (w : World) :
  timers_in_order w ->
  timers_in_order (add_request ulaw2lin is_speech rms_above now buffer w).
Proof.
  intros H. unfold add_request.
  set (w1 := if negb _ then _ else w).
  assert (H1 : timers_in_order w1) by (subst w1; destruct (negb _); exact H).
  apply (process_universal_vad_in_order now buffer) in H1.
  destruct (restart_in_progress _); exact H1.
Qed.

Lemma text_to_speech_same (text : string) (sid : option string) (tts_provider : string)
      (w : World) :
  same_timers w (text_to_speech google_synthesize elevenlabs_stream cartesia_sse to_mulaw
                   text sid tts_provider true [] w).1.1.
Proof.
  apply (text_to_speech_acts google_synthesize elevenlabs_stream cartesia_sse to_mulaw
           same_timers sid same_timers_refl same_timers_trans);
    try (intros; repeat split); constructor.
Qed.

Lemma tts_worker_same (text tts_provider : string) (start_grace_time : Q)
      (readings : list Q) (w : World) :
  same_timers w (tts_worker google_synthesize elevenlabs_stream cartesia_sse to_mulaw
                   text tts_provider start_grace_time readings [] w).1.
Proof.
  unfold tts_worker.
  pose proof (text_to_speech_acts google_synthesize elevenlabs_stream cartesia_sse to_mulaw
                same_timers (stream_sid (shared w)) same_timers_refl same_timers_trans
                ltac:(intros; repeat split) ltac:(intros; repeat split)
                ltac:(intros; repeat split) ltac:(intros; repeat split)
                text tts_provider true [] w ltac:(constructor)) as [H1 H2].
  destruct (text_to_speech _ _ _ _ _ _ _ _ _ _) as [[w1 env1] e]. cbn [fst snd] in H1, H2.
  pose proof (grace_loop_acts same_timers same_timers_refl same_timers_trans
                start_grace_time readings env1 w1 H2) as H3.
  destruct (grace_loop _ _ _ _) as [w2 env2]. cbn [fst snd] in *.
  eapply same_timers_trans; [exact H1|]. eapply same_timers_trans; [exact H3|].
  repeat split.
Qed.

Lemma step_in_order (e : Event) (w : World) :
  timers_in_order w ->
  timers_in_order (step ulaw2lin is_speech rms_above chat rnd json_loads formatted
                     is_strict_confirmation is_strict_rejection google_synthesize
                     elevenlabs_stream cartesia_sse to_mulaw e w).
Proof.
  intros H. destruct e; cbn [step].
  - destruct is_inbound; [|exact H].
    eapply same_timers_order; [apply text_to_speech_same | exact H].
  - apply add_request_in_order, H.
  - unfold on_stop. apply terminate_in_order, terminate_in_order, H.
  - unfold on_close. apply terminate_in_order, H.
  - apply on_transcription_response_in_order, H.
  - apply fire_timer_in_order, H.
  - unfold prepare_restart. destruct (negb _); exact H.
  - unfold start_new_stream. destruct opened; exact H.
  - eapply same_timers_order; [apply tts_worker_same | exact H].
Qed.

(** X18. Whatever happens in a call, its timers stay in order: a delayed
    dispatch that can still run is the one the shared state holds as pending,
    a silence timer that can still run is the one the bridge holds and was
    started after the caller was last heard to stop, and so at most one
    timer of each kind is waiting at any time. Handlers run one after the
    other here. *)
Theorem timers_stay_in_order (events : list Event) :
  let w := run ulaw2lin is_speech rms_above chat rnd json_loads formatted
             is_strict_confirmation is_strict_rejection google_synthesize
             elevenlabs_stream cartesia_sse to_mulaw events initial_world in
  timers_in_order w
  /\ (forall c i j, live_timer c w i -> live_timer c w j -> i = j).
Proof.
  cbv zeta.
  assert (Hinit : timers_in_order initial_world).
  { split; intros i (t & Ht & _); discriminate Ht. }
  assert (Hrun : forall w, timers_in_order w ->
                   timers_in_order
                     (run ulaw2lin is_speech rms_above chat rnd json_loads formatted
                        is_strict_confirmation is_strict_rejection google_synthesize
                        elevenlabs_stream cartesia_sse to_mulaw events w)).
  { induction events as [|e rest IH]; intros w Hw; [exact Hw|].
    cbn [run fold_left]. apply IH, step_in_order, Hw. }
  split; [apply Hrun, Hinit|].
  intros c i j. unfold live_timer. eapply ordered_one. apply Hrun, Hinit.
Qed.

End TimerOrder.

(** * The further properties on the sample call *)

Section MoreRuns.
Import PyStr ConversationManager Pipeline Observe Scenario.
Local Open Scope list_scope.

Lemma process_transcription_appends_witness :
  exists reply,
    (process_transcription chat_okay no_jitter no_data prompt "hello" started).1
      .(shared).(full_transcript)
    = started.(shared).(full_transcript)
      ++ [("Lead: " ++ "hello")%string; ("AI: " ++ reply)%string]
    /\ (process_transcription chat_okay no_jitter no_data prompt "hello" started).1
         .(shared).(conversation_step) = S started.(shared).(conversation_step)
    /\ (process_transcription chat_okay no_jitter no_data prompt "hello" started).1
         .(tts_started) = started.(tts_started) ++ [reply].
Proof.
  apply (proj1 (proj2 (proj2 (proj2 (proj2
           (process_transcription_appends chat_okay no_jitter no_data prompt
              "hello" started)))))).
  reflexivity.
Defined.

Lemma spelling_dispatches_at_once_witness :
  dispatched (process_spelling_mode chat_name no_jitter no_data prompt
                12 (12 + (1 # 10)) "john" false false name_mode).1
  = dispatched name_mode ++ ["john"%string].
Proof.
  apply (spelling_dispatches_at_once chat_name no_jitter no_data prompt
           12 (12 + (1 # 10)) "john" false false name_mode).
  - intros t Ht. vm_compute in Ht. discriminate Ht.
  - left. reflexivity.
Defined.

(** The call once the AI has asked to spell the e-mail address. *)
Lemma spelling_arms_one_timer_witness :
  (process_spelling_mode chat_email no_jitter no_data prompt 21 21 "j o h n" false false
     (hear chat_email 10 11 "you can reach me by email" started)).1
    .(shared).(pending_timer)
  = Some (length (hear chat_email 10 11 "you can reach me by email" started).(timers)).
Proof.
  apply (spelling_arms_one_timer chat_email no_jitter no_data prompt 21 21 "j o h n"
           (hear chat_email 10 11 "you can reach me by email" started)).
  - intros t Ht. vm_compute in Ht. discriminate Ht.
  - vm_compute. discriminate.
  - intros _. vm_compute. reflexivity.
Defined.

Lemma spelling_timeout_bounds_witness :
  spelling_timeout (Some "phone"%string) "4 1 6 5 5 5 0 1 2 3" false = (8 # 10)%Q.
Proof.
  apply (proj2 (spelling_timeout_bounds (Some "phone"%string) "4 1 6 5 5 5 0 1 2 3" false)).
  - reflexivity.
  - vm_compute. lia.
Defined.

Lemma dead_timer_is_inert_witness :
  fire_timer chat_email no_jitter no_data prompt 30 0 (cancel_pending_timer spelling_then_pause)
  = (cancel_pending_timer spelling_then_pause, true).
Proof.
  apply (proj1 (dead_timer_is_inert chat_email no_jitter no_data prompt 30 0
                  spelling_then_pause)).
  vm_compute. reflexivity.
Defined.

Lemma assistance_buffers_until_complete_witness :
  on_transcription_response chat_phone no_jitter no_data prompt never never
    21 21 "I want to know the price" true
    (hear chat_phone 10 11 "I have a question about a listing" started)
  = (on_shared (set_buffered_transcription "I want to know the price")
       (hear chat_phone 10 11 "I have a question about a listing" started), true).
Proof.
  apply (proj1 (assistance_buffers_until_complete chat_phone no_jitter no_data prompt
                  never never 21 21 "I want to know the price"
                  (hear chat_phone 10 11 "I have a question about a listing" started)
                  eq_refl eq_refl ltac:(vm_compute; discriminate)));
    vm_compute; first [reflexivity | discriminate].
Defined.

Lemma registry_round_trip_witness :
  (StateManager.get_state true "CA1" ∅).2 !! "CA1"%string = Some initial_state
  /\ forall again,
       StateManager.get_state again "CA1" (StateManager.get_state true "CA1" ∅).2
       = (Some initial_state, (StateManager.get_state true "CA1" ∅).2).
Proof.
  apply (proj1 (registry_round_trip true "CA1" ∅) initial_state).
  reflexivity.
Defined.

Lemma timers_stay_in_order_witness :
  timers_in_order
    (run ulaw2lin is_speech rms_above chat_email no_jitter no_data prompt never never
       google_synthesize elevenlabs_stream cartesia_sse to_mulaw
       [ StartReceived "MZ0001" false "" GOOGLE;
         Transcribed 10 11 "you can reach me by email" true;
         Spoken "Could you spell your email address for me?" ELEVENLABS 0 [0%Q; 1%Q];
         MediaReceived 20 voiced;
         Transcribed 21 21 "j o h n" true;
         MediaReceived 22 silent;
         TimerElapsed 24 0;
         StopReceived ]
       initial_world).
Proof.
  apply (proj1 (timers_stay_in_order ulaw2lin is_speech rms_above chat_email no_jitter
                  no_data prompt never never google_synthesize elevenlabs_stream
                  cartesia_sse to_mulaw _)).
Defined.

End MoreRuns.
